(** * The Bali digital notary and its software security module

    A shallow embedding of [src/src/DigitalNotary.js] (the notary facade) and
    [src/src/v2/SSM.js] (the software security module), together with the
    properties of the key lifecycle that the specification states.

    Both JavaScript modules are asynchronous objects that keep a private
    [configuration] catalog and a state-machine [controller] in memory and
    mirror the catalog in one file each.  They are embedded as programs of a
    small state-and-exception monad over a [World] that holds both objects,
    both files, the clock and the source of randomness.  A thrown exception
    keeps every change made to the world before the throw, as in JavaScript.

    The notary is the one of the source: its registry holds protocol [v1]
    alone, and the security module it is given is the one of [v2/SSM.js].
    What the component framework, the file system and the cryptographic
    libraries do is outside the repository; it enters as the parameters of
    [Platform] and as the few framework functions modelled below.  The
    argument validation of the notary ([validateStructure]) is embedded; the
    properties that the specification states of the operations with
    arguments are proved for the debug levels 0 and 1, at which the
    operations do not run it, and the further properties cover the validation
    and every debug level.  The utilities of protocol [v1] that end
    [src/src/v2/SSM.js] are embedded in [V1]. *)

From Stdlib Require Import String Ascii List ZArith Bool Lia PeanoNat DecimalString.
Import ListNotations.
Local Open Scope string_scope.
Local Open Scope list_scope.

Set Implicit Arguments.
Set Warnings "-register-all".

(** ** Components of the structured-value framework *)

(** The element kinds the notary handles.  A [Binary] carries its bytes, a
    [Symbol] its text with the leading dollar sign, a [Name] its path with the
    leading slash, a [Version] its levels ([v1.2] is [[1; 2]]), and
    [PatternNone] is [bali.pattern.NONE]. *)
Inductive Value : Type :=
| Binary (bytes : string)
| Moment (instant : Z)
| Name (path : string)
| Tag (identifier : string)
| Version (levels : list positive)
| Symbol (symbol : string)
| Text (text : string)
| PatternNone.

(** A component is an element or an ordered catalog of attributes; both may
    be parameterized.  Catalogs keep insertion order, so attributes and
    parameters are association lists. *)
Inductive Component : Type :=
| Element (value : Value) (parameters : list (string * Component))
| Catalog (attributes : list (string * Component)) (parameters : list (string * Component)).

Definition Association : Type := (string * Component)%type.

Definition NONE : Component := Element PatternNone [].
Definition binary (bytes : string) : Component := Element (Binary bytes) [].
Definition symbol (s : string) : Component := Element (Symbol s) [].
Definition name (path : string) : Component := Element (Name path) [].
Definition version (levels : list positive) : Component := Element (Version levels) [].
Definition catalog (attributes parameters : list Association) : Component :=
  Catalog attributes parameters.

(** What a catalog literal keeps for a value that may be [undefined]: the
    value, or the pattern [none]. *)
Definition stored (value : option Component) : Component :=
  match value with
  | Some v => v
  | None => NONE
  end.

Definition Value_eqb (a b : Value) : bool :=
  match a, b with
  | Binary x, Binary y => String.eqb x y
  | Moment x, Moment y => Z.eqb x y
  | Name x, Name y => String.eqb x y
  | Tag x, Tag y => String.eqb x y
  | Version x, Version y => if list_eq_dec Pos.eq_dec x y then true else false
  | Symbol x, Symbol y => String.eqb x y
  | Text x, Text y => String.eqb x y
  | PatternNone, PatternNone => true
  | _, _ => false
  end.

Fixpoint allEqual (equal : Component -> Component -> bool) (xs ys : list Association) : bool :=
  match xs, ys with
  | [], [] => true
  | (k, x) :: xs', (l, y) :: ys' => String.eqb k l && equal x y && allEqual equal xs' ys'
  | _, _ => false
  end.

(** [isEqualTo]: equality of the values of two components, attribute by
    attribute and in order.  The comparator of the framework looks at values
    only: the parameters of the two components, and of their parts, play no
    part in it. *)
Fixpoint isEqualTo (a b : Component) : bool :=
  match a, b with
  | Element v _, Element w _ => Value_eqb v w
  | Catalog s _, Catalog t _ => allEqual isEqualTo s t
  | _, _ => false
  end.

(** A component without the parameters, on itself and on its parts. *)
Fixpoint bare (c : Component) : Component :=
  match c with
  | Element v _ => Element v []
  | Catalog s _ => Catalog (map (fun kv => (fst kv, bare (snd kv))) s) []
  end.

Fixpoint lookup (key : string) (l : list Association) : option Component :=
  match l with
  | [] => None
  | (k, v) :: r => if String.eqb k key then Some v else lookup key r
  end.

(** [catalog.getValue(key)] (called [getAttribute] in the security module);
    [None] is JavaScript's [undefined]. *)
Definition getValue (c : Component) (key : string) : option Component :=
  match c with
  | Catalog attributes _ => lookup key attributes
  | Element _ _ => None
  end.

Definition getParameters (c : Component) : list Association :=
  match c with
  | Catalog _ parameters => parameters
  | Element _ parameters => parameters
  end.

Definition getParameter (c : Component) (key : string) : option Component :=
  lookup key (getParameters c).

Definition getSize (c : Component) : nat :=
  match c with
  | Catalog attributes _ => length attributes
  | Element _ _ => 0
  end.

(** [setValue] replaces the value of an existing key in place and appends a
    new key at the end. *)
Fixpoint assign (key : string) (value : Component) (l : list Association) : list Association :=
  match l with
  | [] => [(key, value)]
  | (k, v) :: r => if String.eqb k key then (k, value) :: r else (k, v) :: assign key value r
  end.

Definition setValue (key : string) (value : Component) (c : Component) : Component :=
  match c with
  | Catalog attributes parameters => Catalog (assign key value attributes) parameters
  | Element _ _ => c
  end.

Definition member (key : string) (keys : list string) : bool :=
  existsb (String.eqb key) keys.

Definition removeAttributes (keys : list string) (c : Component) : Component :=
  match c with
  | Catalog attributes parameters =>
      Catalog (filter (fun kv => negb (member (fst kv) keys)) attributes) parameters
  | Element _ _ => c
  end.

(** Modelled from the spec: [bali.catalog.extraction(catalog, keys)] of the
    component framework, which is not under src/.  The specification describes
    its result as a copy of the catalog with only the listed attributes, in
    the order of the list; attributes the catalog lacks are skipped. *)
Fixpoint extract (keys : list string) (attributes : list Association) : list Association :=
  match keys with
  | [] => []
  | k :: r =>
      match lookup k attributes with
      | Some v => (k, v) :: extract r attributes
      | None => extract r attributes
      end
  end.

Definition extraction (c : Component) (keys : list string) : Component :=
  match c with
  | Catalog attributes parameters => Catalog (extract keys attributes) parameters
  | Element _ _ => Catalog [] []
  end.

(** [version.nextVersion()]: the successor at the last level. *)
Fixpoint nextLevels (levels : list positive) : list positive :=
  match levels with
  | [] => []
  | [n] => [Pos.succ n]
  | n :: r => n :: nextLevels r
  end.

Definition nextVersion (c : Component) : option Component :=
  match c with
  | Element (Version levels) parameters => Some (Element (Version (nextLevels levels)) parameters)
  | _ => None
  end.

Fixpoint dotted (levels : list positive) : string :=
  match levels with
  | [] => ""
  | [n] => NilEmpty.string_of_uint (Pos.to_uint n)
  | n :: r => NilEmpty.string_of_uint (Pos.to_uint n) ++ "." ++ dotted r
  end.

(** The source text of a version, [v1.2]. *)
Definition versionString (levels : list positive) : string := "v" ++ dotted levels.

Definition startsWith (s p : string) : bool := String.prefix p s.

(** ** Exceptions *)

Inductive Kind : Type :=
| argumentType
| invalidParameter
| invalidEvent
| invalidCertificate
| unsupportedProtocol
| storageException
| unexpected.

(** A framework exception carries the module and procedure that raised it,
    its kind and the exception that caused it; [native] is an error raised by
    the JavaScript runtime or by a library (a [TypeError], an I/O error). *)
Inductive Exception : Type :=
| native (message : string)
| exception (module procedure : string) (kind : Kind) (cause : option Exception).

Definition kindOf (e : Exception) : option Kind :=
  match e with
  | native _ => None
  | exception _ _ k _ => Some k
  end.

Definition causeOf (e : Exception) : option Exception :=
  match e with
  | native _ => None
  | exception _ _ _ c => c
  end.

Inductive Result (A : Type) : Type :=
| Ok (value : A)
| Throw (e : Exception).
Arguments Ok {A} value.
Arguments Throw {A} e.

(** ** The world: both objects and their files *)

(** A configurator is one file.  The file holds the text of a catalog, which
    [bali.component] parses back to the catalog that was written; the model
    keeps the catalog itself.  [writes] counts the calls of [store] that
    reached the file, and a [faulty] file system fails every access. *)
Record Configurator : Type := {
  content : option Component;
  writes : nat;
  faulty : bool
}.

Record World : Type := {
  account : Component;
  debug : nat;
  notaryFile : Configurator;
  configuration : option Component;
  controller : string;
  ssmFile : Configurator;
  ssmConfiguration : option Component;
  ssmController : string;
  clock : Z;
  drawn : nat
}.

Definition set_notaryFile (f : Configurator) (w : World) : World :=
  {| account := account w; debug := debug w; notaryFile := f;
     configuration := configuration w; controller := controller w;
     ssmFile := ssmFile w; ssmConfiguration := ssmConfiguration w;
     ssmController := ssmController w; clock := clock w; drawn := drawn w |}.

Definition set_configuration (c : option Component) (w : World) : World :=
  {| account := account w; debug := debug w; notaryFile := notaryFile w;
     configuration := c; controller := controller w;
     ssmFile := ssmFile w; ssmConfiguration := ssmConfiguration w;
     ssmController := ssmController w; clock := clock w; drawn := drawn w |}.

Definition set_controller (s : string) (w : World) : World :=
  {| account := account w; debug := debug w; notaryFile := notaryFile w;
     configuration := configuration w; controller := s;
     ssmFile := ssmFile w; ssmConfiguration := ssmConfiguration w;
     ssmController := ssmController w; clock := clock w; drawn := drawn w |}.

Definition set_ssmFile (f : Configurator) (w : World) : World :=
  {| account := account w; debug := debug w; notaryFile := notaryFile w;
     configuration := configuration w; controller := controller w;
     ssmFile := f; ssmConfiguration := ssmConfiguration w;
     ssmController := ssmController w; clock := clock w; drawn := drawn w |}.

Definition set_ssmConfiguration (c : option Component) (w : World) : World :=
  {| account := account w; debug := debug w; notaryFile := notaryFile w;
     configuration := configuration w; controller := controller w;
     ssmFile := ssmFile w; ssmConfiguration := c;
     ssmController := ssmController w; clock := clock w; drawn := drawn w |}.

Definition set_ssmController (s : string) (w : World) : World :=
  {| account := account w; debug := debug w; notaryFile := notaryFile w;
     configuration := configuration w; controller := controller w;
     ssmFile := ssmFile w; ssmConfiguration := ssmConfiguration w;
     ssmController := s; clock := clock w; drawn := drawn w |}.

Definition set_clock (t : Z) (w : World) : World :=
  {| account := account w; debug := debug w; notaryFile := notaryFile w;
     configuration := configuration w; controller := controller w;
     ssmFile := ssmFile w; ssmConfiguration := ssmConfiguration w;
     ssmController := ssmController w; clock := t; drawn := drawn w |}.

Definition set_drawn (n : nat) (w : World) : World :=
  {| account := account w; debug := debug w; notaryFile := notaryFile w;
     configuration := configuration w; controller := controller w;
     ssmFile := ssmFile w; ssmConfiguration := ssmConfiguration w;
     ssmController := ssmController w; clock := clock w; drawn := n |}.

(** ** The monad of operations *)

Definition M (A : Type) : Type := World -> Result A * World.

Definition ret {A} (a : A) : M A := fun w => (Ok a, w).

Definition throw {A} (e : Exception) : M A := fun w => (Throw e, w).

Definition bind {A B} (m : M A) (k : A -> M B) : M B :=
  fun w =>
    match m w with
    | (Ok a, w') => k a w'
    | (Throw e, w') => (Throw e, w')
    end.

(** [try { body } catch (cause) { handler }]. *)
Definition try {A} (body : M A) (handler : Exception -> M A) : M A :=
  fun w =>
    match body w with
    | (Ok a, w') => (Ok a, w')
    | (Throw cause, w') => handler cause w'
    end.

Definition gets {A} (f : World -> A) : M A := fun w => (Ok (f w), w).

Definition modify (f : World -> World) : M unit := fun w => (Ok tt, f w).

Declare Scope monad_scope.
Delimit Scope monad_scope with monad.
Notation "x <- m ;; k" := (bind m (fun x => k))
  (at level 61, m at next level, right associativity) : monad_scope.
Notation "m ;; k" := (bind m (fun _ => k))
  (at level 61, right associativity) : monad_scope.
Local Open Scope monad_scope.

(** A method call or property access on a value that may be [undefined]
    raises a [TypeError]. *)
Definition defined {A} (o : option A) : M A :=
  match o with
  | Some a => ret a
  | None => throw (native "TypeError")
  end.

(** [binary.getValue()]: the bytes of a binary element, as the signing
    library needs them. *)
Definition bytesOf (o : option Component) : M string :=
  match o with
  | Some (Element (Binary b) _) => ret b
  | _ => throw (native "TypeError")
  end.

(** ** The file behind a configurator *)

Definition store (source : Component) (f : Configurator) : Result unit * Configurator :=
  if faulty f then (Throw (native "EIO"), f)
  else (Ok tt, {| content := Some source; writes := S (writes f); faulty := false |}).

Definition load (f : Configurator) : Result (option Component) * Configurator :=
  if faulty f then (Throw (native "EIO"), f) else (Ok (content f), f).

(** Deleting a file that does not exist succeeds. *)
Definition delete (f : Configurator) : Result unit * Configurator :=
  if faulty f then (Throw (native "EIO"), f)
  else (Ok tt, {| content := None; writes := writes f; faulty := false |}).

Definition onNotaryFile {A} (op : Configurator -> Result A * Configurator) : M A :=
  fun w => let (r, f) := op (notaryFile w) in (r, set_notaryFile f w).

Definition onSsmFile {A} (op : Configurator -> Result A * Configurator) : M A :=
  fun w => let (r, f) := op (ssmFile w) in (r, set_ssmFile f w).

(** ** The state-machine controller *)

Fixpoint indexOf (event : string) (requests : list string) : option nat :=
  match requests with
  | [] => None
  | r :: rest =>
      if String.eqb r event then Some 0
      else match indexOf event rest with Some i => Some (S i) | None => None end
  end.

Fixpoint row (state : string) (states : list (string * list (option string)))
  : option (list (option string)) :=
  match states with
  | [] => None
  | (s, r) :: rest => if String.eqb s state then Some r else row state rest
  end.

(** The entry of the transition table for a state and an event: the next
    state, or [None] where the table says [undefined]. *)
Definition nextState (requests : list string) (states : list (string * list (option string)))
  (state event : string) : option string :=
  match row state states, indexOf event requests with
  | Some r, Some i => nth i r None
  | _, _ => None
  end.

Definition controllerModule : string := "/bali/utilities/Controller".

(** Modelled from the spec: the controller of the component framework
    ([bali.controller(REQUESTS, STATES, state)]), which is not under src/.
    [validateEvent] refuses an event whose table entry is undefined with an
    [invalidEvent] exception and changes nothing; [transitionState] validates
    the same way, moves to the next state and returns it. *)
Definition validate (requests : list string) (states : list (string * list (option string)))
  (current event : string) : Result string :=
  match nextState requests states current event with
  | Some next => Ok next
  | None => Throw (exception controllerModule "$validateEvent" invalidEvent None)
  end.

(** ** What the platform provides

    The canonical source text of a component, the random source, SHA-512 and
    Ed25519 come from libraries outside the repository.  They are taken as
    they are: [toString] is any function that prints symbols, names and
    versions as their text, [random n] is the [n]-th value the random source
    delivers, and the cryptographic primitives are arbitrary functions.
    [signerVerify signature bytes publicKey] is [signer.verify], which
    throws where it is [None]: on a signature that is not 64 bytes or a key
    that is not 32.  [SSMv1] is the module registered for protocol [v1] in
    [PROTOCOLS], whose source is not under src/; only its two stateless
    operations matter. *)
Record Verifier : Type := {
  verifierDigest : string -> Result Component;
  verifierValid : option Component -> option Component -> string -> Result bool
}.

Class Platform : Type := {
  toString : Component -> string;
  toString_symbol : forall s, toString (symbol s) = s;
  toString_name : forall n, toString (name n) = n;
  toString_version : forall v, toString (version v) = versionString v;
  random : nat -> string;
  sha512 : string -> string;
  createKeyPair : string -> string * string;
  sign : string -> string -> string -> string;
  signerVerify : string -> string -> string -> option bool;
  SSMv1 : Verifier
}.

(** The signature verifies: [signer.verify] returns [true]. *)
Definition verify `{Platform} (signature bytes publicKey : string) : bool :=
  match signerVerify signature bytes publicKey with
  | Some answer => answer
  | None => false
  end.

(** Every public operation of both files has the shape
    [try { body } catch (cause) { throw bali.exception({$module, $procedure,
    $exception: '$unexpected', ...}, cause) }], and [bali.exception] belongs
    to the component framework, which is not under src/.  In the operations
    of the security module it builds the new exception with the cause
    attached, whatever the cause: [attempt].  In the operations of the notary
    it hands back the cause itself when the cause is an exception raised in
    the name of the notary's own module, and builds the new exception for any
    other cause, among them the errors of the platform, the exceptions of the
    controller and those of the security module: [rethrowing]. *)
Definition attempt {A} (module procedure : string) (body : M A) : M A :=
  try body (fun cause => throw (exception module procedure unexpected (Some cause))).

Definition raisedBy (module : string) (e : Exception) : bool :=
  match e with
  | exception m _ _ _ => String.eqb m module
  | native _ => false
  end.

Definition rethrown (module procedure : string) (cause : Exception) : Exception :=
  if raisedBy module cause then cause
  else exception module procedure unexpected (Some cause).

Definition rethrowing {A} (module procedure : string) (body : M A) : M A :=
  try body (fun cause => throw (rethrown module procedure cause)).

(** [bali.moment()]: the current instant; the clock moves on. *)
Definition moment : M Component :=
  t <- gets clock;;
  modify (set_clock (t + 1));;
  ret (Element (Moment t) []).

Definition draw `{Platform} : M string :=
  n <- gets drawn;;
  modify (set_drawn (S n));;
  ret (random n).

(** [bali.tag()]: a new random tag. *)
Definition tag `{Platform} : M Component :=
  t <- draw;;
  ret (Element (Tag t) []).

(** ** The software security module, [src/src/v2/SSM.js] *)

(** The checks the module runs at debug levels above 1 test the JavaScript
    types of its arguments (a [Buffer], a binary string); the types of the
    embedding fix them, so the debug level of the module does not appear. *)
Module SSM.
Section Operations.
Context `{Platform}.

Definition moduleName : string := "/bali/notary/v2/SSM".
Definition PROTOCOL : list positive := [2%positive].
Definition DIGEST : string := "sha512".
Definition SIGNATURE : string := "ed25519".

Definition REQUESTS : list string := ["$generateKeys"; "$signBytes"; "$rotateKeys"].

Definition STATES : list (string * list (option string)) :=
  [ ("$keyless", [Some "$loneKey"; None;            None           ]);
    ("$loneKey", [None;            Some "$loneKey"; Some "$twoKeys"]);
    ("$twoKeys", [None;            Some "$loneKey"; None           ]) ].

Definition storeConfiguration (configuration : Component) : M unit :=
  try (onSsmFile (store configuration))
      (fun cause => throw (exception moduleName "$storeConfiguration" storageException (Some cause))).

Definition loadConfiguration : M Component :=
  try (source <- onSsmFile load;;
       match source with
       | Some configuration => ret configuration
       | None =>
           t <- tag;;
           let configuration := catalog [("$tag", t); ("$state", symbol "$keyless")] [] in
           onSsmFile (store configuration);;
           ret configuration
       end)
      (fun cause => throw (exception moduleName "$loadConfiguration" storageException (Some cause))).

Definition deleteConfiguration : M unit :=
  try (onSsmFile delete)
      (fun cause => throw (exception moduleName "$deleteConfiguration" storageException (Some cause))).

Definition getAttribute (key : string) : M (option Component) :=
  c <- gets ssmConfiguration;;
  c <- defined c;;
  ret (getValue c key).

Definition setAttribute (key : string) (value : option Component) : M unit :=
  c <- gets ssmConfiguration;;
  c <- defined c;;
  value <- defined value;;
  modify (set_ssmConfiguration (Some (setValue key value c))).

(** The block that opens every stateful operation:
    [if (!configuration) { configuration = await loadConfiguration(...);
    controller = bali.controller(REQUESTS, STATES, state, debug); }]. *)
Definition initialize : M unit :=
  c <- gets ssmConfiguration;;
  match c with
  | Some _ => ret tt
  | None =>
      loaded <- loadConfiguration;;
      modify (set_ssmConfiguration (Some loaded));;
      state <- defined (getValue loaded "$state");;
      modify (set_ssmController (toString state))
  end.

Definition validateEvent (event : string) : M unit :=
  current <- gets ssmController;;
  match validate REQUESTS STATES current event with
  | Ok _ => ret tt
  | Throw e => throw e
  end.

Definition transitionState (event : string) : M string :=
  current <- gets ssmController;;
  match validate REQUESTS STATES current event with
  | Ok next => modify (set_ssmController next);; ret next
  | Throw e => throw e
  end.

Definition persist : M unit :=
  c <- gets ssmConfiguration;;
  c <- defined c;;
  storeConfiguration c.

Definition getTag : M (option Component) :=
  attempt moduleName "$getTag"
    (initialize;;
     getAttribute "$tag").

Definition getProtocol : M Component :=
  attempt moduleName "$getProtocol" (ret (version PROTOCOL)).

Definition generateKeys : M (option Component) :=
  attempt moduleName "$generateKeys"
    (initialize;;
     validateEvent "$generateKeys";;
     seed <- draw;;
     let raw := createKeyPair seed in
     setAttribute "$publicKey" (Some (binary (fst raw)));;
     setAttribute "$privateKey" (Some (binary (snd raw)));;
     state <- transitionState "$generateKeys";;
     setAttribute "$state" (Some (symbol state));;
     persist;;
     getAttribute "$publicKey").

Definition rotateKeys : M (option Component) :=
  attempt moduleName "$rotateKeys"
    (initialize;;
     validateEvent "$rotateKeys";;
     publicKey <- getAttribute "$publicKey";;
     setAttribute "$previousPublicKey" publicKey;;
     privateKey <- getAttribute "$privateKey";;
     setAttribute "$previousPrivateKey" privateKey;;
     seed <- draw;;
     let raw := createKeyPair seed in
     setAttribute "$publicKey" (Some (binary (fst raw)));;
     setAttribute "$privateKey" (Some (binary (snd raw)));;
     state <- transitionState "$rotateKeys";;
     setAttribute "$state" (Some (symbol state));;
     persist;;
     getAttribute "$publicKey").

Definition eraseKeys : M bool :=
  attempt moduleName "$eraseKeys"
    (deleteConfiguration;;
     modify (set_ssmConfiguration None);;
     ret true).

Definition digestBytes (bytes : string) : M Component :=
  attempt moduleName "$digestBytes" (ret (binary (sha512 bytes))).

Definition signBytes (bytes : string) : M Component :=
  attempt moduleName "$signBytes"
    (initialize;;
     validateEvent "$signBytes";;
     previous <- getAttribute "$previousPublicKey";;
     keys <- match previous with
             | Some _ =>
                 privateKey <- getAttribute "$previousPrivateKey";;
                 c <- gets ssmConfiguration;;
                 c <- defined c;;
                 modify (set_ssmConfiguration
                           (Some (removeAttributes ["$previousPublicKey"; "$previousPrivateKey"] c)));;
                 ret (previous, privateKey)
             | None =>
                 publicKey <- getAttribute "$publicKey";;
                 privateKey <- getAttribute "$privateKey";;
                 ret (publicKey, privateKey)
             end;;
     publicKey <- bytesOf (fst keys);;
     privateKey <- bytesOf (snd keys);;
     let signature := sign bytes publicKey privateKey in
     state <- transitionState "$signBytes";;
     setAttribute "$state" (Some (symbol state));;
     persist;;
     ret (binary signature)).

Definition validSignature (aPublicKey signature : option Component) (bytes : string) : M bool :=
  attempt moduleName "$validSignature"
    (signature <- bytesOf signature;;
     aPublicKey <- bytesOf aPublicKey;;
     match signerVerify signature bytes aPublicKey with
     | Some isValid => ret isValid
     | None => throw (native "Error")
     end).

End Operations.
End SSM.

(** ** The digital notary, [src/src/DigitalNotary.js] *)

Module DigitalNotary.
Section Operations.
Context `{Platform}.

Definition moduleName : string := "/bali/notary/DigitalNotary".

(** The registry of validation-only protocols: the keys are the identifiers
    [v1], ... of the object literal, kept as the versions they spell. *)
Definition PROTOCOLS : list (list positive * Verifier) := [ ([1%positive], SSMv1) ].

Definition keys : list string := map (fun entry => versionString (fst entry)) PROTOCOLS.

(** [Object.keys(PROTOCOLS)[0]]: the latest protocol. *)
Definition PROTOCOL : list positive := hd [] (map fst PROTOCOLS).

Fixpoint registered (protocol : string) (registry : list (list positive * Verifier))
  : option Verifier :=
  match registry with
  | [] => None
  | (k, m) :: r => if String.eqb (versionString k) protocol then Some m else registered protocol r
  end.

Definition REQUESTS : list string :=
  ["$generateKey"; "$activateKey"; "$getCitation"; "$notarizeComponent"; "$refreshKey"].

Definition STATES : list (string * list (option string)) :=
  [ ("$limited", [Some "$pending"; None;            None;            None;            None           ]);
    ("$pending", [None;            Some "$enabled"; None;            Some "$pending"; None           ]);
    ("$enabled", [None;            None;            Some "$enabled"; Some "$enabled"; Some "$enabled"]) ].

(** *** Private functions *)

Definition storeConfiguration (configuration : Component) : M unit :=
  try (onNotaryFile (store configuration))
      (fun cause => throw (exception moduleName "$storeConfiguration" storageException (Some cause))).

Definition loadConfiguration : M Component :=
  try (source <- onNotaryFile load;;
       match source with
       | Some configuration => ret configuration
       | None =>
           let configuration := catalog [("$state", symbol "$limited")] [] in
           onNotaryFile (store configuration);;
           ret configuration
       end)
      (fun cause => throw (exception moduleName "$loadConfiguration" storageException (Some cause))).

Definition deleteConfiguration : M unit :=
  try (onNotaryFile delete)
      (fun cause => throw (exception moduleName "$deleteConfiguration" storageException (Some cause))).

Definition invalid {A} (functionName : string) : M A :=
  throw (exception moduleName functionName invalidParameter None).

Definition hasKind (test : Value -> bool) (parameterValue : option Component) : bool :=
  match parameterValue with
  | Some (Element v _) => test v
  | _ => false
  end.

Definition isCatalog (c : Component) : bool :=
  match c with
  | Catalog _ _ => true
  | Element _ _ => false
  end.

Inductive ElementType : Type := binaryType | momentType | nameType | tagType | versionType.

Definition isType (t : ElementType) (v : Value) : bool :=
  match t, v with
  | binaryType, Binary _ => true
  | momentType, Moment _ => true
  | nameType, Name _ => true
  | tagType, Tag _ => true
  | versionType, Version _ => true
  | _, _ => false
  end.

(** [validateStructure] for the element types ['binary'], ['moment'],
    ['name'], ['tag'] and ['version']. *)
Definition validateElement (functionName : string) (parameterValue : option Component)
  (t : ElementType) : M unit :=
  if hasKind (isType t) parameterValue then ret tt else invalid functionName.

(** [validateStructure] for type ['component']. *)
Definition validateComponent (functionName : string) (parameterValue : option Component) : M unit :=
  match parameterValue with
  | Some _ => ret tt
  | None => invalid functionName
  end.

(** [validateStructure] for type ['citation']. *)
Definition validateCitation (functionName : string) (parameterValue : option Component) : M unit :=
  match parameterValue with
  | Some c =>
      if isEqualTo c NONE then ret tt
      else if isCatalog c && Nat.eqb (getSize c) 5 then
        validateElement functionName (getValue c "$protocol") versionType;;
        validateElement functionName (getValue c "$timestamp") momentType;;
        validateElement functionName (getValue c "$tag") tagType;;
        validateElement functionName (getValue c "$version") versionType;;
        validateElement functionName (getValue c "$digest") binaryType;;
        let parameters := getParameters c in
        if Nat.eqb (length parameters) 1 then
          validateElement functionName (lookup "$type" parameters) nameType;;
          type <- defined (lookup "$type" parameters);;
          if startsWith (toString type) "/bali/notary/Citation/v" then ret tt
          else invalid functionName
        else invalid functionName
      else invalid functionName
  | None => invalid functionName
  end.

(** [validateStructure] for type ['certificate']. *)
Definition validateCertificate (functionName : string) (parameterValue : option Component) : M unit :=
  match parameterValue with
  | Some c =>
      if isCatalog c && Nat.eqb (getSize c) 4 then
        validateElement functionName (getValue c "$protocol") versionType;;
        validateElement functionName (getValue c "$timestamp") momentType;;
        validateElement functionName (getValue c "$account") tagType;;
        validateElement functionName (getValue c "$publicKey") binaryType;;
        let parameters := getParameters c in
        if Nat.eqb (length parameters) 5 then
          validateElement functionName (lookup "$type" parameters) nameType;;
          validateElement functionName (lookup "$tag" parameters) tagType;;
          validateElement functionName (lookup "$version" parameters) versionType;;
          validateElement functionName (lookup "$permissions" parameters) nameType;;
          validateCitation functionName (lookup "$previous" parameters);;
          type <- defined (lookup "$type" parameters);;
          permissions <- defined (lookup "$permissions" parameters);;
          if startsWith (toString type) "/bali/notary/Certificate/v"
             && startsWith (toString permissions) "/bali/permissions/public/v"
          then ret tt
          else invalid functionName
        else invalid functionName
      else invalid functionName
  | None => invalid functionName
  end.

(** [validateStructure] for type ['document']. *)
Definition validateDocument (functionName : string) (parameterValue : option Component) : M unit :=
  match parameterValue with
  | Some c =>
      if isCatalog c && Nat.eqb (getSize c) 5 then
        validateComponent functionName (getValue c "$component");;
        validateElement functionName (getValue c "$protocol") versionType;;
        validateElement functionName (getValue c "$timestamp") momentType;;
        validateCitation functionName (getValue c "$certificate");;
        validateElement functionName (getValue c "$signature") binaryType;;
        component <- defined (getValue c "$component");;
        match getParameters component with
        | [] => invalid functionName
        | parameters =>
            match lookup "$type" parameters with
            | Some type => validateElement functionName (Some type) nameType
            | None => ret tt
            end;;
            validateElement functionName (lookup "$tag" parameters) tagType;;
            validateElement functionName (lookup "$version" parameters) versionType;;
            validateElement functionName (lookup "$permissions" parameters) nameType;;
            validateCitation functionName (lookup "$previous" parameters);;
            let parameters := getParameters c in
            if Nat.eqb (length parameters) 1 then
              type <- defined (lookup "$type" parameters);;
              if startsWith (toString type) "/bali/notary/Document/v" then ret tt
              else invalid functionName
            else invalid functionName
        end
      else invalid functionName
  | None => invalid functionName
  end.

(** [validateStructure(functionName, parameterName, parameterValue,
    parameterType)]: the recursion of the source on the parameter type is
    the chain of the functions above. *)
Inductive ParameterType : Type :=
| elementType (t : ElementType)
| componentType
| citationType
| certificateType
| documentType.

Definition validateStructure (functionName : string) (parameterValue : option Component)
  (parameterType : ParameterType) : M unit :=
  match parameterType with
  | elementType t => validateElement functionName parameterValue t
  | componentType => validateComponent functionName parameterValue
  | citationType => validateCitation functionName parameterValue
  | certificateType => validateCertificate functionName parameterValue
  | documentType => validateDocument functionName parameterValue
  end.

(** [validator.validateType(module, procedure, name, value,
    ['/bali/collections/Catalog'])] of the framework: a value of another
    type raises an exception of kind [$argumentType] in the name of the
    calling module. *)
Definition validateType (functionName : string) (value : Component) : M unit :=
  if isCatalog value then ret tt
  else throw (exception moduleName functionName argumentType None).

(** Argument validation runs only at debug levels above 1. *)
Definition whenValidating (check : M unit) : M unit :=
  level <- gets debug;;
  if Nat.ltb 1 level then check else ret tt.

(** *** The configuration and its controller *)

Definition getConfigured (key : string) : M (option Component) :=
  c <- gets configuration;;
  c <- defined c;;
  ret (getValue c key).

Definition setConfigured (key : string) (value : Component) : M unit :=
  c <- gets configuration;;
  c <- defined c;;
  modify (set_configuration (Some (setValue key value c))).

(** The block that opens every stateful operation:
    [if (!configuration) { configuration = await loadConfiguration(...);
    controller = bali.controller(REQUESTS, STATES, state, debug); }]. *)
Definition initialize : M unit :=
  c <- gets configuration;;
  match c with
  | Some _ => ret tt
  | None =>
      loaded <- loadConfiguration;;
      modify (set_configuration (Some loaded));;
      state <- defined (getValue loaded "$state");;
      modify (set_controller (toString state))
  end.

Definition validateEvent (event : string) : M unit :=
  current <- gets controller;;
  match validate REQUESTS STATES current event with
  | Ok _ => ret tt
  | Throw e => throw e
  end.

Definition transitionState (event : string) : M string :=
  current <- gets controller;;
  match validate REQUESTS STATES current event with
  | Ok next => modify (set_controller next);; ret next
  | Throw e => throw e
  end.

Definition persist : M unit :=
  c <- gets configuration;;
  c <- defined c;;
  storeConfiguration c.

(** [bali.catalog({...}, {...})]: an attribute or parameter whose value is
    [undefined] is stored as the pattern [none]. *)
Fixpoint collect (entries : list (string * option Component)) : list Association :=
  match entries with
  | [] => []
  | (k, v) :: r => (k, stored v) :: collect r
  end.

Definition construct (attributes parameters : list (string * option Component)) : M Component :=
  ret (Catalog (collect attributes) (collect parameters)).

(** The security module compatible with a protocol: the notary's own module
    for the current protocol, otherwise the registered one. *)
Inductive Module : Type :=
| current
| legacy (m : Verifier).

Definition requiredModule (procedure requiredProtocol : string) : M Module :=
  if String.eqb requiredProtocol (versionString PROTOCOL) then ret current
  else match registered requiredProtocol PROTOCOLS with
       | Some m => ret (legacy m)
       | None => throw (exception moduleName procedure unsupportedProtocol None)
       end.

Definition lift {A} (r : Result A) : M A :=
  match r with
  | Ok a => ret a
  | Throw e => throw e
  end.

Definition moduleDigest (m : Module) (bytes : string) : M Component :=
  match m with
  | current => SSM.digestBytes bytes
  | legacy v => lift (verifierDigest v bytes)
  end.

Definition moduleValid (m : Module) (publicKey signature : option Component) (bytes : string)
  : M bool :=
  match m with
  | current => SSM.validSignature publicKey signature bytes
  | legacy v => lift (verifierValid v publicKey signature bytes)
  end.

Definition signedAttributes : list string :=
  ["$component"; "$protocol"; "$timestamp"; "$certificate"].

(** *** Public functions *)

Definition getProtocols : M (list string) :=
  rethrowing moduleName "$getProtocols" (ret keys).

Definition getAccount : M Component := gets account.

Definition getCitation : M (option Component) :=
  rethrowing moduleName "$getCitation"
    (initialize;;
     state <- transitionState "$getCitation";;
     setConfigured "$state" (symbol state);;
     persist;;
     getConfigured "$citation").

Definition generateKey : M Component :=
  rethrowing moduleName "$generateKey"
    (initialize;;
     validateEvent "$generateKey";;
     publicKey <- SSM.generateKeys;;
     timestamp <- moment;;
     owner <- gets account;;
     t <- tag;;
     certificate <- construct
       [ ("$protocol", Some (version PROTOCOL));
         ("$timestamp", Some timestamp);
         ("$account", Some owner);
         ("$publicKey", publicKey) ]
       [ ("$type", Some (name "/bali/notary/Certificate/v1"));
         ("$tag", Some t);
         ("$version", Some (version [1%positive]));
         ("$permissions", Some (name "/bali/permissions/public/v1"));
         ("$previous", Some NONE) ];;
     setConfigured "$certificate" certificate;;
     state <- transitionState "$generateKey";;
     setConfigured "$state" (symbol state);;
     persist;;
     ret certificate).

Definition activateKey (certificate : Component) : M Component :=
  rethrowing moduleName "$activateKey"
    (whenValidating
       (validateType "$activateKey" certificate;;
        validateStructure "$activateKey" (Some certificate) documentType;;
        validateStructure "$activateKey" (getValue certificate "$component") certificateType);;
     initialize;;
     validateEvent "$activateKey";;
     let component := getValue certificate "$component" in
     stashed <- getConfigured "$certificate";;
     stashed <- defined stashed;;
     (if match component with
         | Some c => isEqualTo stashed c
         | None => false
         end
      then ret tt
      else throw (exception moduleName "$activateKey" invalidCertificate None));;
     timestamp <- moment;;
     component <- defined component;;
     let t := getParameter component "$tag" in
     let v := getParameter component "$version" in
     let bytes := toString certificate in
     digest <- SSM.digestBytes bytes;;
     citation <- construct
       [ ("$protocol", Some (version PROTOCOL));
         ("$timestamp", Some timestamp);
         ("$tag", t);
         ("$version", v);
         ("$digest", Some digest) ]
       [ ("$type", Some (name "/bali/notary/Citation/v1")) ];;
     setConfigured "$citation" citation;;
     setConfigured "$certificate" certificate;;
     state <- transitionState "$activateKey";;
     setConfigured "$state" (symbol state);;
     persist;;
     ret citation).

Definition notarizeComponent (component : Component) : M Component :=
  rethrowing moduleName "$notarizeComponent"
    (whenValidating
       (validateType "$notarizeComponent" component;;
        validateStructure "$notarizeComponent" (Some component) componentType);;
     initialize;;
     validateEvent "$notarizeComponent";;
     citation <- getConfigured "$citation";;
     timestamp <- moment;;
     document <- construct
       [ ("$component", Some component);
         ("$protocol", Some (version PROTOCOL));
         ("$timestamp", Some timestamp);
         ("$certificate", citation) ]
       [ ("$type", Some (name "/bali/notary/Document/v1")) ];;
     let bytes := toString document in
     signature <- SSM.signBytes bytes;;
     let document := setValue "$signature" signature document in
     state <- transitionState "$notarizeComponent";;
     setConfigured "$state" (symbol state);;
     persist;;
     ret document).

Definition validDocument (document certificate : Component) : M bool :=
  rethrowing moduleName "$validDocument"
    (whenValidating
       (validateType "$validDocument" document;;
        validateStructure "$validDocument" (Some document) documentType;;
        validateType "$validDocument" certificate;;
        validateStructure "$validDocument" (Some certificate) certificateType);;
     let extracted := extraction document signedAttributes in
     let signature := getValue document "$signature" in
     let publicKey := getValue certificate "$publicKey" in
     protocol <- defined (getValue certificate "$protocol");;
     let requiredProtocol := toString protocol in
     required <- requiredModule "$validDocument" requiredProtocol;;
     let bytes := toString extracted in
     moduleValid required publicKey signature bytes).

Definition citeDocument (document : Component) : M Component :=
  rethrowing moduleName "$citeDocument"
    (whenValidating
       (validateType "$citeDocument" document;;
        validateStructure "$citeDocument" (Some document) documentType);;
     timestamp <- moment;;
     component <- defined (getValue document "$component");;
     let t := getParameter component "$tag" in
     let v := getParameter component "$version" in
     let bytes := toString document in
     digest <- SSM.digestBytes bytes;;
     construct
       [ ("$protocol", Some (version PROTOCOL));
         ("$timestamp", Some timestamp);
         ("$tag", t);
         ("$version", v);
         ("$digest", Some digest) ]
       [ ("$type", Some (name "/bali/notary/Citation/v1")) ]).

Definition citationMatches (citation document : Component) : M bool :=
  rethrowing moduleName "$citationMatches"
    (whenValidating
       (validateType "$citationMatches" citation;;
        validateStructure "$citationMatches" (Some citation) citationType;;
        validateType "$citationMatches" document;;
        validateStructure "$citationMatches" (Some document) documentType);;
     protocol <- defined (getValue citation "$protocol");;
     let requiredProtocol := toString protocol in
     required <- requiredModule "$citationMatches" requiredProtocol;;
     let bytes := toString document in
     digest <- moduleDigest required bytes;;
     ret match getValue citation "$digest" with
         | Some cited => isEqualTo digest cited
         | None => false
         end).

Definition refreshKey : M Component :=
  rethrowing moduleName "$refreshKey"
    (initialize;;
     validateEvent "$refreshKey";;
     publicKey <- SSM.rotateKeys;;
     timestamp <- moment;;
     citation <- getConfigured "$citation";;
     citation <- defined citation;;
     let t := getValue citation "$tag" in
     current <- defined (getValue citation "$version");;
     v <- defined (nextVersion current);;
     owner <- gets account;;
     component <- construct
       [ ("$protocol", Some (version PROTOCOL));
         ("$timestamp", Some timestamp);
         ("$account", Some owner);
         ("$publicKey", publicKey) ]
       [ ("$type", Some (name "/bali/notary/Certificate/v1"));
         ("$tag", t);
         ("$version", Some v);
         ("$permissions", Some (name "/bali/permissions/public/v1"));
         ("$previous", Some citation) ];;
     certificate <- construct
       [ ("$component", Some component);
         ("$protocol", Some (version PROTOCOL));
         ("$timestamp", Some timestamp);
         ("$certificate", Some citation) ]
       [ ("$type", Some (name "/bali/notary/Document/v1")) ];;
     let bytes := toString certificate in
     signature <- SSM.signBytes bytes;;
     let certificate := setValue "$signature" signature certificate in
     setConfigured "$certificate" certificate;;
     let bytes := toString certificate in
     digest <- SSM.digestBytes bytes;;
     citation <- construct
       [ ("$protocol", Some (version PROTOCOL));
         ("$timestamp", Some timestamp);
         ("$tag", t);
         ("$version", Some v);
         ("$digest", Some digest) ]
       [ ("$type", Some (name "/bali/notary/Citation/v1")) ];;
     setConfigured "$citation" citation;;
     state <- transitionState "$refreshKey";;
     setConfigured "$state" (symbol state);;
     persist;;
     ret certificate).

Definition forgetKey : M unit :=
  rethrowing moduleName "$forgetKey"
    (SSM.eraseKeys;;
     deleteConfiguration;;
     modify (set_configuration None)).

End Operations.
End DigitalNotary.

(** ** States of the two objects

    [ssmIn s c w]: the security module is in state [s] with configuration
    [c], which it either holds in memory with its controller in [s], or
    has yet to load from its file.  [notaryIn] says the same of the notary. *)
Definition ssmIn (s : string) (c : Component) (w : World) : Prop :=
  getValue c "$state" = Some (symbol s) /\
  ((ssmConfiguration w = Some c /\ ssmController w = s) \/
   (ssmConfiguration w = None /\ content (ssmFile w) = Some c /\ faulty (ssmFile w) = false)).

Definition notaryIn (s : string) (c : Component) (w : World) : Prop :=
  getValue c "$state" = Some (symbol s) /\
  ((configuration w = Some c /\ controller w = s) \/
   (configuration w = None /\ content (notaryFile w) = Some c /\ faulty (notaryFile w) = false)).

(** The world once the security module, or the notary, holds [c] in memory. *)
Definition ssmLoaded (s : string) (c : Component) (w : World) : World :=
  set_ssmController s (set_ssmConfiguration (Some c) w).

Definition notaryLoaded (s : string) (c : Component) (w : World) : World :=
  set_controller s (set_configuration (Some c) w).

(** The world once the security module, or the notary, has stored [c] from
    state [s]: [c] is in memory and in the file, which was written once more. *)
Definition ssmStored (s : string) (c : Component) (w : World) : World :=
  set_ssmFile {| content := Some c; writes := S (writes (ssmFile w)); faulty := false |}
    (ssmLoaded s c w).

Definition notaryStored (s : string) (c : Component) (w : World) : World :=
  set_notaryFile {| content := Some c; writes := S (writes (notaryFile w)); faulty := false |}
    (notaryLoaded s c w).

Definition previousKeys : list string := ["$previousPublicKey"; "$previousPrivateKey"].

(** The citation the notary builds for a document with tag [t], version [v]
    and canonical bytes [bytes] at instant [timestamp]. *)
Definition citationOf `{Platform} (timestamp : Z) (t v : Component) (bytes : string) : Component :=
  catalog
    [ ("$protocol", version [1%positive]);
      ("$timestamp", Element (Moment timestamp) []);
      ("$tag", t);
      ("$version", v);
      ("$digest", binary (sha512 bytes)) ]
    [ ("$type", name "/bali/notary/Citation/v1") ].

(** The exception [activateKey] throws for a certificate that is not the
    stashed one. *)
Definition mismatch : Exception :=
  exception DigitalNotary.moduleName "$activateKey" invalidCertificate None.

(** The exception a verification throws for a protocol that is not in the
    registry. *)
Definition unsupported (procedure : string) : Exception :=
  exception DigitalNotary.moduleName procedure unsupportedProtocol None.

(** A product of the notary stamped with protocol [v1]: its [$protocol] is
    [v1] and its [$type] is the name of [kind] at [v1]. *)
Definition stamped (kind : string) (r : Component) : Prop :=
  getValue r "$protocol" = Some (version [1%positive]) /\
  getParameter r "$type" = Some (name ("/bali/notary/" ++ kind ++ "/v1")).

(** The world after [forgetKey]: neither file exists and neither object
    holds a configuration. *)
Definition forgotten (w : World) : World :=
  set_configuration None
    (set_notaryFile {| content := None; writes := writes (notaryFile w); faulty := false |}
       (set_ssmConfiguration None
          (set_ssmFile {| content := None; writes := writes (ssmFile w); faulty := false |} w))).

(** The configuration of the security module after [rotateKeys] drew
    [seed]: the current pair has moved to the previous fields. *)
Definition rotated `{Platform} (seed : string) (publicKey privateKey c : Component) : Component :=
  setValue "$state" (symbol "$twoKeys")
    (setValue "$privateKey" (binary (snd (createKeyPair seed)))
       (setValue "$publicKey" (binary (fst (createKeyPair seed)))
          (setValue "$previousPrivateKey" privateKey
             (setValue "$previousPublicKey" publicKey c)))).

(** The certificate component [refreshKey] builds for a new public key, and
    the document that wraps a component before it is signed. *)
Definition certificateOf (timestamp : Z) (owner publicKey t v previous : Component) : Component :=
  catalog
    [ ("$protocol", version [1%positive]);
      ("$timestamp", Element (Moment timestamp) []);
      ("$account", owner);
      ("$publicKey", publicKey) ]
    [ ("$type", name "/bali/notary/Certificate/v1");
      ("$tag", t);
      ("$version", v);
      ("$permissions", name "/bali/permissions/public/v1");
      ("$previous", previous) ].

Definition documentOf (timestamp : Z) (component certificate : Component) : Component :=
  catalog
    [ ("$component", component);
      ("$protocol", version [1%positive]);
      ("$timestamp", Element (Moment timestamp) []);
      ("$certificate", certificate) ]
    [ ("$type", name "/bali/notary/Document/v1") ].

(** ** The two interfaces as requests

    The events of each state machine, with the operation that each one names.
    The results are brought to one type so that an arbitrary event can be
    invoked. *)
Inductive NotaryRequest : Type :=
| GenerateKey
| ActivateKey (certificate : Component)
| GetCitation
| NotarizeComponent (component : Component)
| RefreshKey.

Inductive SsmRequest : Type :=
| GenerateKeys
| SignBytes (bytes : string)
| RotateKeys.

Definition notaryEvent (r : NotaryRequest) : string :=
  match r with
  | GenerateKey => "$generateKey"
  | ActivateKey _ => "$activateKey"
  | GetCitation => "$getCitation"
  | NotarizeComponent _ => "$notarizeComponent"
  | RefreshKey => "$refreshKey"
  end.

Definition ssmEvent (r : SsmRequest) : string :=
  match r with
  | GenerateKeys => "$generateKeys"
  | SignBytes _ => "$signBytes"
  | RotateKeys => "$rotateKeys"
  end.

Definition some {A} (m : M A) : M (option A) := a <- m;; ret (Some a).

Definition invokeNotary `{Platform} (r : NotaryRequest) : M (option Component) :=
  match r with
  | GenerateKey => some DigitalNotary.generateKey
  | ActivateKey certificate => some (DigitalNotary.activateKey certificate)
  | GetCitation => DigitalNotary.getCitation
  | NotarizeComponent component => some (DigitalNotary.notarizeComponent component)
  | RefreshKey => some DigitalNotary.refreshKey
  end.

Definition invokeSsm `{Platform} (r : SsmRequest) : M (option Component) :=
  match r with
  | GenerateKeys => SSM.generateKeys
  | SignBytes bytes => some (SSM.signBytes bytes)
  | RotateKeys => SSM.rotateKeys
  end.

(** The public operations of the two modules: the methods whose body is
    wrapped in [try ... catch], those of the notary and those of the
    security module. *)
Inductive Public `{Platform} : forall A : Type, M A -> Prop :=
| public_getProtocols : Public DigitalNotary.getProtocols
| public_getCitation : Public DigitalNotary.getCitation
| public_generateKey : Public DigitalNotary.generateKey
| public_activateKey certificate : Public (DigitalNotary.activateKey certificate)
| public_notarizeComponent component : Public (DigitalNotary.notarizeComponent component)
| public_validDocument document certificate :
    Public (DigitalNotary.validDocument document certificate)
| public_citeDocument document : Public (DigitalNotary.citeDocument document)
| public_citationMatches citation document :
    Public (DigitalNotary.citationMatches citation document)
| public_refreshKey : Public DigitalNotary.refreshKey
| public_forgetKey : Public DigitalNotary.forgetKey.

Inductive PublicSSM `{Platform} : forall A : Type, M A -> Prop :=
| public_getTag : PublicSSM SSM.getTag
| public_getProtocol : PublicSSM SSM.getProtocol
| public_generateKeys : PublicSSM SSM.generateKeys
| public_rotateKeys : PublicSSM SSM.rotateKeys
| public_eraseKeys : PublicSSM SSM.eraseKeys
| public_digestBytes bytes : PublicSSM (SSM.digestBytes bytes)
| public_signBytes bytes : PublicSSM (SSM.signBytes bytes)
| public_validSignature aPublicKey signature bytes :
    PublicSSM (SSM.validSignature aPublicKey signature bytes).

(** What the caller observes when an operation fails with an exception of
    kind [k]: the thrown exception itself has that kind. *)
Definition failsWith {A} (k : Kind) (r : Result A) : Prop :=
  exists e, r = Throw e /\ kindOf e = Some k.

(** The exception a public operation of the notary throws when the
    controller refuses the event. *)
Definition refused (module procedure : string) : Exception :=
  exception module procedure unexpected
    (Some (exception controllerModule "$validateEvent" invalidEvent None)).

(** ** A reference platform

    A small instance of [Platform] on which the operations compute: a
    bracketed notation, decimal random values, and a signature scheme whose
    signatures are the private key followed by the message.  It serves to run
    the operations on concrete inputs. *)

Module Reference.
Local Open Scope string_scope.

Definition printValue (v : Value) : string :=
  match v with
  | Binary b => "'" ++ b ++ "'"
  | Moment t => "<" ++ NilZero.string_of_int (Z.to_int t) ++ ">"
  | Name n => n
  | Tag t => "#" ++ t
  | Version l => versionString l
  | Symbol s => s
  | Text t => String "034" (t ++ String "034" "")
  | PatternNone => "none"
  end.

Fixpoint printAll (print : Component -> string) (l : list Association) : string :=
  match l with
  | [] => ""
  | (k, v) :: r => k ++ ": " ++ print v ++ "; " ++ printAll print r
  end.

Fixpoint print (c : Component) : string :=
  match c with
  | Element v [] => printValue v
  | Element v p => printValue v ++ "(" ++ printAll print p ++ ")"
  | Catalog a [] => "[" ++ printAll print a ++ "]"
  | Catalog a p => "[" ++ printAll print a ++ "](" ++ printAll print p ++ ")"
  end.

(** A 32-bit polynomial checksum stands for the digest. *)
Fixpoint checksum (h : N) (bytes : string) : N :=
  match bytes with
  | EmptyString => h
  | String a r => checksum (N.modulo (h * 31 + N_of_ascii a) 4294967296) r
  end.

Definition digest (bytes : string) : string :=
  NilZero.string_of_uint (N.to_uint (checksum 7 bytes)).

Definition keyPair (seed : string) : string * string := ("P" ++ seed, "S" ++ seed).

Definition signature (bytes publicKey privateKey : string) : string :=
  privateKey ++ ":" ++ digest bytes.

Definition verified (signature bytes publicKey : string) : bool :=
  String.eqb signature
    ("S" ++ substring 1 (String.length publicKey - 1) publicKey ++ ":" ++ digest bytes).

(** The signing library refuses an empty signature or key. *)
Definition checked (signature bytes publicKey : string) : option bool :=
  if (String.length signature =? 0)%nat || (String.length publicKey =? 0)%nat then None
  else Some (verified signature bytes publicKey).

Definition legacyModule : Verifier :=
  {| verifierDigest := fun bytes => Ok (binary bytes);
     verifierValid := fun _ _ _ => Ok false |}.

#[export] Instance platform : Platform :=
  {| toString := print;
     toString_symbol := fun _ => eq_refl;
     toString_name := fun _ => eq_refl;
     toString_version := fun _ => eq_refl;
     random := fun n => NilZero.string_of_uint (Nat.to_uint n);
     sha512 := digest;
     createKeyPair := keyPair;
     sign := signature;
     signerVerify := checked;
     SSMv1 := legacyModule |}.

Definition idle : Configurator := {| content := None; writes := 0; faulty := false |}.

(** A notary and a security module that have not run yet, with no files. *)
Definition fresh : World :=
  {| account := Element (Tag "ACCOUNT") [];
     debug := 0;
     notaryFile := idle;
     configuration := None;
     controller := "";
     ssmFile := idle;
     ssmConfiguration := None;
     ssmController := "";
     clock := 0;
     drawn := 0 |}.

(** The world an operation leaves behind, and what it returned. *)
Definition after {A} (m : M A) (w : World) : World := snd (m w).
Definition outcome {A} (m : M A) (w : World) : Result A := fst (m w).

Definition value {A} (default : A) (m : M A) (w : World) : A :=
  match fst (m w) with
  | Ok a => a
  | Throw _ => default
  end.

Definition held (c : option Component) : Component :=
  match c with
  | Some x => x
  | None => NONE
  end.

(** The first-use scenario: generate a key, notarize the certificate with
    it, activate it; then rotate the key of the security module alone. *)
Definition pending : World := after DigitalNotary.generateKey fresh.
Definition certificate : Component := value NONE DigitalNotary.generateKey fresh.
Definition selfSigned : Component :=
  value NONE (DigitalNotary.notarizeComponent certificate) pending.
Definition notarized : World := after (DigitalNotary.notarizeComponent certificate) pending.
Definition enabled : World := after (DigitalNotary.activateKey selfSigned) notarized.
Definition twoKeys : World := after SSM.rotateKeys enabled.

(** A certificate that is not the stashed one: the stashed certificate
    wrapped around another account. *)
Definition forged : Component :=
  setValue "$component" (setValue "$account" (Element (Tag "MALLORY") []) certificate)
    selfSigned.

(** A citation of protocol [v2]. *)
Definition foreign : Component :=
  setValue "$protocol" (version [2%positive]) (held (getValue (held (configuration enabled)) "$citation")).

(** A notary whose file system fails, and one that validates its arguments. *)
Definition broken : World :=
  set_notaryFile {| content := None; writes := 0; faulty := true |} fresh.

Definition validating : World :=
  {| account := account enabled; debug := 2; notaryFile := notaryFile enabled;
     configuration := configuration enabled; controller := controller enabled;
     ssmFile := ssmFile enabled; ssmConfiguration := ssmConfiguration enabled;
     ssmController := ssmController enabled; clock := clock enabled;
     drawn := drawn enabled |}.

(** A security module that has only drawn its tag, one that has generated
    its first key pair, and a notary that has loaded its first configuration
    over the former. *)
Definition keyless : World := after SSM.getTag fresh.
Definition loneKey : World := after SSM.generateKeys fresh.
Definition limited : World := after DigitalNotary.getCitation keyless.

(** A security module whose file system fails, and a loaded notary whose
    file can no longer be written. *)
Definition brokenModule : World :=
  set_ssmFile {| content := None; writes := 0; faulty := true |} fresh.

Definition failing : World :=
  set_notaryFile {| content := content (notaryFile limited);
                    writes := writes (notaryFile limited);
                    faulty := true |} limited.

(** A catalog without parameters. *)
Definition plain : Component := catalog [("$text", Element (Text "hello") [])] [].

End Reference.

(** ** The verification as the specification words it

    The specification has [validDocument] read [$protocol] and [$publicKey]
    from the [$component] of a certifying document.  This is that reading,
    next to [DigitalNotary.validDocument], which reads them from its second
    argument itself. *)
Definition validDocument_spec `{Platform} (document certifying : Component) : M bool :=
  rethrowing DigitalNotary.moduleName "$validDocument"
    (DigitalNotary.whenValidating
       (DigitalNotary.validateType "$validDocument" document;;
        DigitalNotary.validateStructure "$validDocument" (Some document) DigitalNotary.documentType;;
        DigitalNotary.validateType "$validDocument" certifying;;
        DigitalNotary.validateStructure "$validDocument" (Some certifying) DigitalNotary.documentType);;
     let extracted := extraction document DigitalNotary.signedAttributes in
     let signature := getValue document "$signature" in
     component <- defined (getValue certifying "$component");;
     let publicKey := getValue component "$publicKey" in
     protocol <- defined (getValue component "$protocol");;
     required <- DigitalNotary.requiredModule "$validDocument" (toString protocol);;
     DigitalNotary.moduleValid required publicKey signature (toString extracted)).

(** ** Further configurations

    The configuration of the security module after [generateKeys] drew
    [seed], and the default configurations that [loadConfiguration] writes
    when there is no file. *)
Definition generated `{Platform} (seed : string) (c : Component) : Component :=
  setValue "$state" (symbol "$loneKey")
    (setValue "$privateKey" (binary (snd (createKeyPair seed)))
       (setValue "$publicKey" (binary (fst (createKeyPair seed))) c)).

Definition blankSsm (t : string) : Component :=
  catalog [("$tag", Element (Tag t) []); ("$state", symbol "$keyless")] [].

Definition blankNotary : Component := catalog [("$state", symbol "$limited")] [].

(** An object that has never run: no configuration in memory, no file, and
    a file system that works. *)
Definition ssmBlank (w : World) : Prop :=
  ssmConfiguration w = None /\ content (ssmFile w) = None /\ faulty (ssmFile w) = false.

Definition notaryBlank (w : World) : Prop :=
  configuration w = None /\ content (notaryFile w) = None /\ faulty (notaryFile w) = false.

(** The configuration of the security module once a signature has used up
    the previous key pair. *)
Definition settled (c : Component) : Component :=
  setValue "$state" (symbol "$loneKey") (removeAttributes previousKeys c).


(** A caller that has the module sign messages one after the other. *)
Fixpoint signAll `{Platform} (messages : list string) : M (list Component) :=
  match messages with
  | [] => ret []
  | bytes :: rest =>
      signature <- SSM.signBytes bytes;;
      signatures <- signAll rest;;
      ret (signature :: signatures)
  end.


(** ** Outcomes of argument validation

    [rejected f] is the exception [validateStructure] throws in function
    [f], and [mistyped f] the one [validateType] throws.  A check [accepts] when it returns in every world,
    [rejects] when it throws that exception in every world, and [decides]
    when it does one or the other and leaves the world as it is. *)
Definition rejected (functionName : string) : Exception :=
  exception DigitalNotary.moduleName functionName invalidParameter None.

Definition mistyped (functionName : string) : Exception :=
  exception DigitalNotary.moduleName functionName argumentType None.

Definition accepts (check : M unit) : Prop :=
  forall w : World, check w = (Ok tt, w).

Definition rejects (functionName : string) (check : M unit) : Prop :=
  forall w : World, check w = (Throw (rejected functionName), w).

Definition decides (functionName : string) (check : M unit) : Prop :=
  forall w : World, check w = (Ok tt, w) \/ check w = (Throw (rejected functionName), w).

(** An element of the given type. *)
Definition isA (t : DigitalNotary.ElementType) (c : option Component) : bool :=
  DigitalNotary.hasKind (DigitalNotary.isType t) c.


(** An operation that leaves the world as it found it, whatever it returns
    or throws. *)
Definition readOnly {A} (m : M A) : Prop :=
  forall w : World, snd (m w) = w.


(** The exception of the private function [procedure] of [module] when the
    file system failed under it, and the exception of an operation of the
    security module that could not load its configuration for that reason. *)
Definition storageFailure (module procedure : string) : Exception :=
  exception module procedure storageException (Some (native "EIO")).

Definition unreadable (module procedure : string) : Exception :=
  exception module procedure unexpected (Some (storageFailure module "$loadConfiguration")).


(** ** Sessions of the security module

    A caller of the security module invokes its events, [getTag] and
    [eraseKeys] one after the other, whatever each call answers. *)
Inductive ModuleCall : Type :=
| Event (r : SsmRequest)
| GetTag
| EraseKeys.

Definition callModule `{Platform} (c : ModuleCall) (w : World) : World :=
  match c with
  | Event r => snd (invokeSsm r w)
  | GetTag => snd (SSM.getTag w)
  | EraseKeys => snd (SSM.eraseKeys w)
  end.

Definition session `{Platform} (calls : list ModuleCall) (w : World) : World :=
  fold_left (fun w c => callModule c w) calls w.

(** The keys a configuration holds agree with state [s]: no previous pair
    when keyless, exactly the current pair with one key, and both pairs with
    two keys; every key is a binary. *)
Definition holdsKey (c : Component) (key : string) : Prop :=
  exists bytes : string, getValue c key = Some (binary bytes).

Definition keyed (s : string) (c : Component) : Prop :=
  (s = "$keyless" /\
   getValue c "$previousPublicKey" = None /\ getValue c "$previousPrivateKey" = None) \/
  (s = "$loneKey" /\
   holdsKey c "$publicKey" /\ holdsKey c "$privateKey" /\
   getValue c "$previousPublicKey" = None /\ getValue c "$previousPrivateKey" = None) \/
  (s = "$twoKeys" /\
   holdsKey c "$publicKey" /\ holdsKey c "$privateKey" /\
   holdsKey c "$previousPublicKey" /\ holdsKey c "$previousPrivateKey").

(** The module is coherent: its file system works, and either it has never
    run, or it is in a state [s] of its state machine with a configuration
    whose keys agree with [s] and which is the content of its file. *)
Definition coherent (w : World) : Prop :=
  faulty (ssmFile w) = false /\
  (ssmBlank w \/
   exists (s : string) (c : Component),
     ssmIn s c w /\ keyed s c /\ content (ssmFile w) = Some c).


(** ** Sessions of the notary

    A caller of the notary invokes its events and [forgetKey] one after the
    other, with any arguments and whatever each call answers. *)
Inductive NotaryCall : Type :=
| Request (r : NotaryRequest)
| ForgetKey.

Definition callNotary `{Platform} (c : NotaryCall) (w : World) : World :=
  match c with
  | Request r => snd (invokeNotary r w)
  | ForgetKey => snd (DigitalNotary.forgetKey w)
  end.

Definition notarySession `{Platform} (calls : list NotaryCall) (w : World) : World :=
  fold_left (fun w c => callNotary c w) calls w.

(** The security module is in state [s] with the keys of that state, and
    its file holds its configuration; the notary is in state [s] with
    configuration [c], which its file holds. *)
Definition moduleAt (s : string) (w : World) : Prop :=
  exists sc : Component, ssmIn s sc w /\ keyed s sc /\ content (ssmFile w) = Some sc.

Definition notaryAt (s : string) (c : Component) (w : World) : Prop :=
  notaryIn s c w /\ content (notaryFile w) = Some c.

(** What goes with each state of the notary: a limited notary has a module
    without keys; a pending one has stashed a certificate over a module with
    one pair; an enabled one has a citation with a tag and a version that has
    a successor, over a module with one pair. *)
Definition keylessModule (w : World) : Prop := ssmBlank w \/ moduleAt "$keyless" w.

Definition staged (s : string) (c : Component) (w : World) : Prop :=
  (s = "$limited" /\ keylessModule w) \/
  (s = "$pending" /\
   moduleAt "$loneKey" w /\
   exists stashed : Component, getValue c "$certificate" = Some stashed) \/
  (s = "$enabled" /\
   moduleAt "$loneKey" w /\
   exists citation t v v' : Component,
     getValue c "$citation" = Some citation /\
     getValue citation "$tag" = Some t /\
     getValue citation "$version" = Some v /\
     nextVersion v = Some v').

(** The notary and its security module are in step. *)
Definition inStep (w : World) : Prop :=
  faulty (notaryFile w) = false /\
  faulty (ssmFile w) = false /\
  ((notaryBlank w /\ keylessModule w) \/
   exists (s : string) (c : Component), notaryAt s c w /\ staged s c w).

(** A call that does not activate a certificate whose component comes
    without a version among its parameters.  The validation that runs at
    debug levels above 1 asks this of the component; at the lower levels
    nothing does. *)
Definition versioned (call : NotaryCall) : Prop :=
  match call with
  | Request (ActivateKey certificate) =>
      forall component : Component,
        getValue certificate "$component" = Some component ->
        isA DigitalNotary.versionType (getParameter component "$version") = true
  | _ => True
  end.

(** The requests whose argument, if any, passes the validation of every
    debug level. *)
Definition wellFormed (r : NotaryRequest) : Prop :=
  match r with
  | ActivateKey _ => False
  | NotarizeComponent component => DigitalNotary.isCatalog component = true
  | _ => True
  end.


(** The validation that a request runs on its argument before anything
    else. *)
Definition argumentCheck `{Platform} (r : NotaryRequest) : M unit :=
  match r with
  | ActivateKey certificate =>
      DigitalNotary.whenValidating
        (DigitalNotary.validateType "$activateKey" certificate;;
         DigitalNotary.validateStructure "$activateKey" (Some certificate)
           DigitalNotary.documentType;;
         DigitalNotary.validateStructure "$activateKey" (getValue certificate "$component")
           DigitalNotary.certificateType)
  | NotarizeComponent component =>
      DigitalNotary.whenValidating
        (DigitalNotary.validateType "$notarizeComponent" component;;
         DigitalNotary.validateStructure "$notarizeComponent" (Some component)
           DigitalNotary.componentType)
  | _ => ret tt
  end.


(** ** The utilities of protocol v1, at the end of [src/src/v2/SSM.js]

    The base 32 codec and the hash come from libraries outside the
    repository.  [base32Encode buffer indentation] is
    [codex.base32Encode(buffer, indentation)], with [None] for a call that
    leaves the indentation out, and [createHash message] is the SHA-512 hash
    of [message] as a buffer. *)
Class Codec : Type := {
  base32Encode : string -> option string -> string;
  base32Decode : string -> string;
  createHash : string -> string
}.

Module V1.
Section Utilities.
Context `{Codec}.
Local Open Scope string_scope.

Definition PROTOCOL : string := "v1".

(** The characters that [\s] matches among the first 256. *)
Definition isSpace (c : ascii) : bool :=
  existsb (Ascii.eqb c) [" "; "009"; "010"; "011"; "012"; "013"; "160"]%char.

(** [text.replace(/\s+/g, '')]. *)
Fixpoint removeSpaces (s : string) : string :=
  match s with
  | EmptyString => EmptyString
  | String c r => if isSpace c then removeSpaces r else String c (removeSpaces r)
  end.

Fixpoint skip (n : nat) (s : string) : string :=
  match n, s with
  | S m, String _ r => skip m r
  | _, _ => s
  end.

(** The replacement text of [String.prototype.replace] for a pattern without
    groups: [$$] is a dollar sign, [$&] the match, [$`] the text before
    the match and [$'] the text after it; any other dollar sign stands for
    itself. *)
Fixpoint expand (replacement matched before after : string) : string :=
  match replacement with
  | EmptyString => EmptyString
  | String a rest =>
      if Ascii.eqb a "$" then
        match rest with
        | String c r =>
            if Ascii.eqb c "$" then String "$" (expand r matched before after)
            else if Ascii.eqb c "&" then matched ++ expand r matched before after
            else if Ascii.eqb c "`" then before ++ expand r matched before after
            else if Ascii.eqb c "'" then after ++ expand r matched before after
            else String a (expand rest matched before after)
        | EmptyString => String a EmptyString
        end
      else String a (expand rest matched before after)
  end.

(** [text.replace(/pattern/, replacement)] for a literal pattern that is
    not empty: the leftmost occurrence is replaced, and a text without an
    occurrence is returned as it is.  [before] is the text already passed. *)
Fixpoint replaceFrom (pattern replacement before s : string) : string :=
  match s with
  | EmptyString => before
  | String a r =>
      if String.prefix pattern s
      then before ++ expand replacement pattern before (skip (String.length pattern) s)
           ++ skip (String.length pattern) s
      else replaceFrom pattern replacement (before ++ String a EmptyString) r
  end.

Definition replace (pattern replacement s : string) : string :=
  replaceFrom pattern replacement EmptyString s.

(** A string is truthy unless it is [undefined] or empty. *)
Definition truthy (s : option string) : bool :=
  match s with
  | Some (String _ _) => true
  | _ => false
  end.

Definition text (s : option string) : string :=
  match s with
  | Some t => t
  | None => EmptyString
  end.

Definition digest (message : string) : string :=
  let encodedDigest := "'" ++ removeSpaces (base32Encode (createHash message) None) ++ "'" in
  encodedDigest.

Definition cite (tag version : string) (document : option string) : string :=
  let encodedDigest := if truthy document then digest (text document) else "none" in
  let citation := "<bali:[$protocol:%protocol,$tag:%tag,$version:%version,$digest:%digest]>" in
  let citation := replace "%protocol" PROTOCOL citation in
  let citation := replace "%tag" tag citation in
  let citation := replace "%version" version citation in
  let citation := replace "%digest" encodedDigest citation in
  citation.

Definition bufferToEncoded (buffer : string) (indentation : option string) : string :=
  let indentation := if truthy indentation then text indentation else "" in
  let base32 := base32Encode buffer (Some indentation) in
  let encoded := "'" ++ base32 ++ indentation ++ "'" in
  encoded.

(** [encoded.slice(1, -1)]. *)
Definition slice (s : string) : string := substring 1 (String.length s - 2) s.

Definition encodedToBuffer (encoded : string) : string :=
  let base32 := slice encoded in
  base32Decode base32.

End Utilities.
End V1.

(** A text without the character [c]. *)
Fixpoint lacks (c : ascii) (s : string) : bool :=
  match s with
  | EmptyString => true
  | String a r => negb (Ascii.eqb a c) && lacks c r
  end.

(** The citation with every slot filled. *)
Definition filled (tag version encodedDigest : string) : string :=
  "<bali:[$protocol:v1,$tag:" ++ tag ++ ",$version:" ++ version ++ ",$digest:"
    ++ encodedDigest ++ "]>".

(** A codec on which the utilities compute: the encoder leaves out the
    dollar signs of the buffer and the decoder returns its text. *)
Fixpoint dropDollars (s : string) : string :=
  match s with
  | EmptyString => EmptyString
  | String a r => if Ascii.eqb a "$" then dropDollars r else String a (dropDollars r)
  end.

Definition sampleCodec : Codec :=
  {| base32Encode := fun buffer _ => dropDollars buffer;
     base32Decode := fun encoded => encoded;
     createHash := fun message => message |}.


(** The platform with another module registered for protocol [v1]. *)
Definition withVerifier (P : Platform) (v : Verifier) : Platform :=
  {| toString := @toString P;
     toString_symbol := @toString_symbol P;
     toString_name := @toString_name P;
     toString_version := @toString_version P;
     random := @random P;
     sha512 := @sha512 P;
     createKeyPair := @createKeyPair P;
     sign := @sign P;
     signerVerify := @signerVerify P;
     SSMv1 := v |}.


(** * Properties *)

Local Open Scope string_scope.

(** ** Structural equality *)

Lemma Value_eqb_spec (a b : Value) : Value_eqb a b = true <-> a = b.
Proof.
  destruct a, b; simpl; split; intro E; try discriminate; try reflexivity;
    try (apply String.eqb_eq in E; congruence);
    try (injection E as ->; apply String.eqb_refl).
  - apply Z.eqb_eq in E. congruence.
  - injection E as ->. apply Z.eqb_refl.
  - destruct (list_eq_dec Pos.eq_dec levels levels0); congruence.
  - injection E as ->. destruct (list_eq_dec Pos.eq_dec levels0 levels0); congruence.
Qed.

Lemma Component_nested_ind (P : Component -> Prop) (Q : list Association -> Prop) :
  (forall v p, Q p -> P (Element v p)) ->
  (forall a p, Q a -> Q p -> P (Catalog a p)) ->
  Q [] ->
  (forall k c l, P c -> Q l -> Q ((k, c) :: l)) ->
  forall c, P c.
Proof.
  intros HE HC Hnil Hcons.
  fix IH 1.
  assert (all : forall l, Q l).
  { fix IHl 1. intros [|[k x] l].
    - exact Hnil.
    - apply Hcons; [apply IH | apply IHl]. }
  intros [v p | a p].
  - apply HE, all.
  - apply HC; apply all.
Qed.

Lemma isEqualTo_spec (a b : Component) : isEqualTo a b = true <-> bare a = bare b.
Proof.
  revert b.
  apply (Component_nested_ind
           (fun a => forall b, isEqualTo a b = true <-> bare a = bare b)
           (fun l => forall l',
                allEqual isEqualTo l l' = true
                <-> map (fun kv => (fst kv, bare (snd kv))) l
                    = map (fun kv => (fst kv, bare (snd kv))) l')).
  - intros v p _ [w q | t q]; simpl.
    + rewrite Value_eqb_spec. split.
      * intros ->. reflexivity.
      * intros E. injection E as ->. reflexivity.
    + split; discriminate.
  - intros s p IHs _ [w q | t q]; simpl.
    + split; discriminate.
    + rewrite IHs. split.
      * intros ->. reflexivity.
      * intros E. injection E as ->. reflexivity.
  - intros [|[l y] r]; simpl; split; congruence.
  - intros k c l IHc IHl [|[k' y] r]; simpl.
    + split; discriminate.
    + rewrite !andb_true_iff, String.eqb_eq, IHc, IHl. split.
      * intros [[-> ->] ->]. reflexivity.
      * intros E. injection E as -> -> ->. repeat split.
Qed.

Lemma isEqualTo_refl (a : Component) : isEqualTo a a = true.
Proof. apply isEqualTo_spec. reflexivity. Qed.

(** ** The shape of a public operation *)

Lemma attempt_ok {A} (m p : string) (body : M A) (w w' : World) (a : A) :
  body w = (Ok a, w') -> attempt m p body w = (Ok a, w').
Proof. unfold attempt, try. intros ->. reflexivity. Qed.

Lemma attempt_throw {A} (m p : string) (body : M A) (w w' : World) (cause : Exception) :
  body w = (Throw cause, w') ->
  attempt m p body w = (Throw (exception m p unexpected (Some cause)), w').
Proof. unfold attempt, try. intros ->. reflexivity. Qed.

Lemma attempt_inversion {A} (m p : string) (body : M A) (w w' : World) (e : Exception) :
  attempt m p body w = (Throw e, w') ->
  exists cause, body w = (Throw cause, w') /\ e = exception m p unexpected (Some cause).
Proof.
  unfold attempt, try, throw. destruct (body w) as [[a | cause] w0]; intros E.
  - discriminate.
  - injection E as <- <-. exists cause. split; reflexivity.
Qed.

Lemma attempt_ext {A} (m p : string) (body body' : M A) (w : World) :
  body w = body' w -> attempt m p body w = attempt m p body' w.
Proof. unfold attempt, try. intros ->. reflexivity. Qed.

Lemma rethrowing_ok {A} (m p : string) (body : M A) (w w' : World) (a : A) :
  body w = (Ok a, w') -> rethrowing m p body w = (Ok a, w').
Proof. unfold rethrowing, try. intros ->. reflexivity. Qed.

Lemma rethrowing_throw {A} (m p : string) (body : M A) (w w' : World) (cause : Exception) :
  body w = (Throw cause, w') ->
  rethrowing m p body w = (Throw (rethrown m p cause), w').
Proof. unfold rethrowing, try. intros ->. reflexivity. Qed.

Lemma rethrowing_own {A} (m p : string) (body : M A) (w w' : World) (cause : Exception) :
  raisedBy m cause = true ->
  body w = (Throw cause, w') ->
  rethrowing m p body w = (Throw cause, w').
Proof.
  intros Hm Hb. rewrite (@rethrowing_throw _ m p body w w' cause Hb). unfold rethrown. rewrite Hm.
  reflexivity.
Qed.

Lemma rethrowing_foreign {A} (m p : string) (body : M A) (w w' : World) (cause : Exception) :
  raisedBy m cause = false ->
  body w = (Throw cause, w') ->
  rethrowing m p body w = (Throw (exception m p unexpected (Some cause)), w').
Proof.
  intros Hm Hb. rewrite (@rethrowing_throw _ m p body w w' cause Hb). unfold rethrown. rewrite Hm.
  reflexivity.
Qed.

Lemma rethrowing_inversion {A} (m p : string) (body : M A) (w w' : World) (e : Exception) :
  rethrowing m p body w = (Throw e, w') ->
  exists cause, body w = (Throw cause, w') /\ e = rethrown m p cause.
Proof.
  unfold rethrowing, try, throw. destruct (body w) as [[a | cause] w0]; intros E.
  - discriminate.
  - injection E as <- <-. exists cause. split; reflexivity.
Qed.

Lemma rethrowing_ext {A} (m p : string) (body body' : M A) (w : World) :
  body w = body' w -> rethrowing m p body w = rethrowing m p body' w.
Proof. unfold rethrowing, try. intros ->. reflexivity. Qed.

Lemma bind_ok {A B} (m : M A) (k : A -> M B) (w w' : World) (a : A) :
  m w = (Ok a, w') -> bind m k w = k a w'.
Proof. unfold bind. intros ->. reflexivity. Qed.

Lemma bind_throw {A B} (m : M A) (k : A -> M B) (w w' : World) (e : Exception) :
  m w = (Throw e, w') -> bind m k w = (Throw e, w').
Proof. unfold bind. intros ->. reflexivity. Qed.

(** ** Loading the configuration *)

Section Loading.
Context `{Platform}.

Lemma ssm_initialize (s : string) (c : Component) (w : World) :
  ssmIn s c w -> SSM.initialize w = (Ok tt, ssmLoaded s c w).
Proof.
  intros [Hs [[Hc Hk] | [Hc [Hf Hok]]]];
    destruct w as [a d nf nc nk [sc sw sf] c0 k0 t n]; simpl in *; subst.
  - reflexivity.
  - unfold SSM.initialize, SSM.loadConfiguration, ssmLoaded, bind, try, gets, onSsmFile, load.
    simpl. rewrite Hs. simpl. rewrite toString_symbol. reflexivity.
Qed.

Lemma notary_initialize (s : string) (c : Component) (w : World) :
  notaryIn s c w -> DigitalNotary.initialize w = (Ok tt, notaryLoaded s c w).
Proof.
  intros [Hs [[Hc Hk] | [Hc [Hf Hok]]]];
    destruct w as [a d [nc nw nf] c0 k0 sf sc sk t n]; simpl in *; subst.
  - reflexivity.
  - unfold DigitalNotary.initialize, DigitalNotary.loadConfiguration, notaryLoaded,
      bind, try, gets, onNotaryFile, load.
    simpl. rewrite Hs. simpl. rewrite toString_symbol. reflexivity.
Qed.

End Loading.

(** ** The security module *)

Section SecurityModule.
Context `{Platform}.

Lemma lookup_assign_same (key : string) (value : Component) (l : list Association) :
  lookup key (assign key value l) = Some value.
Proof.
  induction l as [|[k v] l IH]; simpl.
  - rewrite String.eqb_refl. reflexivity.
  - destruct (String.eqb k key) eqn:E; simpl; rewrite E; [reflexivity | exact IH].
Qed.

Lemma lookup_assign_other (key other : string) (value : Component) (l : list Association) :
  key <> other -> lookup other (assign key value l) = lookup other l.
Proof.
  intros N. induction l as [|[k v] l IH]; simpl.
  - destruct (String.eqb key other) eqn:E; [apply String.eqb_eq in E; contradiction | reflexivity].
  - destruct (String.eqb k key) eqn:E; simpl.
    + apply String.eqb_eq in E. subst k.
      destruct (String.eqb key other) eqn:E'; [apply String.eqb_eq in E'; contradiction | reflexivity].
    + destruct (String.eqb k other); [reflexivity | exact IH].
Qed.

Lemma lookup_removed (key : string) (removed : list string) (l : list Association) :
  member key removed = true ->
  lookup key (filter (fun kv => negb (member (fst kv) removed)) l) = None.
Proof.
  intros Hm. induction l as [|[k v] l IH]; simpl.
  - reflexivity.
  - destruct (member k removed) eqn:E; simpl.
    + exact IH.
    + destruct (String.eqb k key) eqn:E'.
      * apply String.eqb_eq in E'. subst k. congruence.
      * exact IH.
Qed.

Lemma lookup_kept (key : string) (removed : list string) (l : list Association) :
  member key removed = false ->
  lookup key (filter (fun kv => negb (member (fst kv) removed)) l) = lookup key l.
Proof.
  intros Hm. induction l as [|[k v] l IH]; simpl.
  - reflexivity.
  - destruct (member k removed) eqn:E; simpl.
    + destruct (String.eqb k key) eqn:E'.
      * apply String.eqb_eq in E'. subst k. congruence.
      * exact IH.
    + destruct (String.eqb k key); [reflexivity | exact IH].
Qed.

Lemma ssm_sign_previous (w : World) (c : Component) (s bytes ppk psk : string) :
  ssmIn s c w ->
  s = "$loneKey" \/ s = "$twoKeys" ->
  faulty (ssmFile w) = false ->
  getValue c "$previousPublicKey" = Some (binary ppk) ->
  getValue c "$previousPrivateKey" = Some (binary psk) ->
  SSM.signBytes bytes w
  = (Ok (binary (sign bytes ppk psk)),
     ssmStored "$loneKey"
       (setValue "$state" (symbol "$loneKey") (removeAttributes previousKeys c)) w).
Proof.
  intros Hin Hs Hf Hppk Hpsk.
  assert (Hc : exists a p, c = Catalog a p).
  { destruct c as [v p | a p]; [discriminate Hppk | eauto]. }
  destruct Hc as [a [p ->]].
  pose proof (ssm_initialize Hin) as Hinit.
  destruct w as [ac d nf nc nk [sc sw sf] c0 k0 t n]. simpl in Hf. subst sf.
  simpl in Hppk, Hpsk.
  unfold SSM.signBytes. apply attempt_ok.
  erewrite bind_ok by exact Hinit.
  unfold ssmStored, ssmLoaded, SSM.validateEvent, SSM.getAttribute, SSM.transitionState,
    SSM.setAttribute, SSM.persist, SSM.storeConfiguration, onSsmFile, store,
    bind, try, gets, modify, defined, ret.
  simpl.
  destruct Hs as [-> | ->]; simpl; rewrite Hppk; simpl; rewrite Hpsk; simpl; reflexivity.
Qed.

Lemma ssm_sign_current (w : World) (c : Component) (s bytes publicKey privateKey : string) :
  ssmIn s c w ->
  s = "$loneKey" \/ s = "$twoKeys" ->
  faulty (ssmFile w) = false ->
  getValue c "$publicKey" = Some (binary publicKey) ->
  getValue c "$privateKey" = Some (binary privateKey) ->
  getValue c "$previousPublicKey" = None ->
  SSM.signBytes bytes w
  = (Ok (binary (sign bytes publicKey privateKey)),
     ssmStored "$loneKey" (setValue "$state" (symbol "$loneKey") c) w).
Proof.
  intros Hin Hs Hf Hpk Hsk Hnone.
  assert (Hc : exists a p, c = Catalog a p).
  { destruct c as [v p | a p]; [discriminate Hpk | eauto]. }
  destruct Hc as [a [p ->]].
  pose proof (ssm_initialize Hin) as Hinit.
  destruct w as [ac d nf nc nk [sc sw sf] c0 k0 t n]. simpl in Hf. subst sf.
  simpl in Hpk, Hsk, Hnone.
  unfold SSM.signBytes. apply attempt_ok.
  erewrite bind_ok by exact Hinit.
  unfold ssmStored, ssmLoaded, SSM.validateEvent, SSM.getAttribute, SSM.transitionState,
    SSM.setAttribute, SSM.persist, SSM.storeConfiguration, onSsmFile, store,
    bind, try, gets, modify, defined, ret.
  simpl.
  destruct Hs as [-> | ->]; simpl; rewrite Hnone; simpl; rewrite Hpk; simpl;
    rewrite Hsk; simpl; reflexivity.
Qed.

Lemma getValue_setValue_same (key : string) (value c : Component) :
  (exists a p, c = Catalog a p) -> getValue (setValue key value c) key = Some value.
Proof. intros [a [p ->]]. simpl. apply lookup_assign_same. Qed.

Lemma getValue_setValue_other (key other : string) (value c : Component) :
  key <> other -> getValue (setValue key value c) other = getValue c other.
Proof.
  intros N. destruct c as [v p | a p]; simpl; [reflexivity |].
  apply lookup_assign_other. exact N.
Qed.

Lemma getValue_removed (key : string) (removed : list string) (c : Component) :
  member key removed = true -> getValue (removeAttributes removed c) key = None.
Proof.
  intros Hm. destruct c as [v p | a p]; simpl; [reflexivity |].
  apply lookup_removed. exact Hm.
Qed.

Lemma getValue_kept (key : string) (removed : list string) (c : Component) :
  member key removed = false -> getValue (removeAttributes removed c) key = getValue c key.
Proof.
  intros Hm. destruct c as [v p | a p]; simpl; [reflexivity |].
  apply lookup_kept. exact Hm.
Qed.

Lemma holds_catalog (c : Component) (key : string) (value : Component) :
  getValue c key = Some value -> exists a p, c = Catalog a p.
Proof. destruct c as [v p | a p]; [discriminate | eauto]. Qed.

(** C1. [signBytes] in a legal state ([$loneKey] or [$twoKeys]) succeeds.
    When the configuration holds a previous key pair the signature is made
    with the previous keys and the same call removes [$previousPublicKey] and
    [$previousPrivateKey] from the configuration; when it holds no previous
    public key the signature is made with the current keys.  Either way the
    module ends in [$loneKey], and the resulting configuration is in memory
    and in the file. *)
Theorem signBytes_selects_key :
  forall (w : World) (c : Component) (s bytes publicKey privateKey : string),
    ssmIn s c w ->
    s = "$loneKey" \/ s = "$twoKeys" ->
    faulty (ssmFile w) = false ->
    getValue c "$publicKey" = Some (binary publicKey) ->
    getValue c "$privateKey" = Some (binary privateKey) ->
    (forall previousPublic previousPrivate : string,
        getValue c "$previousPublicKey" = Some (binary previousPublic) ->
        getValue c "$previousPrivateKey" = Some (binary previousPrivate) ->
        let c' := setValue "$state" (symbol "$loneKey") (removeAttributes previousKeys c) in
        SSM.signBytes bytes w
        = (Ok (binary (sign bytes previousPublic previousPrivate)), ssmStored "$loneKey" c' w) /\
        getValue c' "$previousPublicKey" = None /\
        getValue c' "$previousPrivateKey" = None /\
        getValue c' "$publicKey" = Some (binary publicKey) /\
        getValue c' "$privateKey" = Some (binary privateKey) /\
        getValue c' "$state" = Some (symbol "$loneKey")) /\
    (getValue c "$previousPublicKey" = None ->
        let c' := setValue "$state" (symbol "$loneKey") c in
        SSM.signBytes bytes w
        = (Ok (binary (sign bytes publicKey privateKey)), ssmStored "$loneKey" c' w) /\
        getValue c' "$state" = Some (symbol "$loneKey")) /\
    validate SSM.REQUESTS SSM.STATES s "$signBytes" = Ok "$loneKey".
Proof.
  intros w c s bytes publicKey privateKey Hin Hs Hf Hpk Hsk.
  pose proof (holds_catalog _ _ Hpk) as Hc.
  split; [| split].
  - intros ppk psk Hppk Hpsk c'. subst c'.
    split; [apply ssm_sign_previous with (s := s); assumption |].
    rewrite !getValue_setValue_other by discriminate.
    rewrite !getValue_removed by reflexivity.
    rewrite !getValue_kept by reflexivity.
    repeat split; try assumption.
    apply getValue_setValue_same.
    destruct Hc as [a [p ->]]. simpl. eauto.
  - intros Hnone c'. subst c'.
    split; [apply ssm_sign_current with (s := s); assumption |].
    apply getValue_setValue_same. exact Hc.
  - destruct Hs as [-> | ->]; reflexivity.
Qed.

End SecurityModule.

(** ** The notary *)

Section Notary.
Context `{Platform}.

Lemma assign_same (key : string) (value : Component) (l : list Association) :
  lookup key l = Some value -> assign key value l = l.
Proof.
  induction l as [|[k v] l IH]; simpl.
  - discriminate.
  - destruct (String.eqb k key) eqn:E.
    + intros [= ->]. reflexivity.
    + intros E'. rewrite (IH E'). reflexivity.
Qed.

Lemma setValue_same (key : string) (value c : Component) :
  getValue c key = Some value -> setValue key value c = c.
Proof.
  destruct c as [v p | a p]; simpl.
  - discriminate.
  - intros E. rewrite (assign_same _ _ E). reflexivity.
Qed.

Lemma unvalidated (check : M unit) (w : World) :
  debug w <= 1 -> DigitalNotary.whenValidating check w = (Ok tt, w).
Proof.
  intros Hd. unfold DigitalNotary.whenValidating, bind, gets.
  destruct (Nat.ltb_spec 1 (debug w)); [lia | reflexivity].
Qed.

Lemma notary_refuses (s event : string) (w : World) :
  controller w = s ->
  nextState DigitalNotary.REQUESTS DigitalNotary.STATES s event = None ->
  DigitalNotary.validateEvent event w
  = (Throw (exception controllerModule "$validateEvent" invalidEvent None), w).
Proof.
  intros Hk Hn. unfold DigitalNotary.validateEvent, bind, gets, validate.
  rewrite Hk, Hn. reflexivity.
Qed.

Lemma notary_refuses_transition (s event : string) (w : World) :
  controller w = s ->
  nextState DigitalNotary.REQUESTS DigitalNotary.STATES s event = None ->
  DigitalNotary.transitionState event w
  = (Throw (exception controllerModule "$validateEvent" invalidEvent None), w).
Proof.
  intros Hk Hn. unfold DigitalNotary.transitionState, bind, gets, validate.
  rewrite Hk, Hn. reflexivity.
Qed.

Lemma ssm_refuses (s event : string) (w : World) :
  ssmController w = s ->
  nextState SSM.REQUESTS SSM.STATES s event = None ->
  SSM.validateEvent event w
  = (Throw (exception controllerModule "$validateEvent" invalidEvent None), w).
Proof.
  intros Hk Hn. unfold SSM.validateEvent, bind, gets, validate.
  rewrite Hk, Hn. reflexivity.
Qed.

Lemma getCitation_stores (w : World) (c : Component) :
  notaryIn "$enabled" c w ->
  faulty (notaryFile w) = false ->
  DigitalNotary.getCitation w
  = (Ok (getValue c "$citation"), notaryStored "$enabled" c w).
Proof.
  intros Hin Hf.
  pose proof (notary_initialize Hin) as Hinit.
  destruct Hin as [Hs _].
  destruct w as [ac d [fc fw ff] nc nk sf sc sk t n]. simpl in Hf. subst ff.
  unfold DigitalNotary.getCitation. apply rethrowing_ok.
  erewrite bind_ok by exact Hinit.
  unfold notaryStored, notaryLoaded, DigitalNotary.transitionState,
    DigitalNotary.setConfigured, DigitalNotary.getConfigured, DigitalNotary.persist,
    DigitalNotary.storeConfiguration, onNotaryFile, store, bind, try, gets, modify,
    defined, ret.
  simpl. rewrite (setValue_same _ _ Hs). reflexivity.
Qed.

Lemma getCitation_needs_store (w : World) (c : Component) :
  notaryIn "$enabled" c w ->
  faulty (notaryFile w) = true ->
  exists e w', DigitalNotary.getCitation w = (Throw e, w').
Proof.
  intros Hin Hf.
  pose proof (notary_initialize Hin) as Hinit.
  destruct Hin as [Hs _].
  destruct w as [ac d [fc fw ff] nc nk sf sc sk t n]. simpl in Hf. subst ff.
  eexists. eexists.
  unfold DigitalNotary.getCitation. apply rethrowing_throw.
  erewrite bind_ok by exact Hinit.
  unfold notaryLoaded, DigitalNotary.transitionState,
    DigitalNotary.setConfigured, DigitalNotary.getConfigured, DigitalNotary.persist,
    DigitalNotary.storeConfiguration, onNotaryFile, store, bind, try, gets, modify,
    defined, ret, throw.
  simpl. reflexivity.
Qed.

(** C9. [getCitation] in the enabled state takes the transition
    [$enabled -> $enabled] and stores the whole configuration again.  With a
    working file the call succeeds, and every call that succeeds has written
    the file once more, with the configuration it already held; the answer is
    the stored [$citation] and no field of the configuration changes. *)
Theorem getCitation_rewrites_file :
  forall (w : World) (c : Component),
    notaryIn "$enabled" c w ->
    validate DigitalNotary.REQUESTS DigitalNotary.STATES "$enabled" "$getCitation"
    = Ok "$enabled" /\
    (faulty (notaryFile w) = false ->
     DigitalNotary.getCitation w
     = (Ok (getValue c "$citation"), notaryStored "$enabled" c w)) /\
    (forall (r : option Component) (w' : World),
        DigitalNotary.getCitation w = (Ok r, w') ->
        r = getValue c "$citation" /\
        w' = notaryStored "$enabled" c w /\
        writes (notaryFile w') = S (writes (notaryFile w)) /\
        content (notaryFile w') = Some c /\
        configuration w' = Some c /\
        controller w' = "$enabled").
Proof.
  intros w c Hin.
  split; [reflexivity |]. split; [apply getCitation_stores; exact Hin |].
  intros r w' E.
  destruct (faulty (notaryFile w)) eqn:Hf.
  - destruct (getCitation_needs_store Hin Hf) as (e & w0 & E').
    rewrite E' in E. discriminate E.
  - rewrite (getCitation_stores Hin Hf) in E. injection E as <- <-.
    repeat split.
Qed.

(** C4, as the code has it.  An event that the transition table of the
    notary, or of the security module, does not allow in the current state
    makes the operation fail and leaves both files as they were; the in-memory
    state stays in the same state of the machine.  The exception that reaches
    the caller is the operation's own [unexpected] exception, and the
    controller's [invalidEvent] exception is its cause. *)
Theorem illegal_event_refused :
  (forall (r : NotaryRequest) (s : string) (c : Component) (w : World),
      notaryIn s c w ->
      debug w <= 1 ->
      nextState DigitalNotary.REQUESTS DigitalNotary.STATES s (notaryEvent r) = None ->
      invokeNotary r w
      = (Throw (refused DigitalNotary.moduleName (notaryEvent r)), notaryLoaded s c w) /\
      notaryFile (snd (invokeNotary r w)) = notaryFile w /\
      ssmFile (snd (invokeNotary r w)) = ssmFile w /\
      controller (snd (invokeNotary r w)) = s) /\
  (forall (r : SsmRequest) (s : string) (c : Component) (w : World),
      ssmIn s c w ->
      nextState SSM.REQUESTS SSM.STATES s (ssmEvent r) = None ->
      invokeSsm r w = (Throw (refused SSM.moduleName (ssmEvent r)), ssmLoaded s c w) /\
      ssmFile (snd (invokeSsm r w)) = ssmFile w /\
      ssmController (snd (invokeSsm r w)) = s).
Proof.
  split.
  - intros r s c w Hin Hd Hn.
    assert (E : invokeNotary r w
                = (Throw (refused DigitalNotary.moduleName (notaryEvent r)),
                   notaryLoaded s c w)).
    { pose proof (notary_initialize Hin) as Hinit.
      assert (Hv : DigitalNotary.validateEvent (notaryEvent r) (notaryLoaded s c w)
                   = (Throw (exception controllerModule "$validateEvent" invalidEvent None),
                      notaryLoaded s c w))
        by (apply notary_refuses with (s := s); [reflexivity | exact Hn]).
      destruct r as [| certificate | | component |]; unfold invokeNotary, some, refused;
        simpl notaryEvent in *.
      - erewrite bind_throw; [reflexivity |].
        apply rethrowing_foreign; [reflexivity |].
        erewrite bind_ok by exact Hinit.
        erewrite bind_throw; [reflexivity | exact Hv].
      - erewrite bind_throw; [reflexivity |].
        apply rethrowing_foreign; [reflexivity |].
        erewrite bind_ok by (apply unvalidated; exact Hd).
        erewrite bind_ok by exact Hinit.
        erewrite bind_throw; [reflexivity | exact Hv].
      - apply rethrowing_foreign; [reflexivity |].
        erewrite bind_ok by exact Hinit.
        erewrite bind_throw; [reflexivity |].
        apply notary_refuses_transition with (s := s); [reflexivity | exact Hn].
      - erewrite bind_throw; [reflexivity |].
        apply rethrowing_foreign; [reflexivity |].
        erewrite bind_ok by (apply unvalidated; exact Hd).
        erewrite bind_ok by exact Hinit.
        erewrite bind_throw; [reflexivity | exact Hv].
      - erewrite bind_throw; [reflexivity |].
        apply rethrowing_foreign; [reflexivity |].
        erewrite bind_ok by exact Hinit.
        erewrite bind_throw; [reflexivity | exact Hv]. }
    rewrite E. repeat split.
  - intros r s c w Hin Hn.
    assert (E : invokeSsm r w
                = (Throw (refused SSM.moduleName (ssmEvent r)), ssmLoaded s c w)).
    { pose proof (ssm_initialize Hin) as Hinit.
      assert (Hv : SSM.validateEvent (ssmEvent r) (ssmLoaded s c w)
                   = (Throw (exception controllerModule "$validateEvent" invalidEvent None),
                      ssmLoaded s c w))
        by (apply ssm_refuses with (s := s); [reflexivity | exact Hn]).
      destruct r as [| bytes |]; unfold invokeSsm, some, refused; simpl ssmEvent in *.
      - apply attempt_throw.
        erewrite bind_ok by exact Hinit.
        erewrite bind_throw; [reflexivity | exact Hv].
      - erewrite bind_throw; [reflexivity |].
        apply attempt_throw.
        erewrite bind_ok by exact Hinit.
        erewrite bind_throw; [reflexivity | exact Hv].
      - apply attempt_throw.
        erewrite bind_ok by exact Hinit.
        erewrite bind_throw; [reflexivity | exact Hv]. }
    rewrite E. repeat split.
Qed.

End Notary.

(** ** Propagation of errors *)

Section Propagation.
Context `{Platform}.

Lemma wrapped_is_unexpected {A} (m p : string) (body : M A) (w : World) (k : Kind) :
  k <> unexpected -> ~ failsWith k (fst (attempt m p body w)).
Proof.
  intros Hk [e [He Hkind]].
  destruct (attempt m p body w) as [r w'] eqn:E. simpl in He. subst r.
  apply attempt_inversion in E. destruct E as [cause [_ ->]].
  simpl in Hkind. congruence.
Qed.

Lemma own_module (p : string) (k : Kind) (c : option Exception) :
  raisedBy DigitalNotary.moduleName (exception DigitalNotary.moduleName p k c) = true.
Proof. reflexivity. Qed.

(** C5, as the code has it.  Every public operation is its body inside one
    handler.  In an operation of the notary the handler throws an exception
    raised in the name of the notary's own module as it is, so the caller
    observes its kind: these are the [invalidParameter], [argumentType],
    [invalidCertificate], [unsupportedProtocol] and [storageException]
    exceptions the notary raises itself.  Every other error, and with it the
    [invalidEvent] exception of the controller and every exception of the
    security module, is rethrown as the operation's [unexpected] exception
    with the error as its cause; an operation of the notary throws nothing
    else.  In an operation of the security module the handler rethrows every
    error, of whatever kind, as [unexpected] with the error as its cause, so
    its caller never observes one of the other kinds directly. *)
Theorem every_error_rethrown :
  (forall (A : Type) (operation : M A),
      Public operation ->
      exists (procedure : string) (body : M A),
        operation = rethrowing DigitalNotary.moduleName procedure body /\
        (forall (w w' : World) (p : string) (k : Kind) (c : option Exception),
            body w = (Throw (exception DigitalNotary.moduleName p k c), w') ->
            operation w = (Throw (exception DigitalNotary.moduleName p k c), w') /\
            failsWith k (fst (operation w))) /\
        (forall (w w' : World) (cause : Exception),
            body w = (Throw cause, w') ->
            raisedBy DigitalNotary.moduleName cause = false ->
            operation w
            = (Throw (exception DigitalNotary.moduleName procedure unexpected (Some cause)),
               w')) /\
        (forall (w w' : World),
            body w = (Throw (exception controllerModule "$validateEvent" invalidEvent None), w') ->
            operation w = (Throw (refused DigitalNotary.moduleName procedure), w') /\
            ~ failsWith invalidEvent (fst (operation w))) /\
        (forall (w w' : World) (e : Exception),
            operation w = (Throw e, w') ->
            exists cause,
              body w = (Throw cause, w') /\
              e = rethrown DigitalNotary.moduleName procedure cause)) /\
  (forall (A : Type) (operation : M A),
      PublicSSM operation ->
      exists (procedure : string) (body : M A),
        operation = attempt SSM.moduleName procedure body /\
        (forall (w w' : World) (cause : Exception),
            body w = (Throw cause, w') ->
            operation w
            = (Throw (exception SSM.moduleName procedure unexpected (Some cause)), w')) /\
        (forall (w w' : World) (e : Exception),
            operation w = (Throw e, w') ->
            exists cause,
              body w = (Throw cause, w') /\
              e = exception SSM.moduleName procedure unexpected (Some cause)) /\
        (forall (w : World) (k : Kind),
            k <> unexpected -> ~ failsWith k (fst (operation w)))).
Proof.
  split.
  - intros A operation HP.
    destruct HP;
      match goal with
      | |- exists _ _, ?op = _ /\ _ =>
          let h := eval red in op in
          match h with
          | rethrowing _ ?p ?b => exists p, b
          end
      end;
      (split; [reflexivity |]);
      (split;
       [intros w w' p k c Hb;
        match goal with
        | |- ?o w = _ /\ _ =>
            assert (E : o w = (Throw (exception DigitalNotary.moduleName p k c), w'))
              by (apply rethrowing_own; [reflexivity | exact Hb]);
            rewrite E
        end;
        split; [reflexivity | eexists; split; reflexivity] |]);
      (split; [intros w w' cause Hb Hm; apply rethrowing_foreign; assumption |]);
      (split;
       [intros w w' Hb;
        match goal with
        | |- ?o w = (?r, _) /\ _ =>
            assert (E : o w = (r, w'))
              by (apply rethrowing_foreign; [reflexivity | exact Hb]);
            rewrite E
        end;
        split; [reflexivity | intros [e [He Hk]]; injection He as <-; discriminate Hk]
       | intros w w' e; apply rethrowing_inversion]).
  - intros A operation HP.
    destruct HP;
      match goal with
      | |- exists _ _, ?op = _ /\ _ =>
          let h := eval red in op in
          match h with
          | attempt _ ?p ?b => exists p, b
          end
      end;
      (split; [reflexivity |]);
      (split; [intros w w' cause; apply attempt_throw |]);
      (split; [intros w w' e; apply attempt_inversion
              | intros w k; apply wrapped_is_unexpected]).
Qed.

End Propagation.

(** ** Activation, citation and verification *)

Section Documents.
Context `{Platform}.



Lemma unsupported_module (procedure protocol : string) (w : World) :
  protocol <> "v1" ->
  DigitalNotary.requiredModule procedure protocol w
  = (Throw (exception DigitalNotary.moduleName procedure unsupportedProtocol None), w).
Proof.
  intros N.
  unfold DigitalNotary.requiredModule, DigitalNotary.registered, DigitalNotary.PROTOCOLS,
    DigitalNotary.PROTOCOL.
  change (versionString (hd [] (map fst DigitalNotary.PROTOCOLS))) with "v1".
  change (versionString [1%positive]) with "v1".
  rewrite (String.eqb_sym "v1" protocol).
  destruct (String.eqb protocol "v1") eqn:E.
  - apply String.eqb_eq in E. contradiction.
  - reflexivity.
Qed.

Lemma current_module (procedure : string) (w : World) :
  DigitalNotary.requiredModule procedure "v1" w = (Ok DigitalNotary.current, w).
Proof. reflexivity. Qed.

Lemma validDocument_unsupported (w : World) (document certificate protocol : Component) :
  debug w <= 1 ->
  getValue certificate "$protocol" = Some protocol ->
  toString protocol <> "v1" ->
  DigitalNotary.validDocument document certificate w = (Throw (unsupported "$validDocument"), w).
Proof.
  intros Hd Hp N. unfold DigitalNotary.validDocument, unsupported. apply rethrowing_own; [reflexivity |].
  erewrite bind_ok by (apply unvalidated; exact Hd).
  rewrite Hp. simpl defined.
  erewrite bind_ok by reflexivity.
  erewrite bind_throw; [reflexivity |].
  apply unsupported_module. exact N.
Qed.

Lemma citationMatches_unsupported (w : World) (citation document protocol : Component) :
  debug w <= 1 ->
  getValue citation "$protocol" = Some protocol ->
  toString protocol <> "v1" ->
  DigitalNotary.citationMatches citation document w
  = (Throw (unsupported "$citationMatches"), w).
Proof.
  intros Hd Hp N. unfold DigitalNotary.citationMatches, unsupported. apply rethrowing_own; [reflexivity |].
  erewrite bind_ok by (apply unvalidated; exact Hd).
  rewrite Hp. simpl defined.
  erewrite bind_ok by reflexivity.
  erewrite bind_throw; [reflexivity |].
  apply unsupported_module. exact N.
Qed.

Lemma validDocument_current (w : World) (document certificate protocol : Component) :
  debug w <= 1 ->
  getValue certificate "$protocol" = Some protocol ->
  toString protocol = "v1" ->
  DigitalNotary.validDocument document certificate w
  = rethrowing DigitalNotary.moduleName "$validDocument"
      (SSM.validSignature (getValue certificate "$publicKey") (getValue document "$signature")
         (toString (extraction document DigitalNotary.signedAttributes))) w.
Proof.
  intros Hd Hp E. unfold DigitalNotary.validDocument. apply rethrowing_ext.
  erewrite bind_ok by (apply unvalidated; exact Hd).
  rewrite Hp. simpl defined.
  erewrite bind_ok by reflexivity.
  rewrite E.
  erewrite bind_ok by apply current_module.
  reflexivity.
Qed.

Lemma verify_answer (signature bytes publicKey : string) :
  verify signature bytes publicKey = true ->
  signerVerify signature bytes publicKey = Some true.
Proof.
  unfold verify. destruct (signerVerify signature bytes publicKey) as [[|]|]; congruence.
Qed.

Lemma validSignature_answers (w : World) (publicKey signature bytes : string) (answer : bool) :
  signerVerify signature bytes publicKey = Some answer ->
  SSM.validSignature (Some (binary publicKey)) (Some (binary signature)) bytes w
  = (Ok answer, w).
Proof.
  intros E. unfold SSM.validSignature. apply attempt_ok.
  unfold bytesOf, binary, bind, ret. rewrite E. reflexivity.
Qed.

Lemma validSignature_throws (w : World) (publicKey signature bytes : string) :
  signerVerify signature bytes publicKey = None ->
  SSM.validSignature (Some (binary publicKey)) (Some (binary signature)) bytes w
  = (Throw (exception SSM.moduleName "$validSignature" unexpected (Some (native "Error"))),
     w).
Proof.
  intros E. unfold SSM.validSignature. apply attempt_throw.
  unfold bytesOf, binary, bind, ret, throw. rewrite E. reflexivity.
Qed.

Lemma validDocument_verifies (w : World) (document certificate protocol : Component)
  (publicKey signature : string) (answer : bool) :
  debug w <= 1 ->
  getValue certificate "$protocol" = Some protocol ->
  toString protocol = "v1" ->
  getValue certificate "$publicKey" = Some (binary publicKey) ->
  getValue document "$signature" = Some (binary signature) ->
  signerVerify signature (toString (extraction document DigitalNotary.signedAttributes))
    publicKey = Some answer ->
  DigitalNotary.validDocument document certificate w = (Ok answer, w).
Proof.
  intros Hd Hp E Hpk Hsig Ha.
  rewrite validDocument_current with (protocol := protocol) by assumption.
  rewrite Hpk, Hsig. apply rethrowing_ok. apply validSignature_answers. exact Ha.
Qed.

Lemma validDocument_throws (w : World) (document certificate protocol : Component)
  (publicKey signature : string) :
  debug w <= 1 ->
  getValue certificate "$protocol" = Some protocol ->
  toString protocol = "v1" ->
  getValue certificate "$publicKey" = Some (binary publicKey) ->
  getValue document "$signature" = Some (binary signature) ->
  signerVerify signature (toString (extraction document DigitalNotary.signedAttributes))
    publicKey = None ->
  DigitalNotary.validDocument document certificate w
  = (Throw (exception DigitalNotary.moduleName "$validDocument" unexpected
              (Some (exception SSM.moduleName "$validSignature" unexpected
                       (Some (native "Error"))))), w).
Proof.
  intros Hd Hp E Hpk Hsig Ha.
  rewrite validDocument_current with (protocol := protocol) by assumption.
  rewrite Hpk, Hsig. apply rethrowing_foreign; [reflexivity |].
  apply validSignature_throws. exact Ha.
Qed.

Lemma citationMatches_current (w : World) (citation document protocol : Component) :
  debug w <= 1 ->
  getValue citation "$protocol" = Some protocol ->
  toString protocol = "v1" ->
  DigitalNotary.citationMatches citation document w
  = (Ok match getValue citation "$digest" with
        | Some cited => isEqualTo (binary (sha512 (toString document))) cited
        | None => false
        end, w).
Proof.
  intros Hd Hp E. unfold DigitalNotary.citationMatches. apply rethrowing_ok.
  erewrite bind_ok by (apply unvalidated; exact Hd).
  rewrite Hp. simpl defined.
  erewrite bind_ok by reflexivity.
  rewrite E.
  erewrite bind_ok by apply current_module.
  reflexivity.
Qed.

Lemma citeDocument_result (w : World) (d component t v : Component) :
  debug w <= 1 ->
  getValue d "$component" = Some component ->
  getParameter component "$tag" = Some t ->
  getParameter component "$version" = Some v ->
  DigitalNotary.citeDocument d w
  = (Ok (citationOf (clock w) t v (toString d)), set_clock (clock w + 1) w).
Proof.
  intros Hd Hc Ht Hv. unfold DigitalNotary.citeDocument. apply rethrowing_ok.
  erewrite bind_ok by (apply unvalidated; exact Hd).
  unfold moment, DigitalNotary.construct, SSM.digestBytes, attempt, rethrowing, bind, try, gets, modify,
    defined, ret.
  simpl. rewrite Hc. simpl. rewrite Ht, Hv. reflexivity.
Qed.

(** C7.  The citation of a notarized document carries the digest of the
    document's full canonical bytes, the ones that include [$signature], and
    [citationMatches] compares that digest bytewise with the digest of the
    document it is given.  So the citation of [d] matches [d], and it does not
    match a document whose canonical bytes differ, the two byte strings not
    being a collision of the digest. *)
Theorem citation_round_trip :
  forall (w : World) (d component t v : Component),
    debug w <= 1 ->
    getValue d "$component" = Some component ->
    getParameter component "$tag" = Some t ->
    getParameter component "$version" = Some v ->
    exists citation w1,
      DigitalNotary.citeDocument d w = (Ok citation, w1) /\
      getValue citation "$digest" = Some (binary (sha512 (toString d))) /\
      DigitalNotary.citationMatches citation d w1 = (Ok true, w1) /\
      (forall d' : Component,
          DigitalNotary.citationMatches citation d' w1
          = (Ok (String.eqb (sha512 (toString d')) (sha512 (toString d))), w1)) /\
      (forall d' : Component,
          toString d' <> toString d ->
          (sha512 (toString d') = sha512 (toString d) -> toString d' = toString d) ->
          DigitalNotary.citationMatches citation d' w1 = (Ok false, w1)).
Proof.
  intros w d component t v Hd Hc Ht Hv.
  exists (citationOf (clock w) t v (toString d)), (set_clock (clock w + 1) w).
  assert (Hm : forall d' : Component,
             DigitalNotary.citationMatches (citationOf (clock w) t v (toString d)) d'
               (set_clock (clock w + 1) w)
             = (Ok (String.eqb (sha512 (toString d')) (sha512 (toString d))),
                set_clock (clock w + 1) w)).
  { intros d'.
    rewrite citationMatches_current with (protocol := version [1%positive]).
    - reflexivity.
    - exact Hd.
    - reflexivity.
    - apply toString_version. }
  split; [apply citeDocument_result with (component := component); assumption |].
  split; [reflexivity |].
  split; [rewrite Hm, String.eqb_refl; reflexivity |].
  split; [exact Hm |].
  intros d' Hne Hfree. rewrite Hm.
  destruct (String.eqb (sha512 (toString d')) (sha512 (toString d))) eqn:E; [| reflexivity].
  apply String.eqb_eq in E. apply Hfree in E. contradiction.
Qed.

Lemma extraction_signed (a p : list Association) (component protocol timestamp certificate : Component) :
  lookup "$component" a = Some component ->
  lookup "$protocol" a = Some protocol ->
  lookup "$timestamp" a = Some timestamp ->
  lookup "$certificate" a = Some certificate ->
  extraction (Catalog a p) DigitalNotary.signedAttributes
  = Catalog [ ("$component", component); ("$protocol", protocol);
              ("$timestamp", timestamp); ("$certificate", certificate) ] p.
Proof.
  intros H1 H2 H3 H4. unfold extraction, DigitalNotary.signedAttributes. simpl.
  rewrite H1, H2, H3, H4. reflexivity.
Qed.

(** C3, as the code has it.  [validDocument(document, certificate)] reads
    [$protocol] and [$publicKey] from its second argument itself, which is the
    certificate, not from a [$component] inside it.  The module is the
    notary's own for protocol [v1]; no other protocol is registered, and the
    call then fails with the [unsupportedProtocol] exception.  The signed
    payload is the source of the copy of the document that holds
    [$component], [$protocol], [$timestamp] and [$certificate], in this order,
    and the call is [validSignature] on the public key, the signature and the
    payload: it answers what the signing library answers, and where the
    library throws, the exception of [validSignature] is rethrown as the
    [unexpected] exception of [validDocument]. *)
Theorem validDocument_reads_certificate :
  forall (w : World) (document certificate protocol : Component),
    debug w <= 1 ->
    getValue certificate "$protocol" = Some protocol ->
    let payload := toString (extraction document DigitalNotary.signedAttributes) in
    (toString protocol = "v1" ->
       DigitalNotary.validDocument document certificate w
       = rethrowing DigitalNotary.moduleName "$validDocument"
           (SSM.validSignature (getValue certificate "$publicKey")
              (getValue document "$signature") payload) w) /\
    (toString protocol = "v1" ->
       forall publicKey signature : string,
         getValue certificate "$publicKey" = Some (binary publicKey) ->
         getValue document "$signature" = Some (binary signature) ->
         (forall answer : bool,
             signerVerify signature payload publicKey = Some answer ->
             SSM.validSignature (Some (binary publicKey)) (Some (binary signature)) payload w
             = (Ok answer, w) /\
             DigitalNotary.validDocument document certificate w = (Ok answer, w)) /\
         (signerVerify signature payload publicKey = None ->
          exists e : Exception,
            SSM.validSignature (Some (binary publicKey)) (Some (binary signature)) payload w
            = (Throw e, w) /\
            DigitalNotary.validDocument document certificate w
            = (Throw (exception DigitalNotary.moduleName "$validDocument" unexpected (Some e)),
               w))) /\
    (toString protocol <> "v1" ->
       DigitalNotary.validDocument document certificate w
       = (Throw (unsupported "$validDocument"), w) /\
       failsWith unsupportedProtocol
         (fst (DigitalNotary.validDocument document certificate w))) /\
    (forall (a p : list Association) (c1 c2 c3 c4 : Component),
        document = Catalog a p ->
        lookup "$component" a = Some c1 ->
        lookup "$protocol" a = Some c2 ->
        lookup "$timestamp" a = Some c3 ->
        lookup "$certificate" a = Some c4 ->
        extraction document DigitalNotary.signedAttributes
        = Catalog [ ("$component", c1); ("$protocol", c2);
                    ("$timestamp", c3); ("$certificate", c4) ] p).
Proof.
  intros w document certificate protocol Hd Hp payload.
  split; [| split; [| split]].
  - intros E. apply validDocument_current with (protocol := protocol); assumption.
  - intros E publicKey signature Hpk Hsig. split.
    + intros answer Ha. split; [apply validSignature_answers; exact Ha |].
      apply validDocument_verifies with (protocol := protocol) (publicKey := publicKey)
                                        (signature := signature); assumption.
    + intros Ha. eexists. split; [apply validSignature_throws; exact Ha |].
      apply validDocument_throws with (protocol := protocol) (publicKey := publicKey)
                                      (signature := signature); assumption.
  - intros N.
    rewrite validDocument_unsupported with (protocol := protocol) by assumption.
    split; [reflexivity | eexists; split; reflexivity].
  - intros a p c1 c2 c3 c4 -> H1 H2 H3 H4. apply extraction_signed; assumption.
Qed.

End Documents.

(** ** The protocol of the notary *)

Section Protocol.
Context `{Platform}.

Lemma bind_inversion {A B} (m : M A) (k : A -> M B) (w w' : World) (b : B) :
  bind m k w = (Ok b, w') -> exists a w1, m w = (Ok a, w1) /\ k a w1 = (Ok b, w').
Proof.
  unfold bind. destruct (m w) as [[a | e] w1]; intros E.
  - exists a, w1. split; [reflexivity | exact E].
  - discriminate.
Qed.

Lemma attempt_ok_inversion {A} (m p : string) (body : M A) (w w' : World) (a : A) :
  attempt m p body w = (Ok a, w') -> body w = (Ok a, w').
Proof.
  unfold attempt, try, throw. destruct (body w) as [[x | e] w1]; intros E.
  - exact E.
  - discriminate.
Qed.

Lemma rethrowing_ok_inversion {A} (m p : string) (body : M A) (w w' : World) (a : A) :
  rethrowing m p body w = (Ok a, w') -> body w = (Ok a, w').
Proof.
  unfold rethrowing, try, throw. destruct (body w) as [[x | e] w1]; intros E.
  - exact E.
  - discriminate.
Qed.

Lemma construct_inversion (attributes parameters : list (string * option Component))
  (w w' : World) (r : Component) :
  DigitalNotary.construct attributes parameters w = (Ok r, w') ->
  r = Catalog (DigitalNotary.collect attributes) (DigitalNotary.collect parameters).
Proof. unfold DigitalNotary.construct, ret. intros E. injection E as <- _. reflexivity. Qed.

Lemma collect_first (k : string) (v : Component) (rest : list (string * option Component)) :
  lookup k (DigitalNotary.collect ((k, Some v) :: rest)) = Some v.
Proof. simpl. rewrite String.eqb_refl. reflexivity. Qed.

Lemma collect_second (k0 k : string) (v0 : option Component) (v : Component)
  (rest : list (string * option Component)) :
  String.eqb k0 k = false ->
  lookup k (DigitalNotary.collect ((k0, v0) :: (k, Some v) :: rest)) = Some v.
Proof.
  intros N. simpl. rewrite N, String.eqb_refl. reflexivity.
Qed.

Ltac peel H :=
  repeat (cbv beta zeta in H;
          apply bind_inversion in H;
          let a := fresh "a" in
          let w := fresh "w" in
          let E := fresh "E" in
          destruct H as (a & w & E & H)).

Lemma element_stamped (kind : string) (rest others : list (string * option Component))
  (w w' : World) (r : Component) :
  DigitalNotary.construct
    (("$protocol", Some (version DigitalNotary.PROTOCOL)) :: rest)
    (("$type", Some (name ("/bali/notary/" ++ kind ++ "/v1"))) :: others) w = (Ok r, w') ->
  stamped kind r.
Proof.
  intros E. apply construct_inversion in E. subst r.
  split.
  - cbn [getValue]. apply collect_first.
  - unfold getParameter. cbn [getParameters]. apply collect_first.
Qed.

Lemma document_stamped (rest : list (string * option Component)) (component : Component)
  (w w' : World) (r : Component) :
  DigitalNotary.construct
    (("$component", Some component) :: ("$protocol", Some (version DigitalNotary.PROTOCOL)) :: rest)
    [("$type", Some (name "/bali/notary/Document/v1"))] w = (Ok r, w') ->
  stamped "Document" r /\ getValue r "$component" = Some component.
Proof.
  intros E. apply construct_inversion in E. subst r.
  split; [split |].
  - cbn [getValue]. apply collect_second. reflexivity.
  - unfold getParameter. cbn [getParameters]. apply collect_first.
  - cbn [getValue]. apply collect_first.
Qed.

Lemma signed_stamped (signature document : Component) :
  stamped "Document" document ->
  stamped "Document" (setValue "$signature" signature document).
Proof.
  intros [Hp Ht]. split.
  - rewrite getValue_setValue_other by discriminate. exact Hp.
  - destruct document; exact Ht.
Qed.

(** C10.  The registry holds the one protocol [v1], which is also the
    protocol the notary writes: [getProtocols] answers [v1] alone, and every
    certificate, notarized document and citation the notary returns carries
    [$protocol] [v1] and a [$type] at [v1].  A certificate or a citation of
    any other protocol, [v2] among them, makes [validDocument] and
    [citationMatches] fail with the [unsupportedProtocol] exception, which
    reaches the caller as it is, and the world is as before. *)
Theorem only_protocol_v1 :
  DigitalNotary.keys = ["v1"] /\
  versionString DigitalNotary.PROTOCOL = "v1" /\
  (forall w : World, DigitalNotary.getProtocols w = (Ok ["v1"], w)) /\
  (forall (w w' : World) (r : Component),
      DigitalNotary.generateKey w = (Ok r, w') -> stamped "Certificate" r) /\
  (forall (w w' : World) (certificate r : Component),
      DigitalNotary.activateKey certificate w = (Ok r, w') -> stamped "Citation" r) /\
  (forall (w w' : World) (component r : Component),
      DigitalNotary.notarizeComponent component w = (Ok r, w') -> stamped "Document" r) /\
  (forall (w w' : World) (document r : Component),
      DigitalNotary.citeDocument document w = (Ok r, w') -> stamped "Citation" r) /\
  (forall (w w' : World) (r : Component),
      DigitalNotary.refreshKey w = (Ok r, w') ->
      stamped "Document" r /\
      exists component, getValue r "$component" = Some component /\
                        stamped "Certificate" component) /\
  (forall (w : World) (document certificate protocol : Component),
      debug w <= 1 ->
      getValue certificate "$protocol" = Some protocol ->
      toString protocol <> "v1" ->
      DigitalNotary.validDocument document certificate w
      = (Throw (unsupported "$validDocument"), w) /\
      failsWith unsupportedProtocol
        (fst (DigitalNotary.validDocument document certificate w))) /\
  (forall (w : World) (citation document protocol : Component),
      debug w <= 1 ->
      getValue citation "$protocol" = Some protocol ->
      toString protocol <> "v1" ->
      DigitalNotary.citationMatches citation document w
      = (Throw (unsupported "$citationMatches"), w) /\
      failsWith unsupportedProtocol
        (fst (DigitalNotary.citationMatches citation document w))) /\
  toString (version [2%positive]) <> "v1".
Proof.
  split; [reflexivity |]. split; [reflexivity |]. split; [reflexivity |].
  split; [| split; [| split; [| split; [| split; [| split; [| split]]]]]].
  - intros w w' r E. unfold DigitalNotary.generateKey in E.
    apply rethrowing_ok_inversion in E. peel E.
    unfold ret in E. injection E as -> _.
    match goal with
    | E : DigitalNotary.construct _ _ _ = (Ok r, _) |- _ =>
        apply (element_stamped "Certificate") in E; exact E
    end.
  - intros w w' certificate r E. unfold DigitalNotary.activateKey in E.
    apply rethrowing_ok_inversion in E. peel E.
    unfold ret in E. injection E as -> _.
    match goal with
    | E : DigitalNotary.construct _ _ _ = (Ok r, _) |- _ =>
        apply (element_stamped "Citation") in E; exact E
    end.
  - intros w w' component r E. unfold DigitalNotary.notarizeComponent in E.
    apply rethrowing_ok_inversion in E. peel E.
    unfold ret in E. injection E as <- _.
    apply signed_stamped.
    match goal with
    | E : DigitalNotary.construct _ _ _ = _ |- _ =>
        apply document_stamped in E; exact (proj1 E)
    end.
  - intros w w' document r E. unfold DigitalNotary.citeDocument in E.
    apply rethrowing_ok_inversion in E. peel E.
    apply (element_stamped "Citation") in E. exact E.
  - intros w w' r E. unfold DigitalNotary.refreshKey in E.
    apply rethrowing_ok_inversion in E. peel E.
    unfold ret in E. injection E as <- _.
    match goal with
    | E : DigitalNotary.construct (("$component", Some ?component) :: _) _ _ = _,
      E' : DigitalNotary.construct _ _ _ = (Ok ?component, _) |- _ =>
        apply document_stamped in E; destruct E as [Hs Hc];
        split; [apply signed_stamped; exact Hs |];
        exists component; split;
        [ rewrite getValue_setValue_other by discriminate; exact Hc
        | apply (element_stamped "Certificate") in E'; exact E' ]
    end.
  - intros w document certificate protocol Hd Hp N.
    rewrite validDocument_unsupported with (protocol := protocol) by assumption.
    split; [reflexivity | eexists; split; reflexivity].
  - intros w citation document protocol Hd Hp N.
    rewrite citationMatches_unsupported with (protocol := protocol) by assumption.
    split; [reflexivity | eexists; split; reflexivity].
  - rewrite toString_version. discriminate.
Qed.

End Protocol.

(** ** Erasing and rotating the key *)

Section Rotation.
Context `{Platform}.

(** C8, as the code has it.  [forgetKey] deletes both files and drops both
    in-memory configurations.  The next [getCitation] loads a default
    configuration in state [$limited] and fails: the caller receives the
    operation's [unexpected] exception, whose cause is the controller's
    [invalidEvent] one.  [eraseKeys] succeeds with [true] again when it is
    repeated; the next operation of the security module starts from a newly
    drawn [$tag] and the state [$keyless], and the next operation of the notary
    starts from [$limited]. *)
Theorem forgetKey_erases :
  forall w : World,
    faulty (notaryFile w) = false ->
    faulty (ssmFile w) = false ->
    DigitalNotary.forgetKey w = (Ok tt, forgotten w) /\
    content (notaryFile (forgotten w)) = None /\
    content (ssmFile (forgotten w)) = None /\
    configuration (forgotten w) = None /\
    ssmConfiguration (forgotten w) = None /\
    fst (DigitalNotary.getCitation (forgotten w))
    = Throw (refused DigitalNotary.moduleName "$getCitation") /\
    SSM.eraseKeys (forgotten w) = (Ok true, forgotten w) /\
    (let fresh := catalog [("$tag", Element (Tag (random (drawn w))) []);
                           ("$state", symbol "$keyless")] [] in
     SSM.getTag (forgotten w)
     = (Ok (Some (Element (Tag (random (drawn w))) [])),
        set_drawn (S (drawn w)) (ssmStored "$keyless" fresh (forgotten w)))) /\
    (let initial := catalog [("$state", symbol "$limited")] [] in
     DigitalNotary.initialize (forgotten w)
     = (Ok tt, notaryStored "$limited" initial (forgotten w))).
Proof.
  intros w Hn Hs.
  destruct w as [ac d [fc fw ff] nc nk [sc sw sf] c0 k0 t n].
  simpl in Hn, Hs. subst ff sf.
  repeat split.
  - unfold DigitalNotary.getCitation, DigitalNotary.initialize,
      DigitalNotary.loadConfiguration, DigitalNotary.transitionState, refused,
      attempt, rethrowing, onNotaryFile, load, store, bind, try, gets, modify, defined, ret. simpl.
    rewrite toString_symbol. reflexivity.
  - unfold SSM.getTag, SSM.initialize, SSM.loadConfiguration, SSM.getAttribute, tag, draw,
      attempt, onSsmFile, load, store, bind, try, gets, modify, defined, ret. simpl.
    rewrite toString_symbol. reflexivity.
  - unfold DigitalNotary.initialize, DigitalNotary.loadConfiguration,
      onNotaryFile, load, store, bind, try, gets, modify, defined, ret. simpl.
    rewrite toString_symbol. reflexivity.
Qed.

Lemma ssm_get (key : string) (c : Component) (w : World) :
  ssmConfiguration w = Some c -> SSM.getAttribute key w = (Ok (getValue c key), w).
Proof.
  intros Hc. unfold SSM.getAttribute, bind, gets. rewrite Hc. reflexivity.
Qed.

Lemma ssm_set (key : string) (value c : Component) (w : World) :
  ssmConfiguration w = Some c ->
  SSM.setAttribute key (Some value) w
  = (Ok tt, set_ssmConfiguration (Some (setValue key value c)) w).
Proof.
  intros Hc. unfold SSM.setAttribute, bind, gets, modify. rewrite Hc. reflexivity.
Qed.

Lemma ssm_allows (s next event : string) (w : World) :
  ssmController w = s ->
  nextState SSM.REQUESTS SSM.STATES s event = Some next ->
  SSM.validateEvent event w = (Ok tt, w).
Proof.
  intros Hk Hn. unfold SSM.validateEvent, bind, gets, validate.
  rewrite Hk, Hn. reflexivity.
Qed.

Lemma ssm_moves (s next event : string) (w : World) :
  ssmController w = s ->
  nextState SSM.REQUESTS SSM.STATES s event = Some next ->
  SSM.transitionState event w = (Ok next, set_ssmController next w).
Proof.
  intros Hk Hn. unfold SSM.transitionState, bind, gets, validate, modify.
  rewrite Hk, Hn. reflexivity.
Qed.

Lemma ssm_persisted (c : Component) (w : World) :
  ssmConfiguration w = Some c ->
  faulty (ssmFile w) = false ->
  SSM.persist w
  = (Ok tt, set_ssmFile
              {| content := Some c; writes := S (writes (ssmFile w)); faulty := false |} w).
Proof.
  intros Hc Hf.
  unfold SSM.persist, SSM.storeConfiguration, onSsmFile, store, bind, try, gets.
  rewrite Hc. simpl. rewrite Hf. reflexivity.
Qed.

Lemma ssm_rotate (w : World) (c publicKey privateKey : Component) :
  ssmIn "$loneKey" c w ->
  faulty (ssmFile w) = false ->
  getValue c "$publicKey" = Some publicKey ->
  getValue c "$privateKey" = Some privateKey ->
  let seed := random (drawn w) in
  SSM.rotateKeys w
  = (Ok (Some (binary (fst (createKeyPair seed)))),
     set_drawn (S (drawn w)) (ssmStored "$twoKeys" (rotated seed publicKey privateKey c) w)).
Proof.
  intros Hin Hf Hpk Hsk seed. subst seed.
  pose proof (holds_catalog _ _ Hpk) as Hcat.
  pose proof (ssm_initialize Hin) as Hinit.
  unfold SSM.rotateKeys. apply attempt_ok.
  erewrite bind_ok by exact Hinit.
  erewrite bind_ok by (apply ssm_allows with (s := "$loneKey") (next := "$twoKeys"); reflexivity).
  erewrite bind_ok by (apply ssm_get; reflexivity). rewrite Hpk.
  erewrite bind_ok by (apply ssm_set; reflexivity).
  erewrite bind_ok by (apply ssm_get; reflexivity).
  rewrite getValue_setValue_other by discriminate. rewrite Hsk.
  erewrite bind_ok by (apply ssm_set; reflexivity).
  erewrite bind_ok by reflexivity.
  erewrite bind_ok by (apply ssm_set; reflexivity).
  erewrite bind_ok by (apply ssm_set; reflexivity).
  erewrite bind_ok
    by (apply ssm_moves with (s := "$loneKey") (next := "$twoKeys"); reflexivity).
  erewrite bind_ok by (apply ssm_set; reflexivity).
  erewrite bind_ok by (apply ssm_persisted; [reflexivity | exact Hf]).
  erewrite ssm_get by reflexivity.
  rewrite getValue_setValue_other by discriminate.
  rewrite getValue_setValue_other by discriminate.
  rewrite getValue_setValue_same.
  - destruct w. reflexivity.
  - destruct Hcat as [a [p ->]]. simpl. eauto.
Qed.

Lemma notary_allows (s next event : string) (w : World) :
  controller w = s ->
  nextState DigitalNotary.REQUESTS DigitalNotary.STATES s event = Some next ->
  DigitalNotary.validateEvent event w = (Ok tt, w).
Proof.
  intros Hk Hn. unfold DigitalNotary.validateEvent, bind, gets, validate.
  rewrite Hk, Hn. reflexivity.
Qed.

Lemma notary_moves (s next event : string) (w : World) :
  controller w = s ->
  nextState DigitalNotary.REQUESTS DigitalNotary.STATES s event = Some next ->
  DigitalNotary.transitionState event w = (Ok next, set_controller next w).
Proof.
  intros Hk Hn. unfold DigitalNotary.transitionState, bind, gets, validate, modify.
  rewrite Hk, Hn. reflexivity.
Qed.

Lemma configured (key : string) (c : Component) (w : World) :
  configuration w = Some c ->
  DigitalNotary.getConfigured key w = (Ok (getValue c key), w).
Proof.
  intros Hc. unfold DigitalNotary.getConfigured, bind, gets. rewrite Hc. reflexivity.
Qed.

Lemma configure (key : string) (value c : Component) (w : World) :
  configuration w = Some c ->
  DigitalNotary.setConfigured key value w
  = (Ok tt, set_configuration (Some (setValue key value c)) w).
Proof.
  intros Hc. unfold DigitalNotary.setConfigured, bind, gets, modify. rewrite Hc. reflexivity.
Qed.

Lemma persisted (c : Component) (w : World) :
  configuration w = Some c ->
  faulty (notaryFile w) = false ->
  DigitalNotary.persist w
  = (Ok tt, set_notaryFile
              {| content := Some c; writes := S (writes (notaryFile w)); faulty := false |} w).
Proof.
  intros Hc Hf.
  unfold DigitalNotary.persist, DigitalNotary.storeConfiguration, onNotaryFile, store,
    bind, try, gets.
  rewrite Hc. simpl. rewrite Hf. reflexivity.
Qed.

Lemma rotated_state (seed : string) (publicKey privateKey c : Component) :
  (exists a p, c = Catalog a p) ->
  getValue (rotated seed publicKey privateKey c) "$state" = Some (symbol "$twoKeys") /\
  getValue (rotated seed publicKey privateKey c) "$previousPublicKey" = Some publicKey /\
  getValue (rotated seed publicKey privateKey c) "$previousPrivateKey" = Some privateKey.
Proof.
  intros [a [p ->]]. unfold rotated. cbn [setValue getValue].
  split; [apply lookup_assign_same |]. split.
  - rewrite !lookup_assign_other by discriminate. apply lookup_assign_same.
  - rewrite lookup_assign_other by discriminate.
    rewrite lookup_assign_other by discriminate.
    rewrite lookup_assign_other by discriminate.
    apply lookup_assign_same.
Qed.

(** C2. [refreshKey] in the enabled state, with the security module holding
    one key pair, returns a notarized certificate whose component has the tag
    of the current citation, the successor of its version and the current
    citation as [$previous]; the wrapper's [$certificate] is the current
    citation; and its [$signature] is made with the key pair that was rotated
    out, so that it verifies under the public key of the previous certificate
    (a key pair of the signature scheme signs and verifies).  The signed
    certificate and a citation of its bytes are stored.  The hypotheses say
    that the notary is enabled with a citation that has a tag and a version,
    that the module holds one key pair, and that the certificate the notary
    holds is the one of that key pair. *)
Theorem refreshKey_chain_link :
  forall (w : World) (c sc citation previous held t present v : Component)
         (publicKey privateKey : string),
    notaryIn "$enabled" c w ->
    ssmIn "$loneKey" sc w ->
    debug w <= 1 ->
    faulty (notaryFile w) = false ->
    faulty (ssmFile w) = false ->
    getValue c "$citation" = Some citation ->
    getValue citation "$tag" = Some t ->
    getValue citation "$version" = Some present ->
    nextVersion present = Some v ->
    getValue c "$certificate" = Some previous ->
    getValue previous "$component" = Some held ->
    getValue held "$protocol" = Some (version [1%positive]) ->
    getValue held "$publicKey" = Some (binary publicKey) ->
    getValue sc "$publicKey" = Some (binary publicKey) ->
    getValue sc "$privateKey" = Some (binary privateKey) ->
    (forall bytes : string, verify (sign bytes publicKey privateKey) bytes publicKey = true) ->
    let fresh := binary (fst (createKeyPair (random (drawn w)))) in
    let component := certificateOf (clock w) (account w) fresh t v citation in
    let unsigned := documentOf (clock w) component citation in
    let signature := sign (toString unsigned) publicKey privateKey in
    let certificate := setValue "$signature" (binary signature) unsigned in
    exists w',
      DigitalNotary.refreshKey w = (Ok certificate, w') /\
      getValue certificate "$component" = Some component /\
      getParameter component "$tag" = Some t /\
      getParameter component "$version" = Some v /\
      getParameter component "$previous" = Some citation /\
      getValue certificate "$certificate" = Some citation /\
      citation <> NONE /\
      getValue certificate "$signature" = Some (binary signature) /\
      extraction certificate DigitalNotary.signedAttributes = unsigned /\
      verify signature (toString unsigned) publicKey = true /\
      DigitalNotary.validDocument certificate held w' = (Ok true, w') /\
      exists c',
        configuration w' = Some c' /\
        content (notaryFile w') = Some c' /\
        controller w' = "$enabled" /\
        getValue c' "$certificate" = Some certificate /\
        getValue c' "$citation" = Some (citationOf (clock w) t v (toString certificate)).
Proof.
  intros w c sc citation previous held t present v publicKey privateKey
    Hn Hs Hd Hnf Hsf Hcit Ht Hver Hnext Hprev Hheld Hprot Hhpk Hpk Hsk Hed
    fresh component unsigned signature certificate.
  pose proof (notary_initialize Hn) as Hinit.
  pose proof (holds_catalog _ _ Hcit) as Hcat.
  pose proof (holds_catalog _ _ Hpk) as Hscat.
  destruct (rotated_state (random (drawn w)) (binary publicKey) (binary privateKey) Hscat)
    as (Rstate & Rpub & Rpriv).
  eexists. split.
  - unfold DigitalNotary.refreshKey. apply rethrowing_ok.
    erewrite bind_ok by exact Hinit.
    erewrite bind_ok
      by (apply notary_allows with (s := "$enabled") (next := "$enabled"); reflexivity).
    erewrite bind_ok
      by (apply ssm_rotate with (c := sc); [exact Hs | exact Hsf | exact Hpk | exact Hsk]).
    erewrite bind_ok by reflexivity.
    erewrite bind_ok by (apply configured with (c := c); reflexivity).
    rewrite Hcit. erewrite bind_ok by reflexivity.
    rewrite Ht, Hver. erewrite bind_ok by reflexivity.
    rewrite Hnext. erewrite bind_ok by reflexivity.
    erewrite bind_ok by reflexivity.
    erewrite bind_ok by reflexivity.
    erewrite bind_ok by reflexivity.
    erewrite bind_ok.
    2:{ apply ssm_sign_previous with (s := "$twoKeys")
          (c := rotated (random (drawn w)) (binary publicKey) (binary privateKey) sc).
        - split; [exact Rstate | left; split; reflexivity].
        - right. reflexivity.
        - reflexivity.
        - exact Rpub.
        - exact Rpriv. }
    erewrite bind_ok by (apply configure with (c := c); reflexivity).
    erewrite bind_ok by reflexivity.
    erewrite bind_ok by reflexivity.
    erewrite bind_ok by (apply configure; reflexivity).
    erewrite bind_ok
      by (apply notary_moves with (s := "$enabled") (next := "$enabled"); reflexivity).
    erewrite bind_ok by (apply configure; reflexivity).
    erewrite bind_ok by (apply persisted; [reflexivity | exact Hnf]).
    reflexivity.
  - split; [reflexivity |]. split; [reflexivity |]. split; [reflexivity |].
    split; [reflexivity |]. split; [reflexivity |].
    split; [intros E; rewrite E in Ht; discriminate Ht |].
    split; [reflexivity |].
    split; [reflexivity |]. split; [apply Hed |].
    split.
    + apply validDocument_verifies
        with (protocol := version [1%positive]) (publicKey := publicKey)
             (signature := signature);
        [exact Hd | exact Hprot | apply toString_version | exact Hhpk | reflexivity |].
      change (extraction certificate DigitalNotary.signedAttributes) with unsigned.
      apply verify_answer. apply Hed.
    + eexists. split; [reflexivity |]. split; [reflexivity |]. split; [reflexivity |].
      destruct Hcat as [a [p ->]]. cbn [setValue getValue]. split.
      * rewrite lookup_assign_other by discriminate.
        rewrite lookup_assign_other by discriminate.
        apply lookup_assign_same.
      * rewrite lookup_assign_other by discriminate.
        apply lookup_assign_same.
Qed.

End Rotation.

(** * Further properties of the code *)

(** ** The key pairs of the security module *)

Section Keys.
Context `{Platform}.

Lemma ssm_initialize_blank (w : World) :
  ssmBlank w ->
  SSM.initialize w
  = (Ok tt, set_drawn (S (drawn w)) (ssmStored "$keyless" (blankSsm (random (drawn w))) w)).
Proof.
  intros (Hc & Hf & Hok).
  destruct w as [a d nf nc nk [sc sw sf] c0 k0 t n]. simpl in Hc, Hf, Hok. subst.
  unfold SSM.initialize, SSM.loadConfiguration, tag, draw, ssmStored, ssmLoaded, blankSsm,
    bind, try, gets, modify, onSsmFile, load, store, defined, ret.
  simpl. rewrite toString_symbol. reflexivity.
Qed.

Lemma initialized_first {A} (m p : string) (initialize : M unit) (body : M A) (w w1 : World) :
  initialize w = (Ok tt, w1) ->
  initialize w1 = (Ok tt, w1) ->
  attempt m p (initialize;; body) w = attempt m p (initialize;; body) w1.
Proof.
  intros E E1. unfold attempt, try, bind. rewrite E, E1. reflexivity.
Qed.

Lemma loaded_first {A} (m p : string) (initialize : M unit) (body : M A) (w w1 : World) :
  initialize w = (Ok tt, w1) ->
  initialize w1 = (Ok tt, w1) ->
  rethrowing m p (initialize;; body) w = rethrowing m p (initialize;; body) w1.
Proof.
  intros E E1. unfold rethrowing, try, bind. rewrite E, E1. reflexivity.
Qed.

Lemma ssm_generate (w : World) (c : Component) :
  ssmIn "$keyless" c w ->
  faulty (ssmFile w) = false ->
  let seed := random (drawn w) in
  SSM.generateKeys w
  = (Ok (Some (binary (fst (createKeyPair seed)))),
     set_drawn (S (drawn w)) (ssmStored "$loneKey" (generated seed c) w)).
Proof.
  intros Hin Hf seed. subst seed.
  pose proof (holds_catalog _ _ (proj1 Hin)) as Hcat.
  pose proof (ssm_initialize Hin) as Hinit.
  unfold SSM.generateKeys. apply attempt_ok.
  erewrite bind_ok by exact Hinit.
  erewrite bind_ok by (apply ssm_allows with (s := "$keyless") (next := "$loneKey"); reflexivity).
  erewrite bind_ok by reflexivity.
  erewrite bind_ok by (apply ssm_set; reflexivity).
  erewrite bind_ok by (apply ssm_set; reflexivity).
  erewrite bind_ok
    by (apply ssm_moves with (s := "$keyless") (next := "$loneKey"); reflexivity).
  erewrite bind_ok by (apply ssm_set; reflexivity).
  erewrite bind_ok by (apply ssm_persisted; [reflexivity | exact Hf]).
  erewrite ssm_get by reflexivity.
  rewrite getValue_setValue_other by discriminate.
  rewrite getValue_setValue_other by discriminate.
  rewrite getValue_setValue_same.
  - destruct w. reflexivity.
  - exact Hcat.
Qed.

Lemma generated_state (seed : string) (c : Component) :
  (exists a p, c = Catalog a p) ->
  getValue (generated seed c) "$state" = Some (symbol "$loneKey") /\
  getValue (generated seed c) "$publicKey" = Some (binary (fst (createKeyPair seed))) /\
  getValue (generated seed c) "$privateKey" = Some (binary (snd (createKeyPair seed))) /\
  (forall key, key <> "$state" -> key <> "$publicKey" -> key <> "$privateKey" ->
               getValue (generated seed c) key = getValue c key).
Proof.
  intros Hcat. unfold generated. split; [| split; [| split]].
  - apply getValue_setValue_same.
    destruct Hcat as [a [p ->]]. simpl. eauto.
  - rewrite getValue_setValue_other by discriminate.
    rewrite getValue_setValue_other by discriminate.
    apply getValue_setValue_same. exact Hcat.
  - rewrite getValue_setValue_other by discriminate.
    apply getValue_setValue_same.
    destruct Hcat as [a [p ->]]. simpl. eauto.
  - intros key N1 N2 N3.
    rewrite !getValue_setValue_other by congruence. reflexivity.
Qed.

(** X1. [generateKeys] in the keyless state draws a seed, stores the pair
    made from it under [$publicKey] and [$privateKey], moves to [$loneKey],
    writes the file and returns the public key; every other attribute, the
    [$tag] among them, is kept.  A second [generateKeys] is refused and
    leaves the stored pair as it is. *)
Theorem generateKeys_stores_pair :
  forall (w : World) (c : Component),
    ssmIn "$keyless" c w ->
    faulty (ssmFile w) = false ->
    let seed := random (drawn w) in
    let c' := generated seed c in
    let w' := set_drawn (S (drawn w)) (ssmStored "$loneKey" c' w) in
    SSM.generateKeys w = (Ok (Some (binary (fst (createKeyPair seed)))), w') /\
    getValue c' "$publicKey" = Some (binary (fst (createKeyPair seed))) /\
    getValue c' "$privateKey" = Some (binary (snd (createKeyPair seed))) /\
    getValue c' "$state" = Some (symbol "$loneKey") /\
    getValue c' "$tag" = getValue c "$tag" /\
    getValue c' "$previousPublicKey" = getValue c "$previousPublicKey" /\
    SSM.generateKeys w' = (Throw (refused SSM.moduleName "$generateKeys"), w').
Proof.
  intros w c Hin Hf seed c' w'.
  pose proof (holds_catalog _ _ (proj1 Hin)) as Hcat.
  destruct (generated_state seed Hcat) as (Gs & Gp & Gk & Gother).
  split; [apply ssm_generate; assumption |].
  split; [exact Gp |]. split; [exact Gk |]. split; [exact Gs |].
  split; [apply Gother; discriminate |].
  split; [apply Gother; discriminate |].
  assert (Hin' : ssmIn "$loneKey" c' w')
    by (split; [exact Gs | left; split; reflexivity]).
  unfold SSM.generateKeys, refused. apply attempt_throw.
  erewrite bind_ok by exact (ssm_initialize Hin').
  erewrite bind_throw; [reflexivity |].
  replace (ssmLoaded "$loneKey" c' w') with w' by (destruct w; reflexivity).
  apply ssm_refuses with (s := "$loneKey"); reflexivity.
Qed.

(** X2. The tag of the security module is drawn once.  A module without a
    file draws a tag on its first call, writes it to the file with the state
    [$keyless] and returns it; [getTag] then keeps returning that tag, without
    drawing or writing again. *)
Theorem getTag_drawn_once :
  forall w : World,
    ssmBlank w ->
    let t := Element (Tag (random (drawn w))) [] in
    let w' := set_drawn (S (drawn w)) (ssmStored "$keyless" (blankSsm (random (drawn w))) w) in
    SSM.getTag w = (Ok (Some t), w') /\
    SSM.getTag w' = (Ok (Some t), w') /\
    content (ssmFile w') = Some (blankSsm (random (drawn w))) /\
    writes (ssmFile w') = S (writes (ssmFile w)).
Proof.
  intros w Hb t w'.
  pose proof (ssm_initialize_blank Hb) as Hinit.
  assert (Hin' : ssmIn "$keyless" (blankSsm (random (drawn w))) w')
    by (split; [reflexivity | left; split; reflexivity]).
  assert (E' : SSM.getTag w' = (Ok (Some t), w')).
  { unfold SSM.getTag. apply attempt_ok.
    erewrite bind_ok by exact (ssm_initialize Hin').
    replace (ssmLoaded "$keyless" (blankSsm (random (drawn w))) w') with w'
      by (destruct w; reflexivity).
    erewrite ssm_get by reflexivity. reflexivity. }
  split; [| split; [exact E' | split; reflexivity]].
  unfold SSM.getTag in *.
  erewrite initialized_first with (w1 := w').
  - exact E'.
  - exact Hinit.
  - rewrite (ssm_initialize Hin'). destruct w; reflexivity.
Qed.

End Keys.

(** ** Using the keys *)

Section KeyUse.
Context `{Platform}.

Lemma rotated_current (seed : string) (publicKey privateKey c : Component) :
  (exists a p, c = Catalog a p) ->
  getValue (rotated seed publicKey privateKey c) "$publicKey"
  = Some (binary (fst (createKeyPair seed))) /\
  getValue (rotated seed publicKey privateKey c) "$privateKey"
  = Some (binary (snd (createKeyPair seed))) /\
  getValue (rotated seed publicKey privateKey c) "$tag" = getValue c "$tag".
Proof.
  intros Hcat. unfold rotated. split; [| split].
  - rewrite getValue_setValue_other by discriminate.
    rewrite getValue_setValue_other by discriminate.
    apply getValue_setValue_same.
    destruct Hcat as [a [p ->]]. simpl. eauto.
  - rewrite getValue_setValue_other by discriminate.
    apply getValue_setValue_same.
    destruct Hcat as [a [p ->]]. simpl. eauto.
  - rewrite !getValue_setValue_other by discriminate. reflexivity.
Qed.

Lemma settled_state (c : Component) (publicKey privateKey : Component) :
  (exists a p, c = Catalog a p) ->
  getValue c "$publicKey" = Some publicKey ->
  getValue c "$privateKey" = Some privateKey ->
  getValue (settled c) "$state" = Some (symbol "$loneKey") /\
  getValue (settled c) "$publicKey" = Some publicKey /\
  getValue (settled c) "$privateKey" = Some privateKey /\
  getValue (settled c) "$previousPublicKey" = None /\
  getValue (settled c) "$previousPrivateKey" = None.
Proof.
  intros Hcat Hpk Hsk. unfold settled. split.
  - apply getValue_setValue_same. destruct Hcat as [a [p ->]]. simpl. eauto.
  - rewrite !getValue_setValue_other by discriminate.
    split; [rewrite getValue_kept by reflexivity; exact Hpk |].
    split; [rewrite getValue_kept by reflexivity; exact Hsk |].
    split; apply getValue_removed; reflexivity.
Qed.

(** X3. A rotated-out key signs exactly once.  After [rotateKeys] the
    module holds the old pair in the previous fields; a second [rotateKeys]
    is refused while it is there; the first [signBytes] signs with the old
    pair and drops it; the next [signBytes] signs with the pair that
    [rotateKeys] made. *)
Theorem rotated_key_signs_once :
  forall (w : World) (c : Component) (publicKey privateKey first second : string),
    ssmIn "$loneKey" c w ->
    faulty (ssmFile w) = false ->
    getValue c "$publicKey" = Some (binary publicKey) ->
    getValue c "$privateKey" = Some (binary privateKey) ->
    let seed := random (drawn w) in
    let c1 := rotated seed (binary publicKey) (binary privateKey) c in
    let w1 := set_drawn (S (drawn w)) (ssmStored "$twoKeys" c1 w) in
    let w2 := ssmStored "$loneKey" (settled c1) w1 in
    let w3 := ssmStored "$loneKey" (settled c1) w2 in
    SSM.rotateKeys w = (Ok (Some (binary (fst (createKeyPair seed)))), w1) /\
    SSM.rotateKeys w1 = (Throw (refused SSM.moduleName "$rotateKeys"), w1) /\
    SSM.signBytes first w1 = (Ok (binary (sign first publicKey privateKey)), w2) /\
    SSM.signBytes second w2
    = (Ok (binary (sign second (fst (createKeyPair seed)) (snd (createKeyPair seed)))), w3) /\
    getValue (settled c1) "$previousPublicKey" = None /\
    getValue (settled c1) "$previousPrivateKey" = None /\
    getValue (settled c1) "$tag" = getValue c "$tag".
Proof.
  intros w c publicKey privateKey first second Hin Hf Hpk Hsk seed c1 w1 w2 w3.
  pose proof (holds_catalog _ _ Hpk) as Hcat.
  destruct (rotated_state seed (binary publicKey) (binary privateKey) Hcat)
    as (Rs & Rpp & Rps).
  destruct (rotated_current seed (binary publicKey) (binary privateKey) Hcat)
    as (Rp & Rk & Rt).
  pose proof (holds_catalog _ _ Rs) as Hcat1.
  destruct (settled_state Hcat1 Rp Rk) as (Ss & Sp & Sk & Spp & Sps).
  assert (Hin1 : ssmIn "$twoKeys" c1 w1) by (split; [exact Rs | left; split; reflexivity]).
  assert (Hin2 : ssmIn "$loneKey" (settled c1) w2)
    by (split; [exact Ss | left; split; reflexivity]).
  split; [apply ssm_rotate; assumption |].
  split.
  { unfold SSM.rotateKeys, refused. apply attempt_throw.
    erewrite bind_ok by exact (ssm_initialize Hin1).
    erewrite bind_throw; [reflexivity |].
    replace (ssmLoaded "$twoKeys" c1 w1) with w1 by (destruct w; reflexivity).
    apply ssm_refuses with (s := "$twoKeys"); reflexivity. }
  split.
  { apply ssm_sign_previous with (s := "$twoKeys");
      [exact Hin1 | right; reflexivity | reflexivity | exact Rpp | exact Rps]. }
  split.
  { assert (E : ssmStored "$loneKey" (setValue "$state" (symbol "$loneKey") (settled c1)) w2
                = w3) by (unfold c1; rewrite (setValue_same _ _ Ss); reflexivity).
    etransitivity.
    - apply ssm_sign_current with (s := "$loneKey") (c := settled c1);
        [exact Hin2 | left; reflexivity | reflexivity | exact Sp | exact Sk | exact Spp].
    - f_equal. exact E. }
  split; [exact Spp |]. split; [exact Sps |].
  unfold settled. rewrite getValue_setValue_other by discriminate.
  rewrite getValue_kept by reflexivity. exact Rt.
Qed.

(** X4. With one key pair and no previous pair, [signBytes] can be repeated:
    whatever messages a caller has signed one after the other, every
    signature is made with the same current pair, the configuration stays as
    it was, and the file has been written once per message. *)
Theorem signing_repeats :
  forall (messages : list string) (w : World) (c : Component) (publicKey privateKey : string),
    ssmIn "$loneKey" c w ->
    faulty (ssmFile w) = false ->
    getValue c "$publicKey" = Some (binary publicKey) ->
    getValue c "$privateKey" = Some (binary privateKey) ->
    getValue c "$previousPublicKey" = None ->
    exists w',
      signAll messages w
      = (Ok (map (fun bytes => binary (sign bytes publicKey privateKey)) messages), w') /\
      ssmIn "$loneKey" c w' /\
      faulty (ssmFile w') = false /\
      writes (ssmFile w') = length messages + writes (ssmFile w).
Proof.
  induction messages as [| bytes rest IH]; intros w c publicKey privateKey Hin Hf Hpk Hsk Hno.
  - exists w. split; [reflexivity |]. split; [exact Hin |]. split; [exact Hf | reflexivity].
  - assert (E : SSM.signBytes bytes w
                = (Ok (binary (sign bytes publicKey privateKey)), ssmStored "$loneKey" c w)).
    { etransitivity.
      - apply ssm_sign_current with (s := "$loneKey") (c := c);
          [exact Hin | left; reflexivity | exact Hf | exact Hpk | exact Hsk | exact Hno].
      - rewrite (setValue_same _ _ (proj1 Hin)). reflexivity. }
    assert (Hin1 : ssmIn "$loneKey" c (ssmStored "$loneKey" c w))
      by (split; [exact (proj1 Hin) | left; split; reflexivity]).
    destruct (IH (ssmStored "$loneKey" c w) c publicKey privateKey Hin1 eq_refl Hpk Hsk Hno)
      as (w' & Erest & Hin' & Hf' & Hw').
    exists w'. split; [| split; [exact Hin' | split; [exact Hf' |]]].
    + simpl signAll. erewrite bind_ok by exact E.
      erewrite bind_ok by exact Erest. reflexivity.
    + rewrite Hw'. simpl. lia.
Qed.

(** X5. A signature of the module verifies under the public key that
    [generateKeys] returned: generating, signing and checking with
    [validSignature] compose to [true], a key pair of the signature scheme
    signing and verifying. *)
Theorem signature_round_trip :
  forall (w : World) (c : Component) (bytes : string),
    ssmIn "$keyless" c w ->
    faulty (ssmFile w) = false ->
    getValue c "$previousPublicKey" = None ->
    let pair := createKeyPair (random (drawn w)) in
    verify (sign bytes (fst pair) (snd pair)) bytes (fst pair) = true ->
    exists (publicKey signature : Component) (w1 w2 : World),
      SSM.generateKeys w = (Ok (Some publicKey), w1) /\
      SSM.signBytes bytes w1 = (Ok signature, w2) /\
      SSM.validSignature (Some publicKey) (Some signature) bytes w2 = (Ok true, w2) /\
      ssmController w2 = "$loneKey".
Proof.
  intros w c bytes Hin Hf Hprev pair Hed.
  pose proof (holds_catalog _ _ (proj1 Hin)) as Hcat.
  destruct (generated_state (random (drawn w)) Hcat) as (Gs & Gp & Gk & Gother).
  set (c' := generated (random (drawn w)) c) in *.
  set (w1 := set_drawn (S (drawn w)) (ssmStored "$loneKey" c' w)).
  assert (Hin1 : ssmIn "$loneKey" c' w1) by (split; [exact Gs | left; split; reflexivity]).
  assert (Hno : getValue c' "$previousPublicKey" = None)
    by (unfold c'; rewrite Gother by discriminate; exact Hprev).
  exists (binary (fst pair)), (binary (sign bytes (fst pair) (snd pair))), w1,
    (ssmStored "$loneKey" (setValue "$state" (symbol "$loneKey") c') w1).
  split; [apply ssm_generate; assumption |].
  split.
  { apply ssm_sign_current with (s := "$loneKey");
      [exact Hin1 | left; reflexivity | reflexivity | exact Gp | exact Gk | exact Hno]. }
  split; [| reflexivity].
  apply validSignature_answers. apply verify_answer. exact Hed.
Qed.

End KeyUse.

(** ** Validation of arguments *)

Section Validation.
Context `{Platform}.

Lemma checked (check : M unit) (w : World) :
  check w = (Ok tt, w) -> DigitalNotary.whenValidating check w = (Ok tt, w).
Proof.
  intros E. unfold DigitalNotary.whenValidating, bind, gets.
  destruct (Nat.ltb 1 (debug w)); [exact E | reflexivity].
Qed.

Lemma validating (check : M unit) (w : World) :
  1 < debug w -> DigitalNotary.whenValidating check w = check w.
Proof.
  intros Hd. unfold DigitalNotary.whenValidating, bind, gets.
  destruct (Nat.ltb_spec 1 (debug w)); [reflexivity | lia].
Qed.

Lemma accepts_bind (m k : M unit) : accepts m -> accepts k -> accepts (m;; k).
Proof. intros Hm Hk w. unfold bind. rewrite Hm. apply Hk. Qed.

Lemma rejects_first (f : string) (m k : M unit) : rejects f m -> rejects f (m;; k).
Proof. intros Hm w. unfold bind. rewrite Hm. reflexivity. Qed.

Lemma rejects_after (f : string) (m k : M unit) :
  decides f m -> rejects f k -> rejects f (m;; k).
Proof.
  intros Hm Hk w. unfold bind. destruct (Hm w) as [-> | ->]; [apply Hk | reflexivity].
Qed.

Lemma decides_bind (f : string) (m k : M unit) :
  decides f m -> decides f k -> decides f (m;; k).
Proof.
  intros Hm Hk w. unfold bind. destruct (Hm w) as [-> | ->]; [apply Hk | right; reflexivity].
Qed.

Lemma decides_accepts (f : string) (m : M unit) : accepts m -> decides f m.
Proof. intros Hm w. left. apply Hm. Qed.

Lemma decides_rejects (f : string) (m : M unit) : rejects f m -> decides f m.
Proof. intros Hm w. right. apply Hm. Qed.

Lemma accepts_ret : accepts (ret tt).
Proof. intros w. reflexivity. Qed.

Lemma rejects_invalid (f : string) : rejects f (DigitalNotary.invalid f).
Proof. intros w. reflexivity. Qed.

Lemma element_accepts (f : string) (v : option Component) (t : DigitalNotary.ElementType) :
  isA t v = true -> accepts (DigitalNotary.validateElement f v t).
Proof.
  unfold isA, DigitalNotary.validateElement. intros ->. apply accepts_ret.
Qed.

Lemma element_rejects (f : string) (v : option Component) (t : DigitalNotary.ElementType) :
  isA t v = false -> rejects f (DigitalNotary.validateElement f v t).
Proof.
  unfold isA, DigitalNotary.validateElement. intros ->. apply rejects_invalid.
Qed.

Lemma element_decides (f : string) (v : option Component) (t : DigitalNotary.ElementType) :
  decides f (DigitalNotary.validateElement f v t).
Proof.
  destruct (isA t v) eqn:E.
  - apply decides_accepts, element_accepts, E.
  - apply decides_rejects, element_rejects, E.
Qed.

Lemma element_accepted (f : string) (v : option Component) (t : DigitalNotary.ElementType)
  (w w' : World) :
  DigitalNotary.validateElement f v t w = (Ok tt, w') -> isA t v = true /\ w' = w.
Proof.
  unfold isA, DigitalNotary.validateElement.
  destruct (DigitalNotary.hasKind (DigitalNotary.isType t) v); intros E.
  - injection E as <-. split; reflexivity.
  - discriminate.
Qed.

Lemma component_decides (f : string) (v : option Component) :
  decides f (DigitalNotary.validateComponent f v).
Proof.
  destruct v; [apply decides_accepts, accepts_ret | apply decides_rejects, rejects_invalid].
Qed.

Lemma citation_decides (f : string) (v : option Component) :
  decides f (DigitalNotary.validateCitation f v).
Proof.
  unfold DigitalNotary.validateCitation.
  destruct v as [c |]; [| apply decides_rejects, rejects_invalid].
  destruct (isEqualTo c NONE); [apply decides_accepts, accepts_ret |].
  destruct (DigitalNotary.isCatalog c && Nat.eqb (getSize c) 5)%bool;
    [| apply decides_rejects, rejects_invalid].
  repeat (apply decides_bind; [apply element_decides |]).
  cbv zeta.
  destruct (Nat.eqb (length (getParameters c)) 1); [| apply decides_rejects, rejects_invalid].
  destruct (lookup "$type" (getParameters c)) as [type |].
  - apply decides_bind; [apply element_decides |].
    change (decides f (if startsWith (toString type) "/bali/notary/Citation/v"
                       then ret tt else DigitalNotary.invalid f)).
    destruct (startsWith (toString type) "/bali/notary/Citation/v");
      [apply decides_accepts, accepts_ret | apply decides_rejects, rejects_invalid].
  - apply decides_rejects, rejects_first, element_rejects. reflexivity.
Qed.

Lemma citation_accepts (f : string) (timestamp : Z) (t v : Component) (bytes : string) :
  isA DigitalNotary.tagType (Some t) = true ->
  isA DigitalNotary.versionType (Some v) = true ->
  accepts (DigitalNotary.validateCitation f (Some (citationOf timestamp t v bytes))).
Proof.
  intros Ht Hv.
  change (accepts
    (DigitalNotary.validateElement f (Some (version [1%positive])) DigitalNotary.versionType;;
     DigitalNotary.validateElement f (Some (Element (Moment timestamp) [])) DigitalNotary.momentType;;
     DigitalNotary.validateElement f (Some t) DigitalNotary.tagType;;
     DigitalNotary.validateElement f (Some v) DigitalNotary.versionType;;
     DigitalNotary.validateElement f (Some (binary (sha512 bytes))) DigitalNotary.binaryType;;
     DigitalNotary.validateElement f (Some (name "/bali/notary/Citation/v1")) DigitalNotary.nameType;;
     (if startsWith (toString (name "/bali/notary/Citation/v1")) "/bali/notary/Citation/v"
      then ret tt else DigitalNotary.invalid f))).
  rewrite toString_name.
  repeat (apply accepts_bind; [apply element_accepts; first [exact Ht | exact Hv | reflexivity] |]).
  apply accepts_ret.
Qed.

Lemma none_accepts (f : string) : accepts (DigitalNotary.validateCitation f (Some NONE)).
Proof. intros w. reflexivity. Qed.

Lemma certificate_accepts (f : string) (timestamp : Z) (owner publicKey t v previous : Component) :
  isA DigitalNotary.tagType (Some owner) = true ->
  isA DigitalNotary.binaryType (Some publicKey) = true ->
  isA DigitalNotary.tagType (Some t) = true ->
  isA DigitalNotary.versionType (Some v) = true ->
  accepts (DigitalNotary.validateCitation f (Some previous)) ->
  accepts (DigitalNotary.validateCertificate f
             (Some (certificateOf timestamp owner publicKey t v previous))).
Proof.
  intros Ho Hk Ht Hv Hp.
  change (accepts
    (DigitalNotary.validateElement f (Some (version [1%positive])) DigitalNotary.versionType;;
     DigitalNotary.validateElement f (Some (Element (Moment timestamp) [])) DigitalNotary.momentType;;
     DigitalNotary.validateElement f (Some owner) DigitalNotary.tagType;;
     DigitalNotary.validateElement f (Some publicKey) DigitalNotary.binaryType;;
     DigitalNotary.validateElement f (Some (name "/bali/notary/Certificate/v1")) DigitalNotary.nameType;;
     DigitalNotary.validateElement f (Some t) DigitalNotary.tagType;;
     DigitalNotary.validateElement f (Some v) DigitalNotary.versionType;;
     DigitalNotary.validateElement f (Some (name "/bali/permissions/public/v1")) DigitalNotary.nameType;;
     DigitalNotary.validateCitation f (Some previous);;
     (if (startsWith (toString (name "/bali/notary/Certificate/v1")) "/bali/notary/Certificate/v"
          && startsWith (toString (name "/bali/permissions/public/v1")) "/bali/permissions/public/v")%bool
      then ret tt else DigitalNotary.invalid f))).
  rewrite !toString_name.
  repeat (apply accepts_bind;
          [first [exact Hp
                 | apply element_accepts; first [exact Ho | exact Hk | exact Ht | exact Hv | reflexivity]] |]).
  apply accepts_ret.
Qed.

Lemma type_accepts (f : string) (a p : list Association) :
  accepts (DigitalNotary.validateType f (Catalog a p)).
Proof. intros w. reflexivity. Qed.

Lemma type_accepted (f : string) (c : Component) :
  DigitalNotary.isCatalog c = true -> accepts (DigitalNotary.validateType f c).
Proof. intros E w. unfold DigitalNotary.validateType. rewrite E. reflexivity. Qed.

Lemma type_mistyped (f : string) (c : Component) (w : World) :
  DigitalNotary.isCatalog c = false ->
  DigitalNotary.validateType f c w = (Throw (mistyped f), w).
Proof. intros E. unfold DigitalNotary.validateType. rewrite E. reflexivity. Qed.

Lemma document_accepts (f : string) (timestamp : Z) (component cited : Component)
  (signature : string) :
  isA DigitalNotary.tagType (getParameter component "$tag") = true ->
  isA DigitalNotary.versionType (getParameter component "$version") = true ->
  isA DigitalNotary.nameType (getParameter component "$permissions") = true ->
  getParameter component "$type" = None \/
    isA DigitalNotary.nameType (getParameter component "$type") = true ->
  accepts (DigitalNotary.validateCitation f (getParameter component "$previous")) ->
  accepts (DigitalNotary.validateCitation f (Some cited)) ->
  accepts (DigitalNotary.validateDocument f
             (Some (setValue "$signature" (binary signature)
                      (documentOf timestamp component cited)))).
Proof.
  unfold getParameter. intros Ht Hv Hp Hy Hprev Hcited.
  destruct (getParameters component) as [| parameter parameters] eqn:E;
    [discriminate Ht |].
  change (accepts
    (DigitalNotary.validateComponent f (Some component);;
     DigitalNotary.validateElement f (Some (version [1%positive])) DigitalNotary.versionType;;
     DigitalNotary.validateElement f (Some (Element (Moment timestamp) [])) DigitalNotary.momentType;;
     DigitalNotary.validateCitation f (Some cited);;
     DigitalNotary.validateElement f (Some (binary signature)) DigitalNotary.binaryType;;
     match getParameters component with
     | [] => DigitalNotary.invalid f
     | parameter :: parameters =>
         match lookup "$type" (parameter :: parameters) with
         | Some type => DigitalNotary.validateElement f (Some type) DigitalNotary.nameType
         | None => ret tt
         end;;
         DigitalNotary.validateElement f (lookup "$tag" (parameter :: parameters))
           DigitalNotary.tagType;;
         DigitalNotary.validateElement f (lookup "$version" (parameter :: parameters))
           DigitalNotary.versionType;;
         DigitalNotary.validateElement f (lookup "$permissions" (parameter :: parameters))
           DigitalNotary.nameType;;
         DigitalNotary.validateCitation f (lookup "$previous" (parameter :: parameters));;
         (if startsWith (toString (name "/bali/notary/Document/v1")) "/bali/notary/Document/v"
          then ret tt else DigitalNotary.invalid f)
     end)).
  rewrite E, toString_name.
  apply accepts_bind; [apply accepts_ret |].
  do 4 (apply accepts_bind;
        [first [exact Hcited | apply element_accepts; reflexivity] |]).
  apply accepts_bind.
  { destruct (lookup "$type" (parameter :: parameters));
      [| apply accepts_ret].
    destruct Hy as [Hy | Hy]; [discriminate Hy | apply element_accepts, Hy]. }
  repeat (apply accepts_bind;
          [first [exact Hprev | exact Hcited
                 | apply element_accepts;
                   first [exact Ht | exact Hv | exact Hp | exact Hy | reflexivity]] |]).
  apply accepts_ret.
Qed.

Lemma document_rejects (f : string) (d component : Component) :
  getValue d "$component" = Some component ->
  isA DigitalNotary.tagType (getParameter component "$tag") = false ->
  rejects f (DigitalNotary.validateDocument f (Some d)).
Proof.
  unfold getParameter. intros Hc Ht. unfold DigitalNotary.validateDocument.
  destruct (DigitalNotary.isCatalog d && Nat.eqb (getSize d) 5)%bool;
    [| apply rejects_invalid].
  rewrite Hc.
  apply rejects_after; [apply component_decides |].
  apply rejects_after; [apply element_decides |].
  apply rejects_after; [apply element_decides |].
  apply rejects_after; [apply citation_decides |].
  apply rejects_after; [apply element_decides |].
  change (rejects f
    match getParameters component with
    | [] => DigitalNotary.invalid f
    | parameter :: parameters =>
        match lookup "$type" (parameter :: parameters) with
        | Some type => DigitalNotary.validateElement f (Some type) DigitalNotary.nameType
        | None => ret tt
        end;;
        DigitalNotary.validateElement f (lookup "$tag" (parameter :: parameters))
          DigitalNotary.tagType;;
        DigitalNotary.validateElement f (lookup "$version" (parameter :: parameters))
          DigitalNotary.versionType;;
        DigitalNotary.validateElement f (lookup "$permissions" (parameter :: parameters))
          DigitalNotary.nameType;;
        DigitalNotary.validateCitation f (lookup "$previous" (parameter :: parameters));;
        (let parameters := getParameters d in
         if Nat.eqb (length parameters) 1
         then type <- defined (lookup "$type" parameters);;
              (if startsWith (toString type) "/bali/notary/Document/v"
               then ret tt else DigitalNotary.invalid f)
         else DigitalNotary.invalid f)
    end).
  destruct (getParameters component) as [| parameter parameters]; [apply rejects_invalid |].
  apply rejects_after.
  - destruct (lookup "$type" (parameter :: parameters));
      [apply element_decides | apply decides_accepts, accepts_ret].
  - apply rejects_first, element_rejects, Ht.
Qed.

End Validation.

(** ** Issuing and using the certificate *)

Section Certificates.
Context `{Platform}.

Lemma notary_initialize_blank (w : World) :
  notaryBlank w ->
  DigitalNotary.initialize w = (Ok tt, notaryStored "$limited" blankNotary w).
Proof.
  intros (Hc & Hf & Hok).
  destruct w as [a d [fc fw ff] nc nk sf sc sk t n]. simpl in Hc, Hf, Hok. subst.
  unfold DigitalNotary.initialize, DigitalNotary.loadConfiguration, notaryStored, notaryLoaded,
    blankNotary, bind, try, gets, modify, onNotaryFile, load, store, defined, ret.
  simpl. rewrite toString_symbol. reflexivity.
Qed.

Lemma notary_generate (w w1 : World) (c publicKey : Component) :
  notaryIn "$limited" c w ->
  SSM.generateKeys (notaryLoaded "$limited" c w) = (Ok (Some publicKey), w1) ->
  configuration w1 = Some c ->
  controller w1 = "$limited" ->
  faulty (notaryFile w1) = false ->
  let certificate :=
    certificateOf (clock w1) (account w1) publicKey
      (Element (Tag (random (drawn w1))) []) (version [1%positive]) NONE in
  let c' := setValue "$state" (symbol "$pending") (setValue "$certificate" certificate c) in
  DigitalNotary.generateKey w
  = (Ok certificate,
     set_drawn (S (drawn w1)) (set_clock (clock w1 + 1) (notaryStored "$pending" c' w1))).
Proof.
  intros Hin Hgen Hc Hk Hf certificate c'.
  unfold DigitalNotary.generateKey. apply rethrowing_ok.
  erewrite bind_ok by exact (notary_initialize Hin).
  erewrite bind_ok
    by (apply notary_allows with (s := "$limited") (next := "$pending"); reflexivity).
  erewrite bind_ok by exact Hgen.
  erewrite bind_ok by reflexivity.
  erewrite bind_ok by reflexivity.
  erewrite bind_ok by reflexivity.
  erewrite bind_ok by reflexivity.
  erewrite bind_ok by (apply configure with (c := c); exact Hc).
  erewrite bind_ok
    by (apply notary_moves with (s := "$limited") (next := "$pending"); [exact Hk | reflexivity]).
  erewrite bind_ok by (apply configure; reflexivity).
  erewrite bind_ok by (apply persisted; [reflexivity | exact Hf]).
  destruct w1. reflexivity.
Qed.

(** X6. [generateKey] in the limited state, over a keyless security module,
    has the module generate the pair and returns the unsigned certificate of
    its public key: protocol [v1], the account of the notary, a new tag,
    version [v1] and [$previous] [none].  The certificate is stashed under
    [$certificate], the notary becomes [$pending] and writes its file, and
    the module is left in [$loneKey]. *)
Theorem generateKey_issues_certificate :
  forall (w : World) (c sc : Component),
    notaryIn "$limited" c w ->
    ssmIn "$keyless" sc w ->
    faulty (notaryFile w) = false ->
    faulty (ssmFile w) = false ->
    let seed := random (drawn w) in
    let certificate :=
      certificateOf (clock w) (account w) (binary (fst (createKeyPair seed)))
        (Element (Tag (random (S (drawn w)))) []) (version [1%positive]) NONE in
    let c' := setValue "$state" (symbol "$pending") (setValue "$certificate" certificate c) in
    exists w',
      DigitalNotary.generateKey w = (Ok certificate, w') /\
      notaryIn "$pending" c' w' /\
      content (notaryFile w') = Some c' /\
      getValue c' "$certificate" = Some certificate /\
      getValue c' "$citation" = getValue c "$citation" /\
      ssmIn "$loneKey" (generated seed sc) w' /\
      content (ssmFile w') = Some (generated seed sc) /\
      getValue certificate "$publicKey" = getValue (generated seed sc) "$publicKey" /\
      getParameter certificate "$previous" = Some NONE /\
      getParameter certificate "$version" = Some (version [1%positive]).
Proof.
  intros w c sc Hn Hs Hnf Hsf seed certificate c'.
  pose proof (holds_catalog _ _ (proj1 Hn)) as Hcat.
  pose proof (holds_catalog _ _ (proj1 Hs)) as Hscat.
  destruct (generated_state seed Hscat) as (Gs & Gp & Gk & Gother).
  pose proof (ssm_generate (w := notaryLoaded "$limited" c w) (c := sc) Hs Hsf) as Hgen.
  pose proof (notary_generate Hn Hgen eq_refl eq_refl Hnf) as Hrun.
  eexists. split.
  - exact Hrun.
  - assert (Hstate : getValue c' "$state" = Some (symbol "$pending")).
    { apply getValue_setValue_same. destruct Hcat as [a [p ->]]. simpl. eauto. }
    split; [split; [exact Hstate | left; split; reflexivity] |].
    split; [reflexivity |].
    split.
    { unfold c'. rewrite getValue_setValue_other by discriminate.
      apply getValue_setValue_same. exact Hcat. }
    split.
    { unfold c'. rewrite !getValue_setValue_other by discriminate. reflexivity. }
    split; [split; [exact Gs | left; split; reflexivity] |].
    split; [reflexivity |].
    split; [rewrite Gp; reflexivity |].
    split; reflexivity.
Qed.

Lemma notary_notarize_checked (w : World) (c sc : Component) (s : string)
  (component : Component) (publicKey privateKey : string) :
  notaryIn s c w ->
  s = "$pending" \/ s = "$enabled" ->
  ssmIn "$loneKey" sc w ->
  DigitalNotary.whenValidating
    (DigitalNotary.validateType "$notarizeComponent" component;;
     DigitalNotary.validateStructure "$notarizeComponent" (Some component)
       DigitalNotary.componentType) w = (Ok tt, w) ->
  faulty (notaryFile w) = false ->
  faulty (ssmFile w) = false ->
  getValue sc "$publicKey" = Some (binary publicKey) ->
  getValue sc "$privateKey" = Some (binary privateKey) ->
  getValue sc "$previousPublicKey" = None ->
  let cited := match getValue c "$citation" with
               | Some citation => citation
               | None => NONE
               end in
  let unsigned := documentOf (clock w) component cited in
  let signature := sign (toString unsigned) publicKey privateKey in
  DigitalNotary.notarizeComponent component w
  = (Ok (setValue "$signature" (binary signature) unsigned),
     set_clock (clock w + 1) (notaryStored s c (ssmStored "$loneKey" sc w))).
Proof.
  intros Hn Hs Hm Hd Hnf Hsf Hpk Hsk Hno cited unsigned signature.
  assert (Hnext : nextState DigitalNotary.REQUESTS DigitalNotary.STATES s "$notarizeComponent"
                  = Some s) by (destruct Hs as [-> | ->]; reflexivity).
  unfold DigitalNotary.notarizeComponent. apply rethrowing_ok.
  erewrite bind_ok by exact Hd.
  erewrite bind_ok by exact (notary_initialize Hn).
  erewrite bind_ok by (apply notary_allows with (s := s) (next := s); [reflexivity | exact Hnext]).
  erewrite bind_ok by (apply configured with (c := c); reflexivity).
  erewrite bind_ok by reflexivity.
  erewrite bind_ok by reflexivity.
  erewrite bind_ok.
  2:{ apply ssm_sign_current with (s := "$loneKey") (c := sc);
        [exact Hm | left; reflexivity | exact Hsf | exact Hpk | exact Hsk | exact Hno]. }
  erewrite bind_ok
    by (apply notary_moves with (s := s) (next := s); [reflexivity | exact Hnext]).
  erewrite bind_ok by (apply configure with (c := c); reflexivity).
  erewrite bind_ok by (apply persisted; [reflexivity | exact Hnf]).
  rewrite (setValue_same _ _ (proj1 Hn)).
  rewrite (setValue_same _ _ (proj1 Hm)).
  destruct w. reflexivity.
Qed.

Lemma component_checked (f : string) (component : Component) (w : World) :
  DigitalNotary.isCatalog component = true \/ debug w <= 1 ->
  DigitalNotary.whenValidating
    (DigitalNotary.validateType f component;;
     DigitalNotary.validateStructure f (Some component) DigitalNotary.componentType) w
  = (Ok tt, w).
Proof.
  intros [Hd | Hd].
  - apply checked. unfold DigitalNotary.validateType, bind. rewrite Hd. reflexivity.
  - apply unvalidated. exact Hd.
Qed.

Lemma notary_notarize (w : World) (c sc : Component) (s : string) (component : Component)
  (publicKey privateKey : string) :
  notaryIn s c w ->
  s = "$pending" \/ s = "$enabled" ->
  ssmIn "$loneKey" sc w ->
  DigitalNotary.isCatalog component = true \/ debug w <= 1 ->
  faulty (notaryFile w) = false ->
  faulty (ssmFile w) = false ->
  getValue sc "$publicKey" = Some (binary publicKey) ->
  getValue sc "$privateKey" = Some (binary privateKey) ->
  getValue sc "$previousPublicKey" = None ->
  let cited := match getValue c "$citation" with
               | Some citation => citation
               | None => NONE
               end in
  let unsigned := documentOf (clock w) component cited in
  let signature := sign (toString unsigned) publicKey privateKey in
  DigitalNotary.notarizeComponent component w
  = (Ok (setValue "$signature" (binary signature) unsigned),
     set_clock (clock w + 1) (notaryStored s c (ssmStored "$loneKey" sc w))).
Proof.
  intros Hn Hs Hm Hd Hnf Hsf Hpk Hsk Hno.
  apply notary_notarize_checked; try assumption.
  apply component_checked, Hd.
Qed.

(** X7. [notarizeComponent], in the pending or the enabled state over a
    module with one key pair, wraps the component in a document that cites
    the current citation, or [none] when the notary has none yet, and signs
    the document's source with the current pair.  The component is a catalog,
    or the debug level is at most 1 and nothing is checked.  The notary stays
    in its state with its configuration unchanged, and, at a debug level of at
    most 1, the document verifies with [validDocument] against any
    certificate of protocol [v1] that carries the module's public key. *)
Theorem notarizeComponent_seals :
  forall (w : World) (c sc : Component) (s : string) (component : Component)
         (publicKey privateKey : string),
    notaryIn s c w ->
    s = "$pending" \/ s = "$enabled" ->
    ssmIn "$loneKey" sc w ->
    DigitalNotary.isCatalog component = true \/ debug w <= 1 ->
    faulty (notaryFile w) = false ->
    faulty (ssmFile w) = false ->
    getValue sc "$publicKey" = Some (binary publicKey) ->
    getValue sc "$privateKey" = Some (binary privateKey) ->
    getValue sc "$previousPublicKey" = None ->
    let cited := match getValue c "$citation" with
                 | Some citation => citation
                 | None => NONE
                 end in
    let unsigned := documentOf (clock w) component cited in
    let signature := sign (toString unsigned) publicKey privateKey in
    let document := setValue "$signature" (binary signature) unsigned in
    let w' := set_clock (clock w + 1) (notaryStored s c (ssmStored "$loneKey" sc w)) in
    DigitalNotary.notarizeComponent component w = (Ok document, w') /\
    getValue document "$component" = Some component /\
    getValue document "$certificate" = Some cited /\
    extraction document DigitalNotary.signedAttributes = unsigned /\
    notaryIn s c w' /\
    content (notaryFile w') = Some c /\
    (forall certificate : Component,
        debug w <= 1 ->
        getValue certificate "$protocol" = Some (version [1%positive]) ->
        getValue certificate "$publicKey" = Some (binary publicKey) ->
        verify signature (toString unsigned) publicKey = true ->
        DigitalNotary.validDocument document certificate w' = (Ok true, w')).
Proof.
  intros w c sc s component publicKey privateKey Hn Hs Hm Hd Hnf Hsf Hpk Hsk Hno
    cited unsigned signature document w'.
  split; [apply notary_notarize; assumption |].
  split; [reflexivity |]. split; [reflexivity |]. split; [reflexivity |].
  split; [split; [exact (proj1 Hn) | left; split; reflexivity] |].
  split; [reflexivity |].
  intros certificate Hlevel Hprot Hkey Hed.
  apply validDocument_verifies
    with (protocol := version [1%positive]) (publicKey := publicKey) (signature := signature);
    [exact Hlevel | exact Hprot | apply toString_version | exact Hkey | reflexivity |].
  change (extraction document DigitalNotary.signedAttributes) with unsigned.
  apply verify_answer. exact Hed.
Qed.

End Certificates.

(** ** First use *)

Section FirstUse.
Context `{Platform}.

Lemma ssm_generate_blank (w : World) :
  ssmBlank w ->
  let t := random (drawn w) in
  let seed := random (S (drawn w)) in
  SSM.generateKeys w
  = (Ok (Some (binary (fst (createKeyPair seed)))),
     set_drawn (S (S (drawn w)))
       (ssmStored "$loneKey" (generated seed (blankSsm t)) (ssmStored "$keyless" (blankSsm t) w))).
Proof.
  intros Hb t seed.
  set (w0 := set_drawn (S (drawn w)) (ssmStored "$keyless" (blankSsm t) w)).
  assert (Hin : ssmIn "$keyless" (blankSsm t) w0)
    by (split; [reflexivity | left; split; reflexivity]).
  assert (E : SSM.generateKeys w0
              = (Ok (Some (binary (fst (createKeyPair seed)))),
                 set_drawn (S (S (drawn w)))
                   (ssmStored "$loneKey" (generated seed (blankSsm t))
                      (ssmStored "$keyless" (blankSsm t) w)))).
  { rewrite (ssm_generate Hin) by reflexivity. destruct w. reflexivity. }
  rewrite <- E. unfold SSM.generateKeys.
  apply initialized_first.
  - exact (ssm_initialize_blank Hb).
  - rewrite (ssm_initialize Hin). destruct w; reflexivity.
Qed.

Lemma notary_activate (w : World) (c stashed component certificate : Component) :
  notaryIn "$pending" c w ->
  DigitalNotary.whenValidating
    (DigitalNotary.validateType "$activateKey" certificate;;
     DigitalNotary.validateStructure "$activateKey" (Some certificate) DigitalNotary.documentType;;
     DigitalNotary.validateStructure "$activateKey" (getValue certificate "$component")
       DigitalNotary.certificateType) w = (Ok tt, w) ->
  faulty (notaryFile w) = false ->
  getValue c "$certificate" = Some stashed ->
  getValue certificate "$component" = Some component ->
  isEqualTo stashed component = true ->
  let citation := citationOf (clock w) (stored (getParameter component "$tag"))
                    (stored (getParameter component "$version")) (toString certificate) in
  let c' := setValue "$state" (symbol "$enabled")
              (setValue "$certificate" certificate (setValue "$citation" citation c)) in
  DigitalNotary.activateKey certificate w
  = (Ok citation, set_clock (clock w + 1) (notaryStored "$enabled" c' w)).
Proof.
  intros Hin Hd Hf Hst Hcomp Heq citation c'.
  pose proof (notary_initialize Hin) as Hinit.
  assert (Hc : exists a p, c = Catalog a p).
  { destruct c as [x p | a p]; [discriminate Hst | eauto]. }
  destruct Hc as [a [p ->]].
  unfold DigitalNotary.activateKey. apply rethrowing_ok.
  erewrite bind_ok by exact Hd.
  erewrite bind_ok by exact Hinit.
  clear Hd.
  destruct w as [ac d [fc fw ff] nc nk sf sc sk t0 n].
  simpl in Hst, Hf. subst ff.
  unfold notaryStored, notaryLoaded, DigitalNotary.validateEvent, DigitalNotary.getConfigured,
    DigitalNotary.setConfigured, DigitalNotary.transitionState, DigitalNotary.persist,
    DigitalNotary.storeConfiguration, DigitalNotary.construct, SSM.digestBytes,
    moment, attempt, rethrowing, onNotaryFile, store, bind, try, gets, modify, defined, ret,
    throw.
  simpl. rewrite Hst. simpl. rewrite Hcomp. rewrite Heq. simpl. reflexivity.
Qed.

Lemma validDocument_checked (w : World) (document certificate protocol : Component)
  (publicKey signature : string) :
  DigitalNotary.whenValidating
    (DigitalNotary.validateType "$validDocument" document;;
     DigitalNotary.validateStructure "$validDocument" (Some document) DigitalNotary.documentType;;
     DigitalNotary.validateType "$validDocument" certificate;;
     DigitalNotary.validateStructure "$validDocument" (Some certificate)
       DigitalNotary.certificateType) w = (Ok tt, w) ->
  getValue certificate "$protocol" = Some protocol ->
  toString protocol = "v1" ->
  getValue certificate "$publicKey" = Some (binary publicKey) ->
  getValue document "$signature" = Some (binary signature) ->
  verify signature (toString (extraction document DigitalNotary.signedAttributes))
    publicKey = true ->
  DigitalNotary.validDocument document certificate w = (Ok true, w).
Proof.
  intros Hd Hp E Hpk Hsig Hed. unfold DigitalNotary.validDocument. apply rethrowing_ok.
  erewrite bind_ok by exact Hd.
  rewrite Hp. simpl defined.
  erewrite bind_ok by reflexivity.
  rewrite E.
  erewrite bind_ok by apply current_module.
  rewrite Hpk, Hsig. apply validSignature_answers. apply verify_answer. exact Hed.
Qed.

Lemma citationMatches_checked (w : World) (citation document protocol : Component) :
  DigitalNotary.whenValidating
    (DigitalNotary.validateType "$citationMatches" citation;;
     DigitalNotary.validateStructure "$citationMatches" (Some citation) DigitalNotary.citationType;;
     DigitalNotary.validateType "$citationMatches" document;;
     DigitalNotary.validateStructure "$citationMatches" (Some document)
       DigitalNotary.documentType) w = (Ok tt, w) ->
  getValue citation "$protocol" = Some protocol ->
  toString protocol = "v1" ->
  DigitalNotary.citationMatches citation document w
  = (Ok match getValue citation "$digest" with
        | Some cited => isEqualTo (binary (sha512 (toString document))) cited
        | None => false
        end, w).
Proof.
  intros Hd Hp E. unfold DigitalNotary.citationMatches. apply rethrowing_ok.
  erewrite bind_ok by exact Hd.
  rewrite Hp. simpl defined.
  erewrite bind_ok by reflexivity.
  rewrite E.
  erewrite bind_ok by apply current_module.
  reflexivity.
Qed.

(** X8. First use, at every debug level.  On a machine where neither the
    notary nor the security module has a file, and for an account that is a
    tag, [generateKey] returns the certificate of the new public key;
    [notarizeComponent] on that certificate returns it signed with the new
    key and citing [none]; [activateKey] accepts the signed certificate and
    returns its citation; [getCitation] then returns that same citation.
    The signed certificate verifies against its own component, the citation
    matches it, the notary ends enabled over a security module with one key
    pair, the notary file has been written five times and the module's file
    three times.  Every argument passes the validation that runs at debug
    levels above 1. *)
Theorem first_use :
  forall w : World,
    notaryBlank w ->
    ssmBlank w ->
    isA DigitalNotary.tagType (Some (account w)) = true ->
    let pair := createKeyPair (random (S (drawn w))) in
    let t := Element (Tag (random (S (S (drawn w))))) [] in
    let component :=
      certificateOf (clock w) (account w) (binary (fst pair)) t (version [1%positive]) NONE in
    let unsigned := documentOf (clock w + 1) component NONE in
    let signature := sign (toString unsigned) (fst pair) (snd pair) in
    let certificate := setValue "$signature" (binary signature) unsigned in
    let citation := citationOf (clock w + 1 + 1) t (version [1%positive]) (toString certificate) in
    verify signature (toString unsigned) (fst pair) = true ->
    exists w1 w2 w3 w4 : World,
      DigitalNotary.generateKey w = (Ok component, w1) /\
      DigitalNotary.notarizeComponent component w1 = (Ok certificate, w2) /\
      DigitalNotary.activateKey certificate w2 = (Ok citation, w3) /\
      DigitalNotary.getCitation w3 = (Ok (Some citation), w4) /\
      DigitalNotary.validDocument certificate component w4 = (Ok true, w4) /\
      DigitalNotary.citationMatches citation certificate w4 = (Ok true, w4) /\
      controller w4 = "$enabled" /\
      ssmController w4 = "$loneKey" /\
      option_map (fun c => getValue c "$citation") (content (notaryFile w4))
        = Some (Some citation) /\
      option_map (fun c => getValue c "$certificate") (content (notaryFile w4))
        = Some (Some certificate) /\
      writes (notaryFile w4) = 5 + writes (notaryFile w) /\
      writes (ssmFile w4) = 3 + writes (ssmFile w).
Proof.
  intros w Hn Hs Ha pair t component unsigned signature certificate citation Hed.
  assert (Hcomponent : forall f, accepts (DigitalNotary.validateCertificate f (Some component))).
  { intros f. apply certificate_accepts;
      [exact Ha | reflexivity | reflexivity | reflexivity | apply none_accepts]. }
  assert (Hdocument : forall f, accepts (DigitalNotary.validateDocument f (Some certificate))).
  { intros f. apply document_accepts;
      [reflexivity | reflexivity | reflexivity | right; reflexivity
      | apply none_accepts | apply none_accepts]. }
  assert (Hcitation : forall f, accepts (DigitalNotary.validateCitation f (Some citation))).
  { intros f. apply citation_accepts; reflexivity. }
  pose proof (notary_initialize_blank Hn) as Hinit.
  set (wA := notaryStored "$limited" blankNotary w) in *.
  assert (HinA : notaryIn "$limited" blankNotary wA)
    by (split; [reflexivity | left; split; reflexivity]).
  assert (HsA : ssmBlank (notaryLoaded "$limited" blankNotary wA)) by exact Hs.
  pose proof (ssm_generate_blank HsA) as Hgen.
  pose proof (notary_generate HinA Hgen eq_refl eq_refl eq_refl) as Hrun.
  cbv zeta in Hrun.
  match type of Hrun with _ = (_, ?x) => set (w1 := x) in * end.
  assert (E1 : DigitalNotary.generateKey w = (Ok component, w1)).
  { transitivity (DigitalNotary.generateKey wA); [| exact Hrun].
    unfold DigitalNotary.generateKey.
    apply loaded_first.
    - exact Hinit.
    - rewrite (notary_initialize HinA). destruct w; reflexivity. }
  set (c1 := setValue "$state" (symbol "$pending")
               (setValue "$certificate" component blankNotary)).
  set (sc := generated (random (S (drawn w))) (blankSsm (random (drawn w)))).
  assert (Hn1 : notaryIn "$pending" c1 w1)
    by (split; [reflexivity | left; split; reflexivity]).
  assert (Hs1 : ssmIn "$loneKey" sc w1)
    by (split; [reflexivity | left; split; reflexivity]).
  pose proof (@notary_notarize _ w1 c1 sc "$pending" component (fst pair) (snd pair)
                Hn1 (or_introl eq_refl) Hs1 (or_introl eq_refl)
                eq_refl eq_refl eq_refl eq_refl eq_refl) as E2.
  cbv zeta in E2.
  match type of E2 with _ = (_, ?x) => set (w2 := x) in * end.
  assert (Hn2 : notaryIn "$pending" c1 w2)
    by (split; [reflexivity | left; split; reflexivity]).
  assert (Hcheck2 :
    DigitalNotary.whenValidating
      (DigitalNotary.validateType "$activateKey" certificate;;
       DigitalNotary.validateStructure "$activateKey" (Some certificate)
         DigitalNotary.documentType;;
       DigitalNotary.validateStructure "$activateKey" (getValue certificate "$component")
         DigitalNotary.certificateType) w2 = (Ok tt, w2)).
  { apply checked.
    apply accepts_bind; [apply type_accepts |].
    apply accepts_bind; [apply Hdocument | apply Hcomponent]. }
  pose proof (@notary_activate w2 c1 component component certificate
                Hn2 Hcheck2 eq_refl eq_refl eq_refl (isEqualTo_refl component)) as E3.
  cbv zeta in E3.
  match type of E3 with _ = (_, ?x) => set (w3 := x) in * end.
  set (c3 := setValue "$state" (symbol "$enabled")
               (setValue "$certificate" certificate (setValue "$citation" citation c1))).
  assert (Hn3 : notaryIn "$enabled" c3 w3)
    by (split; [reflexivity | left; split; reflexivity]).
  pose proof (getCitation_stores Hn3 eq_refl) as E4.
  match type of E4 with _ = (_, ?x) => set (w4 := x) in * end.
  exists w1, w2, w3, w4.
  split; [exact E1 |]. split; [exact E2 |]. split; [exact E3 |]. split; [exact E4 |].
  split.
  { apply validDocument_checked
      with (protocol := version [1%positive]) (publicKey := fst pair) (signature := signature);
      [| reflexivity | apply toString_version | reflexivity | reflexivity |].
    2:{ change (extraction certificate DigitalNotary.signedAttributes) with unsigned.
        exact Hed. }
    - apply checked.
      apply accepts_bind; [apply type_accepts |].
      apply accepts_bind; [apply Hdocument |].
      apply accepts_bind; [apply type_accepts | apply Hcomponent]. }
  split.
  { rewrite citationMatches_checked with (protocol := version [1%positive]);
      [| | reflexivity | apply toString_version].
    - change (getValue citation "$digest")
        with (Some (binary (sha512 (toString certificate)))).
      cbv beta iota. rewrite isEqualTo_refl. reflexivity.
    - apply checked.
      apply accepts_bind; [apply type_accepts |].
      apply accepts_bind; [apply Hcitation |].
      apply accepts_bind; [apply type_accepts | apply Hdocument]. }
  repeat split.
Qed.

End FirstUse.

(** ** Validation at debug levels above 1 *)

Section Checks.
Context `{Platform}.

(** X9. What the notary builds passes its own validation.  A certificate
    built for an account that is a tag, a binary public key, a tag and a
    version, whose [$previous] is an accepted citation, is accepted as a
    certificate; the document that wraps it under a binary signature and
    cites an accepted citation is accepted as a catalog and as a document;
    the citation built for the certificate's tag and version is accepted, and
    so is [none]. *)
Theorem products_pass_validation :
  forall (f : string) (issued stamp : Z) (owner publicKey t v previous cited : Component)
         (signature bytes : string),
    isA DigitalNotary.tagType (Some owner) = true ->
    isA DigitalNotary.binaryType (Some publicKey) = true ->
    isA DigitalNotary.tagType (Some t) = true ->
    isA DigitalNotary.versionType (Some v) = true ->
    accepts (DigitalNotary.validateStructure f (Some previous) DigitalNotary.citationType) ->
    accepts (DigitalNotary.validateStructure f (Some cited) DigitalNotary.citationType) ->
    let component := certificateOf issued owner publicKey t v previous in
    let document := setValue "$signature" (binary signature) (documentOf stamp component cited) in
    accepts (DigitalNotary.validateStructure f (Some component) DigitalNotary.certificateType) /\
    accepts (DigitalNotary.validateType f document) /\
    accepts (DigitalNotary.validateStructure f (Some document) DigitalNotary.documentType) /\
    accepts (DigitalNotary.validateStructure f (Some (citationOf stamp t v bytes))
               DigitalNotary.citationType) /\
    accepts (DigitalNotary.validateStructure f (Some NONE) DigitalNotary.citationType).
Proof.
  intros f issued stamp owner publicKey t v previous cited signature bytes
    Ho Hk Ht Hv Hp Hc component document.
  split; [apply certificate_accepts; assumption |].
  split; [apply type_accepts |].
  split; [apply document_accepts;
          [exact Ht | exact Hv | reflexivity | right; reflexivity | exact Hp | exact Hc] |].
  split; [apply citation_accepts; assumption | apply none_accepts].
Qed.

(** X10. At a debug level above 1 the notary signs documents that it then
    refuses to read.  [notarizeComponent] takes any catalog, but a document
    is valid only when its component carries a [$tag] parameter that is a
    tag.  For a catalog without one, [notarizeComponent] returns the signed
    document, and [validDocument], [citationMatches] and [citeDocument] all
    fail on that document and leave the world as it is.  [validDocument],
    whatever the certificate, and [citeDocument] throw the [invalidParameter]
    exception of the validation, which reaches the caller as it is;
    [citationMatches] throws it for every citation that is a catalog, and the
    [argumentType] exception for a citation that is not. *)
Theorem untagged_document_rejected :
  forall (w : World) (c sc : Component) (s : string) (component : Component)
         (publicKey privateKey : string),
    notaryIn s c w ->
    s = "$pending" \/ s = "$enabled" ->
    ssmIn "$loneKey" sc w ->
    1 < debug w ->
    DigitalNotary.isCatalog component = true ->
    isA DigitalNotary.tagType (getParameter component "$tag") = false ->
    faulty (notaryFile w) = false ->
    faulty (ssmFile w) = false ->
    getValue sc "$publicKey" = Some (binary publicKey) ->
    getValue sc "$privateKey" = Some (binary privateKey) ->
    getValue sc "$previousPublicKey" = None ->
    exists (document : Component) (w' : World),
      DigitalNotary.notarizeComponent component w = (Ok document, w') /\
      getValue document "$component" = Some component /\
      (forall certificate : Component,
          DigitalNotary.validDocument document certificate w'
          = (Throw (rejected "$validDocument"), w')) /\
      (forall citation : Component,
          DigitalNotary.isCatalog citation = true ->
          DigitalNotary.citationMatches citation document w'
          = (Throw (rejected "$citationMatches"), w')) /\
      (forall citation : Component,
          DigitalNotary.isCatalog citation = false ->
          DigitalNotary.citationMatches citation document w'
          = (Throw (mistyped "$citationMatches"), w')) /\
      DigitalNotary.citeDocument document w' = (Throw (rejected "$citeDocument"), w').
Proof.
  intros w c sc s component publicKey privateKey Hn Hs Hm Hd Hcat Htag Hnf Hsf Hpk Hsk Hno.
  pose proof (notary_notarize component Hn Hs Hm (or_introl Hcat)
                Hnf Hsf Hpk Hsk Hno) as Hrun.
  cbv zeta in Hrun.
  match type of Hrun with _ = (Ok ?d, ?x) => set (document := d) in *; set (w' := x) in * end.
  assert (Hc : getValue document "$component" = Some component) by reflexivity.
  assert (Hd' : 1 < debug w') by exact Hd.
  assert (Hrej : forall f, rejects f (DigitalNotary.validateDocument f (Some document)))
    by (intros f; apply document_rejects with (component := component); assumption).
  assert (Hty : forall f, decides f (DigitalNotary.validateType f document))
    by (intros f; apply decides_accepts, type_accepted; reflexivity).
  exists document, w'.
  split; [exact Hrun |]. split; [exact Hc |]. split; [| split; [| split]].
  - intros certificate. unfold DigitalNotary.validDocument, rejected.
    apply rethrowing_own; [reflexivity |].
    erewrite bind_throw; [reflexivity |].
    rewrite validating by exact Hd'.
    apply rejects_after; [apply Hty |].
    apply rejects_first, Hrej.
  - intros citation Hcit. unfold DigitalNotary.citationMatches, rejected.
    apply rethrowing_own; [reflexivity |].
    erewrite bind_throw; [reflexivity |].
    rewrite validating by exact Hd'.
    apply rejects_after; [apply decides_accepts, type_accepted, Hcit |].
    apply rejects_after; [apply citation_decides |].
    apply rejects_after; [apply Hty |].
    apply Hrej.
  - intros citation Hcit. unfold DigitalNotary.citationMatches, mistyped.
    apply rethrowing_own; [reflexivity |].
    erewrite bind_throw; [reflexivity |].
    rewrite validating by exact Hd'.
    erewrite bind_throw; [reflexivity |].
    apply type_mistyped. exact Hcit.
  - unfold DigitalNotary.citeDocument, rejected.
    apply rethrowing_own; [reflexivity |].
    erewrite bind_throw; [reflexivity |].
    rewrite validating by exact Hd'.
    apply rejects_after; [apply Hty |].
    apply Hrej.
Qed.

Lemma document_accepted (f : string) (d : Component) (w w' : World) :
  DigitalNotary.validateDocument f (Some d) w = (Ok tt, w') ->
  DigitalNotary.isCatalog d = true /\
  getSize d = 5 /\
  isA DigitalNotary.versionType (getValue d "$protocol") = true /\
  isA DigitalNotary.momentType (getValue d "$timestamp") = true /\
  isA DigitalNotary.binaryType (getValue d "$signature") = true /\
  length (getParameters d) = 1 /\
  exists component : Component,
    getValue d "$component" = Some component /\
    isA DigitalNotary.tagType (getParameter component "$tag") = true /\
    isA DigitalNotary.versionType (getParameter component "$version") = true /\
    isA DigitalNotary.nameType (getParameter component "$permissions") = true.
Proof.
  unfold DigitalNotary.validateDocument, getParameter. intros E.
  destruct (DigitalNotary.isCatalog d) eqn:Hcat; [| discriminate E].
  destruct (Nat.eqb_spec (getSize d) 5) as [Hsize |]; [| discriminate E].
  simpl andb in E. cbv iota in E.
  apply bind_inversion in E. destruct E as (u1 & w1 & E1 & E).
  apply bind_inversion in E. destruct E as (u2 & w2 & E2 & E).
  apply bind_inversion in E. destruct E as (u3 & w3 & E3 & E).
  apply bind_inversion in E. destruct E as (u4 & w4 & E4 & E).
  apply bind_inversion in E. destruct E as (u5 & w5 & E5 & E).
  apply bind_inversion in E. destruct E as (component & w6 & E6 & E).
  destruct u2, u3, u5.
  apply element_accepted in E2, E3, E5.
  destruct (getValue d "$component") as [found |]; [| discriminate E6].
  injection E6 as -> ->.
  destruct (getParameters component) as [| parameter parameters] eqn:Hp;
    [discriminate E |].
  apply bind_inversion in E. destruct E as (u7 & w7 & E7 & E).
  apply bind_inversion in E. destruct E as (u8 & w8 & E8 & E).
  apply bind_inversion in E. destruct E as (u9 & w9 & E9 & E).
  apply bind_inversion in E. destruct E as (u10 & w10 & E10 & E).
  apply bind_inversion in E. destruct E as (u11 & w11 & E11 & E).
  destruct u8, u9, u10.
  apply element_accepted in E8, E9, E10.
  cbv zeta in E.
  destruct (Nat.eqb_spec (length (getParameters d)) 1) as [Hlen |]; [| discriminate E].
  split; [reflexivity |]. split; [exact Hsize |].
  split; [exact (proj1 E2) |]. split; [exact (proj1 E3) |]. split; [exact (proj1 E5) |].
  split; [exact Hlen |].
  exists component. split; [reflexivity |]. rewrite Hp.
  split; [exact (proj1 E8) |]. split; [exact (proj1 E9) | exact (proj1 E10)].
Qed.

Lemma certificate_accepted (f : string) (c : Component) (w w' : World) :
  DigitalNotary.validateCertificate f (Some c) w = (Ok tt, w') ->
  DigitalNotary.isCatalog c = true /\
  getSize c = 4 /\
  isA DigitalNotary.versionType (getValue c "$protocol") = true /\
  isA DigitalNotary.momentType (getValue c "$timestamp") = true /\
  isA DigitalNotary.tagType (getValue c "$account") = true /\
  isA DigitalNotary.binaryType (getValue c "$publicKey") = true /\
  length (getParameters c) = 5 /\
  isA DigitalNotary.tagType (getParameter c "$tag") = true /\
  isA DigitalNotary.versionType (getParameter c "$version") = true.
Proof.
  unfold DigitalNotary.validateCertificate, getParameter. intros E.
  destruct (DigitalNotary.isCatalog c) eqn:Hcat; [| discriminate E].
  destruct (Nat.eqb_spec (getSize c) 4) as [Hsize |]; [| discriminate E].
  simpl andb in E. cbv iota in E.
  apply bind_inversion in E. destruct E as (u1 & w1 & E1 & E).
  apply bind_inversion in E. destruct E as (u2 & w2 & E2 & E).
  apply bind_inversion in E. destruct E as (u3 & w3 & E3 & E).
  apply bind_inversion in E. destruct E as (u4 & w4 & E4 & E).
  destruct u1, u2, u3, u4.
  apply element_accepted in E1, E2, E3, E4.
  cbv zeta in E.
  destruct (Nat.eqb_spec (length (getParameters c)) 5) as [Hlen |]; [| discriminate E].
  apply bind_inversion in E. destruct E as (u5 & w5 & E5 & E).
  apply bind_inversion in E. destruct E as (u6 & w6 & E6 & E).
  apply bind_inversion in E. destruct E as (u7 & w7 & E7 & E).
  destruct u6, u7.
  apply element_accepted in E6, E7.
  split; [reflexivity |]. split; [exact Hsize |].
  split; [exact (proj1 E1) |]. split; [exact (proj1 E2) |].
  split; [exact (proj1 E3) |]. split; [exact (proj1 E4) |].
  split; [exact Hlen |].
  split; [exact (proj1 E6) | exact (proj1 E7)].
Qed.

(** X11. What [validDocument] has checked when it answers at a debug level
    above 1.  The document is a catalog of five attributes with one
    parameter, its [$protocol] a version, its [$timestamp] a moment and its
    [$signature] a binary, and its [$component] carries a tag, a version and
    a name as [$tag], [$version] and [$permissions].  The certificate is a
    catalog of four attributes and five parameters with a binary
    [$publicKey], so it is never a signed document: the caller passes the
    certificate itself, not the document that wraps it. *)
Theorem validDocument_checks_shape :
  forall (w w' : World) (document certificate : Component) (answer : bool),
    1 < debug w ->
    DigitalNotary.validDocument document certificate w = (Ok answer, w') ->
    (DigitalNotary.isCatalog document = true /\
     getSize document = 5 /\
     length (getParameters document) = 1 /\
     isA DigitalNotary.versionType (getValue document "$protocol") = true /\
     isA DigitalNotary.momentType (getValue document "$timestamp") = true /\
     isA DigitalNotary.binaryType (getValue document "$signature") = true /\
     exists component : Component,
       getValue document "$component" = Some component /\
       isA DigitalNotary.tagType (getParameter component "$tag") = true /\
       isA DigitalNotary.versionType (getParameter component "$version") = true /\
       isA DigitalNotary.nameType (getParameter component "$permissions") = true) /\
    (DigitalNotary.isCatalog certificate = true /\
     getSize certificate = 4 /\
     length (getParameters certificate) = 5 /\
     isA DigitalNotary.versionType (getValue certificate "$protocol") = true /\
     isA DigitalNotary.tagType (getValue certificate "$account") = true /\
     isA DigitalNotary.binaryType (getValue certificate "$publicKey") = true) /\
    getSize certificate <> getSize document.
Proof.
  intros w w' document certificate answer Hd E.
  unfold DigitalNotary.validDocument in E.
  apply rethrowing_ok_inversion in E.
  apply bind_inversion in E. destruct E as (u & w0 & E & _).
  rewrite validating in E by exact Hd.
  apply bind_inversion in E. destruct E as (u1 & w1 & _ & E).
  apply bind_inversion in E. destruct E as (u2 & w2 & E2 & E).
  apply bind_inversion in E. destruct E as (u3 & w3 & _ & E3).
  destruct u, u2.
  apply document_accepted in E2. apply certificate_accepted in E3.
  destruct E2 as (D1 & D2 & D3 & D4 & D5 & D6 & D7).
  destruct E3 as (C1 & C2 & C3 & C4 & C5 & C6 & C7 & _).
  split; [| split; [| rewrite C2, D2; discriminate]].
  - split; [exact D1 |]. split; [exact D2 |]. split; [exact D6 |].
    split; [exact D3 |]. split; [exact D4 |]. split; [exact D5 | exact D7].
  - split; [exact C1 |]. split; [exact C2 |]. split; [exact C7 |].
    split; [exact C3 |]. split; [exact C5 | exact C6].
Qed.

End Checks.


(** ** Operations that only read *)

Section Frame.
Context `{Platform}.

Lemma readOnly_ret {A} (a : A) : readOnly (ret a).
Proof. intros w. reflexivity. Qed.

Lemma readOnly_throw {A} (e : Exception) : readOnly (@throw A e).
Proof. intros w. reflexivity. Qed.

Lemma readOnly_gets {A} (f : World -> A) : readOnly (gets f).
Proof. intros w. reflexivity. Qed.

Lemma readOnly_bind {A B} (m : M A) (k : A -> M B) :
  readOnly m -> (forall a, readOnly (k a)) -> readOnly (bind m k).
Proof.
  intros Hm Hk w. unfold bind. specialize (Hm w).
  destruct (m w) as [[a | e] w1]; simpl in Hm; subst w1; [apply Hk | reflexivity].
Qed.

Lemma readOnly_attempt {A} (m p : string) (body : M A) :
  readOnly body -> readOnly (attempt m p body).
Proof.
  intros Hm w. unfold attempt, try. specialize (Hm w).
  destruct (body w) as [[a | e] w1]; simpl in Hm; subst w1; reflexivity.
Qed.

Lemma snd_attempt {A} (m p : string) (body : M A) (w : World) :
  snd (attempt m p body w) = snd (body w).
Proof. unfold attempt, try. destruct (body w) as [[a | e] w1]; reflexivity. Qed.

Lemma readOnly_rethrowing {A} (m p : string) (body : M A) :
  readOnly body -> readOnly (rethrowing m p body).
Proof.
  intros Hm w. unfold rethrowing, try. specialize (Hm w).
  destruct (body w) as [[a | e] w1]; simpl in Hm; subst w1; reflexivity.
Qed.

Lemma snd_rethrowing {A} (m p : string) (body : M A) (w : World) :
  snd (rethrowing m p body w) = snd (body w).
Proof. unfold rethrowing, try. destruct (body w) as [[a | e] w1]; reflexivity. Qed.

Lemma bind_after {A B} (m : M A) (k : A -> M B) (w : World) :
  readOnly m -> snd (bind m k w) = w \/ exists a, bind m k w = k a w.
Proof.
  intros Hm. unfold bind. specialize (Hm w).
  destruct (m w) as [[a | e] w1]; simpl in Hm; subst w1;
    [right; exists a; reflexivity | left; reflexivity].
Qed.

Lemma readOnly_defined {A} (o : option A) : readOnly (defined o).
Proof. destruct o; [apply readOnly_ret | apply readOnly_throw]. Qed.

Lemma readOnly_bytesOf (o : option Component) : readOnly (bytesOf o).
Proof.
  destruct o as [[[] ?|]|]; first [apply readOnly_ret | apply readOnly_throw].
Qed.

Lemma readOnly_lift {A} (r : Result A) : readOnly (DigitalNotary.lift r).
Proof. destruct r; [apply readOnly_ret | apply readOnly_throw]. Qed.

Lemma readOnly_decides (f : string) (m : M unit) : decides f m -> readOnly m.
Proof. intros Hm w. destruct (Hm w) as [-> | ->]; reflexivity. Qed.

Lemma readOnly_whenValidating (check : M unit) :
  readOnly check -> readOnly (DigitalNotary.whenValidating check).
Proof.
  intros Hc. unfold DigitalNotary.whenValidating.
  apply readOnly_bind; [apply readOnly_gets |].
  intros level. destruct (Nat.ltb 1 level); [exact Hc | apply readOnly_ret].
Qed.

Lemma readOnly_element (f : string) (v : option Component) (t : DigitalNotary.ElementType) :
  readOnly (DigitalNotary.validateElement f v t).
Proof. apply readOnly_decides with (f := f), element_decides. Qed.

Lemma readOnly_citation (f : string) (v : option Component) :
  readOnly (DigitalNotary.validateCitation f v).
Proof. apply readOnly_decides with (f := f), citation_decides. Qed.

Lemma readOnly_type (f : string) (c : Component) : readOnly (DigitalNotary.validateType f c).
Proof.
  intros w. unfold DigitalNotary.validateType.
  destruct (DigitalNotary.isCatalog c); reflexivity.
Qed.

Lemma readOnly_component (f : string) (v : option Component) :
  readOnly (DigitalNotary.validateComponent f v).
Proof. apply readOnly_decides with (f := f), component_decides. Qed.

Ltac frame :=
  repeat first
    [ apply readOnly_ret
    | apply readOnly_throw
    | apply readOnly_gets
    | apply readOnly_defined
    | apply readOnly_bytesOf
    | apply readOnly_lift
    | apply readOnly_element
    | apply readOnly_citation
    | apply readOnly_type
    | apply readOnly_component
    | apply readOnly_attempt
    | apply readOnly_whenValidating
    | (apply readOnly_bind; [| intros ?])
    | progress cbv zeta
    | match goal with
      | |- readOnly (if ?b then _ else _) => destruct b
      | |- readOnly (match ?x with _ => _ end) => destruct x
      end ].

Lemma readOnly_certificate (f : string) (v : option Component) :
  readOnly (DigitalNotary.validateCertificate f v).
Proof. unfold DigitalNotary.validateCertificate, DigitalNotary.invalid. frame. Qed.

Lemma readOnly_document (f : string) (v : option Component) :
  readOnly (DigitalNotary.validateDocument f v).
Proof. unfold DigitalNotary.validateDocument, DigitalNotary.invalid. frame. Qed.

Lemma readOnly_structure (f : string) (v : option Component) (t : DigitalNotary.ParameterType) :
  readOnly (DigitalNotary.validateStructure f v t).
Proof.
  destruct t; simpl;
    [ apply readOnly_element | apply readOnly_component | apply readOnly_citation
    | apply readOnly_certificate | apply readOnly_document ].
Qed.

Lemma readOnly_requiredModule (procedure protocol : string) :
  readOnly (DigitalNotary.requiredModule procedure protocol).
Proof. unfold DigitalNotary.requiredModule. frame. Qed.

(** X12. Verification only reads.  Whatever the arguments, the debug level
    and the outcome, a returned answer or any exception, [validDocument],
    [citationMatches], [getProtocols] and [getAccount] of the notary and
    [digestBytes], [validSignature] and [getProtocol] of the security module
    leave both configurations, both controllers, both files, the clock and the
    random source as they were; they do not even load a configuration.
    [citeDocument] changes nothing but the clock, which it reads at most
    once. *)
Theorem verification_reads_only :
  forall (document certificate citation : Component)
         (publicKey signature : option Component) (bytes : string),
    readOnly (DigitalNotary.validDocument document certificate) /\
    readOnly (DigitalNotary.citationMatches citation document) /\
    readOnly DigitalNotary.getProtocols /\
    readOnly DigitalNotary.getAccount /\
    readOnly (SSM.digestBytes bytes) /\
    readOnly (SSM.validSignature publicKey signature bytes) /\
    readOnly SSM.getProtocol /\
    (forall w : World,
        snd (DigitalNotary.citeDocument document w) = w \/
        snd (DigitalNotary.citeDocument document w) = set_clock (clock w + 1) w).
Proof.
  intros document certificate citation publicKey signature bytes.
  assert (Hdigest : forall b, readOnly (SSM.digestBytes b))
    by (intros b; unfold SSM.digestBytes; frame).
  assert (Hvalid : forall k s b, readOnly (SSM.validSignature k s b))
    by (intros k s b; unfold SSM.validSignature; frame).
  split; [| split; [| split; [| split; [| split; [| split; [| split]]]]]].
  - unfold DigitalNotary.validDocument.
    apply readOnly_rethrowing.
    apply readOnly_bind;
      [apply readOnly_whenValidating;
       repeat (apply readOnly_bind; [| intros ?]);
       first [apply readOnly_type | apply readOnly_structure] |].
    intros _. apply readOnly_bind; [apply readOnly_defined |].
    intros protocol. apply readOnly_bind; [apply readOnly_requiredModule |].
    intros [| verifier]; [apply Hvalid | apply readOnly_lift].
  - unfold DigitalNotary.citationMatches.
    apply readOnly_rethrowing.
    apply readOnly_bind;
      [apply readOnly_whenValidating;
       repeat (apply readOnly_bind; [| intros ?]);
       first [apply readOnly_type | apply readOnly_structure] |].
    intros _. apply readOnly_bind; [apply readOnly_defined |].
    intros protocol. apply readOnly_bind; [apply readOnly_requiredModule |].
    intros required. apply readOnly_bind; [| intros ?; apply readOnly_ret].
    destruct required as [| verifier]; [apply Hdigest | apply readOnly_lift].
  - unfold DigitalNotary.getProtocols. frame.
  - unfold DigitalNotary.getAccount. frame.
  - apply Hdigest.
  - apply Hvalid.
  - unfold SSM.getProtocol. frame.
  - intros w. unfold DigitalNotary.citeDocument.
    rewrite snd_rethrowing.
    destruct (bind_after
                (m := DigitalNotary.whenValidating
                        (DigitalNotary.validateType "$citeDocument" document;;
                         DigitalNotary.validateStructure "$citeDocument" (Some document)
                           DigitalNotary.documentType))
                (fun _ =>
                   timestamp <- moment;;
                   component <- defined (getValue document "$component");;
                   digest <- SSM.digestBytes (toString document);;
                   DigitalNotary.construct
                     [ ("$protocol", Some (version DigitalNotary.PROTOCOL));
                       ("$timestamp", Some timestamp);
                       ("$tag", getParameter component "$tag");
                       ("$version", getParameter component "$version");
                       ("$digest", Some digest) ]
                     [ ("$type", Some (name "/bali/notary/Citation/v1")) ])
                w) as [Hstop | [u Hgo]].
    { apply readOnly_whenValidating.
      apply readOnly_bind; [apply readOnly_type | intros ?; apply readOnly_structure]. }
    { left. exact Hstop. }
    right. rewrite Hgo.
    match goal with
    | |- snd (bind moment ?k w) = _ =>
        change (snd (k (Element (Moment (clock w)) []) (set_clock (clock w + 1) w))
                = set_clock (clock w + 1) w)
    end.
    generalize (set_clock (clock w + 1) w). cbv beta.
    change (readOnly
      (component <- defined (getValue document "$component");;
       digest <- SSM.digestBytes (toString document);;
       DigitalNotary.construct
         [ ("$protocol", Some (version DigitalNotary.PROTOCOL));
           ("$timestamp", Some (Element (Moment (clock w)) []));
           ("$tag", getParameter component "$tag");
           ("$version", getParameter component "$version");
           ("$digest", Some digest) ]
         [ ("$type", Some (name "/bali/notary/Citation/v1")) ])).
    apply readOnly_bind; [apply readOnly_defined |].
    intros component. apply readOnly_bind; [apply Hdigest |].
    intros digest. unfold DigitalNotary.construct. frame.
Qed.

End Frame.


(** ** When the file system fails *)

Section Storage.
Context `{Platform}.

Lemma notary_initialize_fails (w : World) :
  configuration w = None ->
  faulty (notaryFile w) = true ->
  DigitalNotary.initialize w
  = (Throw (exception DigitalNotary.moduleName "$loadConfiguration" storageException
              (Some (native "EIO"))), w).
Proof.
  intros Hc Hf. destruct w as [a d [fc fw ff] nc nk sf sc sk t n]. simpl in Hc, Hf. subst.
  reflexivity.
Qed.

Lemma ssm_initialize_fails (w : World) :
  ssmConfiguration w = None ->
  faulty (ssmFile w) = true ->
  SSM.initialize w
  = (Throw (exception SSM.moduleName "$loadConfiguration" storageException
              (Some (native "EIO"))), w).
Proof.
  intros Hc Hf. destruct w as [a d nf nc nk [fc fw ff] sc sk t n]. simpl in Hc, Hf. subst.
  reflexivity.
Qed.

(** X13. A notary that has not loaded its configuration and cannot read its
    file does nothing: [getCitation], [generateKey], [refreshKey],
    [notarizeComponent] and [activateKey] each fail with the
    [storageException] of [loadConfiguration], whose cause is the error of
    the file system; the exception reaches the caller as it is, and the world
    is as before; in particular the security module is not called. *)
Theorem unreadable_notary_file :
  forall w : World,
    configuration w = None ->
    faulty (notaryFile w) = true ->
    let failure := storageFailure DigitalNotary.moduleName "$loadConfiguration" in
    DigitalNotary.getCitation w = (Throw failure, w) /\
    DigitalNotary.generateKey w = (Throw failure, w) /\
    DigitalNotary.refreshKey w = (Throw failure, w) /\
    (forall component : Component,
        DigitalNotary.isCatalog component = true \/ debug w <= 1 ->
        DigitalNotary.notarizeComponent component w = (Throw failure, w)) /\
    (forall certificate : Component,
        debug w <= 1 ->
        DigitalNotary.activateKey certificate w = (Throw failure, w)) /\
    failsWith storageException (fst (DigitalNotary.getCitation w)).
Proof.
  intros w Hc Hf failure.
  pose proof (notary_initialize_fails w Hc Hf) as Hfail.
  assert (Hget : DigitalNotary.getCitation w = (Throw failure, w)).
  { unfold DigitalNotary.getCitation. apply rethrowing_own; [reflexivity |].
    erewrite bind_throw; [reflexivity | exact Hfail]. }
  split; [exact Hget |].
  split; [| split; [| split; [| split]]].
  - unfold DigitalNotary.generateKey. apply rethrowing_own; [reflexivity |].
    erewrite bind_throw; [reflexivity | exact Hfail].
  - unfold DigitalNotary.refreshKey. apply rethrowing_own; [reflexivity |].
    erewrite bind_throw; [reflexivity | exact Hfail].
  - intros component Hd.
    unfold DigitalNotary.notarizeComponent. apply rethrowing_own; [reflexivity |].
    erewrite bind_ok
      by (destruct Hd as [Hd | Hd];
          [apply checked; unfold DigitalNotary.validateType, bind; rewrite Hd; reflexivity
          | apply unvalidated; exact Hd]).
    erewrite bind_throw; [reflexivity | exact Hfail].
  - intros certificate Hd.
    unfold DigitalNotary.activateKey. apply rethrowing_own; [reflexivity |].
    erewrite bind_ok by (apply unvalidated; exact Hd).
    erewrite bind_throw; [reflexivity | exact Hfail].
  - rewrite Hget. eexists. split; reflexivity.
Qed.

(** X14. The same for the security module: without a loaded configuration
    and with a file it cannot read, [getTag], [generateKeys], [rotateKeys]
    and [signBytes] fail with [unexpected] caused by the [storageException]
    of [loadConfiguration], and nothing changes; no seed is drawn.  The
    stateless [digestBytes] still answers, and [validSignature] answers what
    the signing library answers on the bytes of the key and of the signature;
    where the library throws, [validSignature] fails with [unexpected] caused
    by the error of the library. *)
Theorem unreadable_module_file :
  forall (w : World) (bytes publicKey signature : string),
    ssmConfiguration w = None ->
    faulty (ssmFile w) = true ->
    SSM.getTag w = (Throw (unreadable SSM.moduleName "$getTag"), w) /\
    SSM.generateKeys w = (Throw (unreadable SSM.moduleName "$generateKeys"), w) /\
    SSM.rotateKeys w = (Throw (unreadable SSM.moduleName "$rotateKeys"), w) /\
    SSM.signBytes bytes w = (Throw (unreadable SSM.moduleName "$signBytes"), w) /\
    SSM.digestBytes bytes w = (Ok (binary (sha512 bytes)), w) /\
    (forall answer : bool,
        signerVerify signature bytes publicKey = Some answer ->
        SSM.validSignature (Some (binary publicKey)) (Some (binary signature)) bytes w
        = (Ok answer, w)) /\
    (signerVerify signature bytes publicKey = None ->
     SSM.validSignature (Some (binary publicKey)) (Some (binary signature)) bytes w
     = (Throw (exception SSM.moduleName "$validSignature" unexpected (Some (native "Error"))),
        w)).
Proof.
  intros w bytes publicKey signature Hc Hf.
  pose proof (ssm_initialize_fails w Hc Hf) as Hfail.
  split; [| split; [| split; [| split; [| split; [reflexivity | split]]]]].
  - unfold SSM.getTag, unreadable. apply attempt_throw.
    erewrite bind_throw; [reflexivity | exact Hfail].
  - unfold SSM.generateKeys, unreadable. apply attempt_throw.
    erewrite bind_throw; [reflexivity | exact Hfail].
  - unfold SSM.rotateKeys, unreadable. apply attempt_throw.
    erewrite bind_throw; [reflexivity | exact Hfail].
  - unfold SSM.signBytes, unreadable. apply attempt_throw.
    erewrite bind_throw; [reflexivity | exact Hfail].
  - intros answer. apply validSignature_answers.
  - apply validSignature_throws.
Qed.

Lemma persist_fails (c : Component) (w : World) :
  configuration w = Some c ->
  faulty (notaryFile w) = true ->
  DigitalNotary.persist w
  = (Throw (exception DigitalNotary.moduleName "$storeConfiguration" storageException
              (Some (native "EIO"))), w).
Proof.
  intros Hc Hf. destruct w as [a d [fc fw ff] nc nk sf sc sk t n]. simpl in Hc, Hf. subst.
  reflexivity.
Qed.

(** X15. [generateKey] is not atomic.  When the notary holds its
    configuration in memory, in the limited state, and its file can no longer
    be written while the file of the security module can, [generateKey] fails
    with the [storageException] of [storeConfiguration], which reaches the
    caller as it is.  By then the security module has generated the key
    pair and written it to its own file, and the notary has the certificate
    and the pending state in memory, while its file is as before.  From then
    on both [generateKey] and a [generateKey] of a notary that reloads the old
    file are refused, the module no longer being keyless. *)
Theorem generateKey_half_done :
  forall (w : World) (c sc : Component),
    getValue c "$state" = Some (symbol "$limited") ->
    configuration w = Some c ->
    controller w = "$limited" ->
    faulty (notaryFile w) = true ->
    ssmIn "$keyless" sc w ->
    faulty (ssmFile w) = false ->
    let seed := random (drawn w) in
    let certificate :=
      certificateOf (clock w) (account w) (binary (fst (createKeyPair seed)))
        (Element (Tag (random (S (drawn w)))) []) (version [1%positive]) NONE in
    let c' := setValue "$state" (symbol "$pending") (setValue "$certificate" certificate c) in
    exists w' : World,
      DigitalNotary.generateKey w
        = (Throw (storageFailure DigitalNotary.moduleName "$storeConfiguration"), w') /\
      notaryFile w' = notaryFile w /\
      configuration w' = Some c' /\
      controller w' = "$pending" /\
      ssmController w' = "$loneKey" /\
      content (ssmFile w') = Some (generated seed sc) /\
      writes (ssmFile w') = S (writes (ssmFile w)) /\
      DigitalNotary.generateKey w'
        = (Throw (refused DigitalNotary.moduleName "$generateKey"), w') /\
      (forall w0 : World,
          notaryIn "$limited" c w0 ->
          ssmIn "$loneKey" (generated seed sc) w0 ->
          exists w1 : World,
            DigitalNotary.generateKey w0
            = (Throw (exception DigitalNotary.moduleName "$generateKey" unexpected
                        (Some (refused SSM.moduleName "$generateKeys"))), w1)).
Proof.
  intros w c sc Hstate Hc Hk Hnf Hs Hsf seed certificate c'.
  assert (Hn : notaryIn "$limited" c w) by (split; [exact Hstate | left; split; assumption]).
  pose proof (ssm_generate (w := notaryLoaded "$limited" c w) (c := sc) Hs Hsf) as Hgen.
  cbv zeta in Hgen.
  match type of Hgen with _ = (_, ?x) => set (w1 := x) in * end.
  set (w' := set_configuration (Some c')
               (set_controller "$pending"
                  (set_configuration (Some (setValue "$certificate" certificate c))
                     (set_drawn (S (drawn w1)) (set_clock (clock w1 + 1) w1))))).
  assert (Hrun : DigitalNotary.generateKey w
                 = (Throw (storageFailure DigitalNotary.moduleName "$storeConfiguration"),
                    w')).
  { unfold DigitalNotary.generateKey, storageFailure. apply rethrowing_own; [reflexivity |].
    erewrite bind_ok by exact (notary_initialize Hn).
    erewrite bind_ok
      by (apply notary_allows with (s := "$limited") (next := "$pending"); reflexivity).
    erewrite bind_ok by exact Hgen.
    erewrite bind_ok by reflexivity.
    erewrite bind_ok by reflexivity.
    erewrite bind_ok by reflexivity.
    erewrite bind_ok by reflexivity.
    erewrite bind_ok by (apply configure with (c := c); reflexivity).
    erewrite bind_ok
      by (apply notary_moves with (s := "$limited") (next := "$pending"); reflexivity).
    erewrite bind_ok by (apply configure; reflexivity).
    erewrite bind_throw; [reflexivity |].
    apply persist_fails with (c := c'); [reflexivity | exact Hnf]. }
  exists w'.
  split; [exact Hrun |].
  split; [reflexivity |]. split; [reflexivity |]. split; [reflexivity |].
  split; [reflexivity |]. split; [reflexivity |]. split; [reflexivity |].
  split.
  - assert (Hn' : notaryIn "$pending" c' w').
    { split; [| left; split; reflexivity].
      apply getValue_setValue_same.
      destruct (holds_catalog _ _ Hstate) as [a [p ->]]. simpl. eauto. }
    unfold DigitalNotary.generateKey, refused. apply rethrowing_foreign; [reflexivity |].
    erewrite bind_ok by exact (notary_initialize Hn').
    erewrite bind_throw; [reflexivity |].
    apply notary_refuses with (s := "$pending"); reflexivity.
  - intros w0 Hn0 Hs0.
    eexists.
    unfold DigitalNotary.generateKey. apply rethrowing_foreign; [reflexivity |].
    erewrite bind_ok by exact (notary_initialize Hn0).
    erewrite bind_ok
      by (apply notary_allows with (s := "$limited") (next := "$pending"); reflexivity).
    erewrite bind_throw; [reflexivity |].
    unfold SSM.generateKeys, refused. apply attempt_throw.
    erewrite bind_ok by (apply ssm_initialize; exact Hs0).
    erewrite bind_throw; [reflexivity |].
    apply ssm_refuses with (s := "$loneKey"); reflexivity.
Qed.

End Storage.


(** ** After a refresh *)

Section Refreshed.
Context `{Platform}.

Lemma notary_refresh (w : World) (c sc citation t present v : Component)
  (publicKey privateKey : string) :
  notaryIn "$enabled" c w ->
  ssmIn "$loneKey" sc w ->
  faulty (notaryFile w) = false ->
  faulty (ssmFile w) = false ->
  getValue c "$citation" = Some citation ->
  getValue citation "$tag" = Some t ->
  getValue citation "$version" = Some present ->
  nextVersion present = Some v ->
  getValue sc "$publicKey" = Some (binary publicKey) ->
  getValue sc "$privateKey" = Some (binary privateKey) ->
  let seed := random (drawn w) in
  let component :=
    certificateOf (clock w) (account w) (binary (fst (createKeyPair seed))) t v citation in
  let unsigned := documentOf (clock w) component citation in
  let certificate :=
    setValue "$signature" (binary (sign (toString unsigned) publicKey privateKey)) unsigned in
  let c' := setValue "$state" (symbol "$enabled")
              (setValue "$citation" (citationOf (clock w) t v (toString certificate))
                 (setValue "$certificate" certificate c)) in
  let sc' := settled (rotated seed (binary publicKey) (binary privateKey) sc) in
  DigitalNotary.refreshKey w
  = (Ok certificate,
     notaryStored "$enabled" c'
       (ssmStored "$loneKey" sc'
          (set_clock (clock w + 1)
             (set_drawn (S (drawn w))
                (ssmStored "$twoKeys" (rotated seed (binary publicKey) (binary privateKey) sc)
                   w))))).
Proof.
  intros Hn Hs Hnf Hsf Hcit Ht Hver Hnext Hpk Hsk seed component unsigned certificate c' sc'.
  pose proof (notary_initialize Hn) as Hinit.
  pose proof (holds_catalog _ _ Hpk) as Hscat.
  destruct (rotated_state seed (binary publicKey) (binary privateKey) Hscat)
    as (Rstate & Rpub & Rpriv).
  unfold DigitalNotary.refreshKey. apply rethrowing_ok.
  erewrite bind_ok by exact Hinit.
  erewrite bind_ok
    by (apply notary_allows with (s := "$enabled") (next := "$enabled"); reflexivity).
  erewrite bind_ok
    by (apply ssm_rotate with (c := sc); [exact Hs | exact Hsf | exact Hpk | exact Hsk]).
  erewrite bind_ok by reflexivity.
  erewrite bind_ok by (apply configured with (c := c); reflexivity).
  rewrite Hcit. erewrite bind_ok by reflexivity.
  rewrite Ht, Hver. erewrite bind_ok by reflexivity.
  rewrite Hnext. erewrite bind_ok by reflexivity.
  erewrite bind_ok by reflexivity.
  erewrite bind_ok by reflexivity.
  erewrite bind_ok by reflexivity.
  erewrite bind_ok.
  2:{ apply ssm_sign_previous with (s := "$twoKeys")
        (c := rotated seed (binary publicKey) (binary privateKey) sc).
      - split; [exact Rstate | left; split; reflexivity].
      - right. reflexivity.
      - reflexivity.
      - exact Rpub.
      - exact Rpriv. }
  erewrite bind_ok by (apply configure with (c := c); reflexivity).
  erewrite bind_ok by reflexivity.
  erewrite bind_ok by reflexivity.
  erewrite bind_ok by (apply configure; reflexivity).
  erewrite bind_ok
    by (apply notary_moves with (s := "$enabled") (next := "$enabled"); reflexivity).
  erewrite bind_ok by (apply configure; reflexivity).
  erewrite bind_ok by (apply persisted; [reflexivity | exact Hnf]).
  destruct w. reflexivity.
Qed.

(** X16. After [refreshKey] the new key is the key in use.  The security
    module is back in [$loneKey] with the new pair as its only pair, the
    rotated-out pair having signed the new certificate and been dropped.  The
    next [notarizeComponent] signs with the new private key and cites the
    new citation, and its document verifies, at a debug level of at most 1,
    against the component of the new certificate when the new pair signs and
    verifies. *)
Theorem refreshed_key_in_use :
  forall (w : World) (c sc citation t present v : Component) (publicKey privateKey : string)
         (next : Component),
    notaryIn "$enabled" c w ->
    ssmIn "$loneKey" sc w ->
    DigitalNotary.isCatalog next = true \/ debug w <= 1 ->
    faulty (notaryFile w) = false ->
    faulty (ssmFile w) = false ->
    getValue c "$citation" = Some citation ->
    getValue citation "$tag" = Some t ->
    getValue citation "$version" = Some present ->
    nextVersion present = Some v ->
    getValue sc "$publicKey" = Some (binary publicKey) ->
    getValue sc "$privateKey" = Some (binary privateKey) ->
    let pair := createKeyPair (random (drawn w)) in
    let component := certificateOf (clock w) (account w) (binary (fst pair)) t v citation in
    let unsigned := documentOf (clock w) component citation in
    let certificate :=
      setValue "$signature" (binary (sign (toString unsigned) publicKey privateKey)) unsigned in
    let renewed := citationOf (clock w) t v (toString certificate) in
    let draft := documentOf (clock w + 1) next renewed in
    let document :=
      setValue "$signature" (binary (sign (toString draft) (fst pair) (snd pair))) draft in
    exists (w1 w2 : World) (sc' : Component),
      DigitalNotary.refreshKey w = (Ok certificate, w1) /\
      ssmIn "$loneKey" sc' w1 /\
      content (ssmFile w1) = Some sc' /\
      getValue sc' "$publicKey" = Some (binary (fst pair)) /\
      getValue sc' "$privateKey" = Some (binary (snd pair)) /\
      getValue sc' "$previousPublicKey" = None /\
      getValue sc' "$previousPrivateKey" = None /\
      DigitalNotary.getCitation w1 = (Ok (Some renewed), notaryStored "$enabled"
                                         (setValue "$state" (symbol "$enabled")
                                            (setValue "$citation" renewed
                                               (setValue "$certificate" certificate c))) w1) /\
      DigitalNotary.notarizeComponent next w1 = (Ok document, w2) /\
      getValue document "$certificate" = Some renewed /\
      (debug w <= 1 ->
       verify (sign (toString draft) (fst pair) (snd pair)) (toString draft) (fst pair) = true ->
       DigitalNotary.validDocument document component w2 = (Ok true, w2)).
Proof.
  intros w c sc citation t present v publicKey privateKey next
    Hn Hs Hd Hnf Hsf Hcit Ht Hver Hnext Hpk Hsk pair component unsigned certificate renewed
    draft document.
  pose proof (notary_refresh Hn Hs Hnf Hsf Hcit Ht Hver Hnext Hpk Hsk) as Hrun.
  cbv zeta in Hrun.
  match type of Hrun with _ = (_, ?x) => set (w1 := x) in * end.
  pose proof (holds_catalog _ _ Hpk) as Hscat.
  pose proof (holds_catalog _ _ Hcit) as Hcat.
  set (seed := random (drawn w)) in *.
  set (sc1 := rotated seed (binary publicKey) (binary privateKey) sc) in *.
  destruct (rotated_current seed (binary publicKey) (binary privateKey) Hscat)
    as (Rp & Rk & _).
  assert (Hcat1 : exists a p, sc1 = Catalog a p).
  { destruct Hscat as [a [p ->]]. unfold sc1, rotated. simpl. eauto. }
  destruct (settled_state Hcat1 Rp Rk) as (Ss & Sp & Sk & Spp & Spk).
  set (c' := setValue "$state" (symbol "$enabled")
               (setValue "$citation" renewed (setValue "$certificate" certificate c))) in *.
  assert (Hstate : getValue c' "$state" = Some (symbol "$enabled")).
  { apply getValue_setValue_same. destruct Hcat as [a [p ->]]. simpl. eauto. }
  assert (Hrenewed : getValue c' "$citation" = Some renewed).
  { unfold c'. rewrite getValue_setValue_other by discriminate.
    apply getValue_setValue_same. destruct Hcat as [a [p ->]]. simpl. eauto. }
  assert (Hn1 : notaryIn "$enabled" c' w1)
    by (split; [exact Hstate | left; split; reflexivity]).
  assert (Hs1 : ssmIn "$loneKey" (settled sc1) w1)
    by (split; [exact Ss | left; split; reflexivity]).
  pose proof (notary_notarize next Hn1 (or_intror eq_refl) Hs1 Hd eq_refl eq_refl Sp Sk Spp)
    as Hsign.
  cbv zeta in Hsign. rewrite Hrenewed in Hsign.
  match type of Hsign with _ = (_, ?x) => set (w2 := x) in * end.
  exists w1, w2, (settled sc1).
  split; [exact Hrun |]. split; [exact Hs1 |]. split; [reflexivity |].
  split; [exact Sp |]. split; [exact Sk |]. split; [exact Spp |]. split; [exact Spk |].
  split.
  { rewrite (getCitation_stores Hn1) by reflexivity. rewrite Hrenewed. reflexivity. }
  split; [exact Hsign |]. split; [reflexivity |].
  intros Hlevel Hed.
  apply validDocument_verifies
    with (protocol := version [1%positive]) (publicKey := fst pair)
         (signature := sign (toString draft) (fst pair) (snd pair));
    [exact Hlevel | reflexivity | apply toString_version | reflexivity | reflexivity |].
  change (extraction document DigitalNotary.signedAttributes) with draft.
  apply verify_answer. exact Hed.
Qed.

End Refreshed.


(** ** Any session of the security module *)

Section Sessions.
Context `{Platform}.

Lemma ssm_event_refused (r : SsmRequest) (s : string) (c : Component) (w : World) :
  ssmIn s c w ->
  nextState SSM.REQUESTS SSM.STATES s (ssmEvent r) = None ->
  invokeSsm r w = (Throw (refused SSM.moduleName (ssmEvent r)), ssmLoaded s c w).
Proof.
  intros Hin Hn.
  assert (Hr : SSM.validateEvent (ssmEvent r) (ssmLoaded s c w)
               = (Throw (exception controllerModule "$validateEvent" invalidEvent None),
                  ssmLoaded s c w))
    by (apply ssm_refuses with (s := s); [reflexivity | exact Hn]).
  destruct r as [| bytes |]; simpl invokeSsm; simpl ssmEvent in *; unfold refused.
  - unfold SSM.generateKeys. apply attempt_throw.
    erewrite bind_ok by exact (ssm_initialize Hin).
    erewrite bind_throw; [reflexivity | exact Hr].
  - unfold some. erewrite bind_throw; [reflexivity |].
    unfold SSM.signBytes. apply attempt_throw.
    erewrite bind_ok by exact (ssm_initialize Hin).
    erewrite bind_throw; [reflexivity | exact Hr].
  - unfold SSM.rotateKeys. apply attempt_throw.
    erewrite bind_ok by exact (ssm_initialize Hin).
    erewrite bind_throw; [reflexivity | exact Hr].
Qed.

Lemma loaded_coherent (s : string) (c : Component) (w : World) :
  ssmIn s c w -> keyed s c -> content (ssmFile w) = Some c -> faulty (ssmFile w) = false ->
  coherent (ssmLoaded s c w).
Proof.
  intros Hin Hk Hc Hf. split; [exact Hf |].
  right. exists s, c. split; [| split; [exact Hk | exact Hc]].
  split; [exact (proj1 Hin) | left; split; reflexivity].
Qed.

Lemma stored_coherent (s : string) (c : Component) (w : World) :
  getValue c "$state" = Some (symbol s) -> keyed s c -> coherent (ssmStored s c w).
Proof.
  intros Hs Hk. split; [reflexivity |].
  right. exists s, c. split; [| split; [exact Hk | reflexivity]].
  split; [exact Hs | left; split; reflexivity].
Qed.

Lemma drawn_coherent (n : nat) (w : World) : coherent w -> coherent (set_drawn n w).
Proof. intros Hw. exact Hw. Qed.

Lemma event_coherent (r : SsmRequest) (s : string) (c : Component) (w : World) :
  ssmIn s c w -> keyed s c -> content (ssmFile w) = Some c -> faulty (ssmFile w) = false ->
  coherent (snd (invokeSsm r w)) /\
  ((exists answer, fst (invokeSsm r w) = Ok answer) \/
   fst (invokeSsm r w) = Throw (refused SSM.moduleName (ssmEvent r))).
Proof.
  intros Hin Hk Hc Hf.
  pose proof (holds_catalog _ _ (proj1 Hin)) as Hcat.
  assert (Hrefused : nextState SSM.REQUESTS SSM.STATES s (ssmEvent r) = None ->
                     coherent (snd (invokeSsm r w)) /\
                     ((exists answer, fst (invokeSsm r w) = Ok answer) \/
                      fst (invokeSsm r w) = Throw (refused SSM.moduleName (ssmEvent r)))).
  { intros Hn. rewrite (ssm_event_refused r Hin Hn). simpl.
    split; [apply loaded_coherent; assumption | right; reflexivity]. }
  destruct Hk as [(-> & Hpp & Hps) | [(-> & [pk Hpk] & [sk Hsk] & Hpp & Hps)
                                     | (-> & [pk Hpk] & [sk Hsk] & [ppk Hppk] & [psk Hpsk])]];
    destruct r as [| bytes |]; try (apply Hrefused; reflexivity); simpl invokeSsm.
  - (* keyless, generateKeys *)
    rewrite (ssm_generate Hin Hf). simpl.
    destruct (generated_state (random (drawn w)) Hcat) as (Gs & Gp & Gk & Gother).
    split; [| left; eexists; reflexivity].
    apply drawn_coherent, stored_coherent; [exact Gs |].
    right. left. split; [reflexivity |].
    split; [eexists; exact Gp |]. split; [eexists; exact Gk |].
    split; [rewrite Gother by discriminate; exact Hpp
           | rewrite Gother by discriminate; exact Hps].
  - (* loneKey, signBytes *)
    unfold some, bind.
    rewrite (ssm_sign_current bytes Hin (or_introl eq_refl) Hf Hpk Hsk Hpp).
    rewrite (setValue_same _ _ (proj1 Hin)). simpl.
    split; [| left; eexists; reflexivity].
    apply stored_coherent; [exact (proj1 Hin) |].
    right. left. split; [reflexivity |].
    split; [eexists; exact Hpk |]. split; [eexists; exact Hsk |].
    split; [exact Hpp | exact Hps].
  - (* loneKey, rotateKeys *)
    rewrite (ssm_rotate Hin Hf Hpk Hsk). simpl.
    destruct (rotated_state (random (drawn w)) (binary pk) (binary sk) Hcat)
      as (Rs & Rpp & Rps).
    destruct (rotated_current (random (drawn w)) (binary pk) (binary sk) Hcat)
      as (Rp & Rk & _).
    split; [| left; eexists; reflexivity].
    apply drawn_coherent, stored_coherent; [exact Rs |].
    right. right. split; [reflexivity |].
    split; [eexists; exact Rp |]. split; [eexists; exact Rk |].
    split; [eexists; exact Rpp | eexists; exact Rps].
  - (* twoKeys, signBytes *)
    unfold some, bind.
    rewrite (ssm_sign_previous bytes Hin (or_intror eq_refl) Hf Hppk Hpsk). simpl.
    destruct (settled_state Hcat Hpk Hsk) as (Ss & Sp & Sk & Spp & Sps).
    split; [| left; eexists; reflexivity].
    apply stored_coherent; [exact Ss |].
    right. left. split; [reflexivity |].
    split; [eexists; exact Sp |]. split; [eexists; exact Sk |].
    split; [exact Spp | exact Sps].
Qed.

Lemma blank_initialized (w : World) :
  ssmBlank w ->
  let c := blankSsm (random (drawn w)) in
  let w1 := set_drawn (S (drawn w)) (ssmStored "$keyless" c w) in
  SSM.initialize w = (Ok tt, w1) /\
  SSM.initialize w1 = (Ok tt, w1) /\
  ssmIn "$keyless" c w1 /\ keyed "$keyless" c /\
  content (ssmFile w1) = Some c /\ faulty (ssmFile w1) = false.
Proof.
  intros Hb c w1.
  assert (Hin : ssmIn "$keyless" c w1)
    by (split; [reflexivity | left; split; reflexivity]).
  split; [exact (ssm_initialize_blank Hb) |].
  split; [rewrite (ssm_initialize Hin); destruct w; reflexivity |].
  split; [exact Hin |].
  split; [left; repeat split | split; reflexivity].
Qed.

Lemma invoke_initialized (r : SsmRequest) (w w1 : World) :
  SSM.initialize w = (Ok tt, w1) ->
  SSM.initialize w1 = (Ok tt, w1) ->
  invokeSsm r w = invokeSsm r w1.
Proof.
  intros E E1. destruct r as [| bytes |]; simpl invokeSsm.
  - unfold SSM.generateKeys. apply initialized_first; assumption.
  - unfold some, bind.
    replace (SSM.signBytes bytes w) with (SSM.signBytes bytes w1); [reflexivity |].
    symmetry. unfold SSM.signBytes. apply initialized_first; assumption.
  - unfold SSM.rotateKeys. apply initialized_first; assumption.
Qed.

Lemma invoke_coherent (r : SsmRequest) (w : World) :
  coherent w ->
  coherent (snd (invokeSsm r w)) /\
  ((exists answer, fst (invokeSsm r w) = Ok answer) \/
   fst (invokeSsm r w) = Throw (refused SSM.moduleName (ssmEvent r))).
Proof.
  intros (Hf & [Hb | (s & c & Hin & Hk & Hc)]).
  - destruct (blank_initialized Hb) as (E & E1 & Hin & Hk & Hc & Hf1).
    erewrite invoke_initialized; [| exact E | exact E1].
    apply event_coherent with (s := "$keyless") (c := blankSsm (random (drawn w)));
      assumption.
  - apply event_coherent with (s := s) (c := c); assumption.
Qed.

Lemma getTag_coherent (w : World) : coherent w -> coherent (snd (SSM.getTag w)).
Proof.
  assert (Hloaded : forall s c w0,
             ssmIn s c w0 -> SSM.getTag w0 = (Ok (getValue c "$tag"), ssmLoaded s c w0)).
  { intros s c w0 Hin. unfold SSM.getTag. apply attempt_ok.
    erewrite bind_ok by exact (ssm_initialize Hin).
    erewrite ssm_get by reflexivity. reflexivity. }
  intros (Hf & [Hb | (s & c & Hin & Hk & Hc)]).
  - destruct (blank_initialized Hb) as (E & E1 & Hin & Hk & Hc & Hf1).
    replace (SSM.getTag w)
      with (SSM.getTag (set_drawn (S (drawn w))
                          (ssmStored "$keyless" (blankSsm (random (drawn w))) w)))
      by (symmetry; unfold SSM.getTag; apply initialized_first; assumption).
    rewrite (Hloaded _ _ _ Hin). apply loaded_coherent; assumption.
  - rewrite (Hloaded _ _ _ Hin). apply loaded_coherent; assumption.
Qed.

Lemma eraseKeys_coherent (w : World) : coherent w -> coherent (snd (SSM.eraseKeys w)).
Proof.
  intros (Hf & _).
  destruct w as [a d nf nc nk [fc fw ff] sc sk t n]. simpl in Hf. subst ff.
  split; [reflexivity | left; repeat split].
Qed.

(** X17. The security module stays coherent.  Started without a file, on a
    file system that works, and driven through any sequence of [getTag],
    [eraseKeys], [generateKeys], [rotateKeys] and [signBytes] calls, whatever
    each of them answers, the module ends either as new or in a state of its
    state machine with the keys that state requires: no previous pair in
    [$keyless], exactly one pair in [$loneKey], both pairs in [$twoKeys], all
    of them binaries; and its file holds exactly that configuration.  In such
    a world an event either answers or is refused by the state machine: no
    event fails for a missing key or a storage error. *)
Theorem module_stays_coherent :
  forall (calls : list ModuleCall) (w : World),
    ssmBlank w ->
    coherent (session calls w) /\
    forall r : SsmRequest,
      (exists answer, fst (invokeSsm r (session calls w)) = Ok answer) \/
      fst (invokeSsm r (session calls w)) = Throw (refused SSM.moduleName (ssmEvent r)).
Proof.
  intros calls w Hb.
  assert (Hstart : coherent w) by (split; [exact (proj2 (proj2 Hb)) | left; exact Hb]).
  clear Hb.
  assert (Hall : coherent (session calls w)).
  { revert w Hstart. induction calls as [| call calls IH]; intros w Hw; [exact Hw |].
    simpl. apply IH.
    destruct call as [r | |]; simpl.
    - exact (proj1 (invoke_coherent r Hw)).
    - apply getTag_coherent, Hw.
    - apply eraseKeys_coherent, Hw. }
  split; [exact Hall |].
  intros r. exact (proj2 (invoke_coherent r Hall)).
Qed.

End Sessions.


(** ** Any session of the notary *)

Section InStep.
Context `{Platform}.

Lemma some_ok {A} (m : M A) (w w' : World) (a : A) :
  m w = (Ok a, w') -> some m w = (Ok (Some a), w').
Proof. intros E. unfold some, bind. rewrite E. reflexivity. Qed.

Lemma some_throw {A} (m : M A) (w w' : World) (e : Exception) :
  m w = (Throw e, w') -> some m w = (Throw e, w').
Proof. intros E. unfold some, bind. rewrite E. reflexivity. Qed.

Lemma moduleAt_frame (s : string) (w w' : World) :
  ssmFile w' = ssmFile w ->
  ssmConfiguration w' = ssmConfiguration w ->
  ssmController w' = ssmController w ->
  moduleAt s w -> moduleAt s w'.
Proof.
  intros Hf Hc Hk (sc & Hin & Hkeyed & Hcontent). exists sc.
  unfold ssmIn in *. rewrite Hf, Hc, Hk. auto.
Qed.

Lemma keylessModule_frame (w w' : World) :
  ssmFile w' = ssmFile w ->
  ssmConfiguration w' = ssmConfiguration w ->
  ssmController w' = ssmController w ->
  keylessModule w -> keylessModule w'.
Proof.
  intros Hf Hc Hk [Hb | Hm].
  - left. unfold ssmBlank in *. rewrite Hf, Hc. exact Hb.
  - right. apply moduleAt_frame with (w := w); assumption.
Qed.

Lemma staged_frame (s : string) (c : Component) (w w' : World) :
  ssmFile w' = ssmFile w ->
  ssmConfiguration w' = ssmConfiguration w ->
  ssmController w' = ssmController w ->
  staged s c w -> staged s c w'.
Proof.
  intros Hf Hc Hk [(-> & Hm) | [(-> & Hm & Hrest) | (-> & Hm & Hrest)]].
  - left. split; [reflexivity |]. apply keylessModule_frame with (w := w); assumption.
  - right. left. split; [reflexivity |].
    split; [apply moduleAt_frame with (w := w); assumption | exact Hrest].
  - right. right. split; [reflexivity |].
    split; [apply moduleAt_frame with (w := w); assumption | exact Hrest].
Qed.

Lemma established (s : string) (c : Component) (w : World) :
  faulty (notaryFile w) = false ->
  faulty (ssmFile w) = false ->
  configuration w = Some c ->
  controller w = s ->
  content (notaryFile w) = Some c ->
  getValue c "$state" = Some (symbol s) ->
  staged s c w ->
  inStep w.
Proof.
  intros Hnf Hsf Hc Hk Hfile Hstate Hst.
  split; [exact Hnf |]. split; [exact Hsf |].
  right. exists s, c. split; [| exact Hst].
  split; [| exact Hfile]. split; [exact Hstate | left; split; assumption].
Qed.

Lemma loaded_inStep (s : string) (c : Component) (w : World) :
  faulty (notaryFile w) = false ->
  faulty (ssmFile w) = false ->
  notaryAt s c w -> staged s c w -> inStep (notaryLoaded s c w).
Proof.
  intros Hnf Hsf [Hin Hfile] Hst.
  apply established with (s := s) (c := c);
    [exact Hnf | exact Hsf | reflexivity | reflexivity | exact Hfile | exact (proj1 Hin) |].
  apply staged_frame with (w := w); [reflexivity | reflexivity | reflexivity | exact Hst].
Qed.

Lemma nextVersion_again (v v' : Component) :
  nextVersion v = Some v' -> exists v'', nextVersion v' = Some v''.
Proof.
  destruct v as [[] p | a p]; simpl; intros E; try discriminate.
  injection E as <-. simpl. eauto.
Qed.

Lemma argument_checked (r : NotaryRequest) (w : World) :
  argumentCheck r w = (Ok tt, w) \/
  exists e,
    argumentCheck r w = (Throw e, w) /\
    invokeNotary r w = (Throw (rethrown DigitalNotary.moduleName (notaryEvent r) e), w).
Proof.
  assert (Hcases : forall check : M unit,
             readOnly check ->
             check w = (Ok tt, w) \/ exists e, check w = (Throw e, w)).
  { intros check Hr. specialize (Hr w).
    destruct (check w) as [[[] | e] w0]; simpl in Hr; subst w0; [left | right; exists e];
      reflexivity. }
  destruct r as [| certificate | | component |]; try (left; reflexivity); cbn [argumentCheck].
  - match goal with |- ?check w = _ \/ _ => destruct (Hcases check) as [Hok | [e He]] end.
    + apply readOnly_whenValidating.
      apply readOnly_bind; [apply readOnly_type | intros ?].
      apply readOnly_bind; [apply readOnly_structure | intros ?; apply readOnly_structure].
    + left. exact Hok.
    + right. exists e. split; [exact He |].
      cbn [invokeNotary notaryEvent]. apply some_throw.
      unfold DigitalNotary.activateKey. apply rethrowing_throw.
      erewrite bind_throw; [reflexivity | exact He].
  - match goal with |- ?check w = _ \/ _ => destruct (Hcases check) as [Hok | [e He]] end.
    + apply readOnly_whenValidating.
      apply readOnly_bind; [apply readOnly_type | intros ?; apply readOnly_structure].
    + left. exact Hok.
    + right. exists e. split; [exact He |].
      cbn [invokeNotary notaryEvent]. apply some_throw.
      unfold DigitalNotary.notarizeComponent. apply rethrowing_throw.
      erewrite bind_throw; [reflexivity | exact He].
Qed.

Lemma wellFormed_checked (r : NotaryRequest) (w : World) :
  wellFormed r -> argumentCheck r w = (Ok tt, w).
Proof.
  destruct r as [| certificate | | component |]; cbn [wellFormed argumentCheck]; intros Hwf;
    try reflexivity; [contradiction |].
  apply component_checked. left. exact Hwf.
Qed.

Lemma request_refused (r : NotaryRequest) (s : string) (w w1 : World) :
  argumentCheck r w = (Ok tt, w) ->
  DigitalNotary.initialize w = (Ok tt, w1) ->
  controller w1 = s ->
  nextState DigitalNotary.REQUESTS DigitalNotary.STATES s (notaryEvent r) = None ->
  invokeNotary r w = (Throw (refused DigitalNotary.moduleName (notaryEvent r)), w1).
Proof.
  intros Hcheck Hinit Hk Hn.
  assert (Hr : DigitalNotary.validateEvent (notaryEvent r) w1
               = (Throw (exception controllerModule "$validateEvent" invalidEvent None), w1))
    by (apply notary_refuses with (s := s); assumption).
  destruct r as [| certificate | | component |];
    cbn [argumentCheck invokeNotary notaryEvent] in *; unfold refused.
  - apply some_throw. unfold DigitalNotary.generateKey. apply rethrowing_foreign; [reflexivity |].
    erewrite bind_ok by exact Hinit.
    erewrite bind_throw; [reflexivity | exact Hr].
  - apply some_throw. unfold DigitalNotary.activateKey. apply rethrowing_foreign; [reflexivity |].
    erewrite bind_ok by exact Hcheck.
    erewrite bind_ok by exact Hinit.
    erewrite bind_throw; [reflexivity | exact Hr].
  - unfold DigitalNotary.getCitation. apply rethrowing_foreign; [reflexivity |].
    erewrite bind_ok by exact Hinit.
    erewrite bind_throw; [reflexivity |].
    apply notary_refuses_transition with (s := s); assumption.
  - apply some_throw. unfold DigitalNotary.notarizeComponent. apply rethrowing_foreign; [reflexivity |].
    erewrite bind_ok by exact Hcheck.
    erewrite bind_ok by exact Hinit.
    erewrite bind_throw; [reflexivity | exact Hr].
  - apply some_throw. unfold DigitalNotary.refreshKey. apply rethrowing_foreign; [reflexivity |].
    erewrite bind_ok by exact Hinit.
    erewrite bind_throw; [reflexivity | exact Hr].
Qed.

Lemma generated_keyed (seed : string) (c : Component) :
  (exists a p, c = Catalog a p) ->
  getValue c "$previousPublicKey" = None ->
  getValue c "$previousPrivateKey" = None ->
  getValue (generated seed c) "$state" = Some (symbol "$loneKey") /\
  keyed "$loneKey" (generated seed c).
Proof.
  intros Hcat Hpp Hps.
  destruct (generated_state seed Hcat) as (Gs & Gp & Gk & Gother).
  split; [exact Gs |].
  right. left. split; [reflexivity |].
  split; [eexists; exact Gp |]. split; [eexists; exact Gk |].
  split; [rewrite Gother by discriminate; exact Hpp
         | rewrite Gother by discriminate; exact Hps].
Qed.

Lemma keyless_generates (w : World) :
  faulty (ssmFile w) = false ->
  keylessModule w ->
  exists (publicKey sc : Component) (w1 : World),
    SSM.generateKeys w = (Ok (Some publicKey), w1) /\
    configuration w1 = configuration w /\
    controller w1 = controller w /\
    notaryFile w1 = notaryFile w /\
    ssmConfiguration w1 = Some sc /\
    ssmController w1 = "$loneKey" /\
    content (ssmFile w1) = Some sc /\
    faulty (ssmFile w1) = false /\
    getValue sc "$state" = Some (symbol "$loneKey") /\
    keyed "$loneKey" sc.
Proof.
  intros Hsf [Hb | (sc & Hin & Hk & Hc)].
  - destruct (@generated_keyed (random (S (drawn w))) (blankSsm (random (drawn w))))
      as (Gs & Gk); [unfold blankSsm, catalog; eauto | reflexivity | reflexivity |].
    eexists. eexists. eexists.
    split; [exact (ssm_generate_blank Hb) |].
    repeat (split; [reflexivity |]).
    first [split; [exact Gs | exact Gk] | exact Gk].
  - destruct Hk as [(_ & Hpp & Hps) | [(E & _) | (E & _)]]; try discriminate E.
    destruct (@generated_keyed (random (drawn w)) sc (holds_catalog _ _ (proj1 Hin)) Hpp Hps)
      as (Gs & Gk).
    eexists. eexists. eexists.
    split; [exact (ssm_generate Hin Hsf) |].
    repeat (split; [reflexivity |]).
    first [split; [exact Gs | exact Gk] | exact Gk].
Qed.

Lemma generate_inStep (w : World) (c : Component) :
  faulty (notaryFile w) = false ->
  faulty (ssmFile w) = false ->
  notaryAt "$limited" c w ->
  keylessModule w ->
  exists (certificate : Component) (w' : World),
    DigitalNotary.generateKey w = (Ok certificate, w') /\ inStep w'.
Proof.
  intros Hnf Hsf [Hn Hfile] Hmod.
  pose proof (holds_catalog _ _ (proj1 Hn)) as Hcat.
  destruct (@keyless_generates (notaryLoaded "$limited" c w) Hsf)
    as (publicKey & sc & w1 & Hgen & Hc1 & Hk1 & Hf1 & Hsc1 & Hsk1 & Hcontent1 & Hsf1
        & Hstate1 & Hkeyed1).
  { apply keylessModule_frame with (w := w); [reflexivity | reflexivity | reflexivity |].
    exact Hmod. }
  simpl in Hc1, Hk1, Hf1.
  assert (Hnf1 : faulty (notaryFile w1) = false) by (rewrite Hf1; exact Hnf).
  pose proof (notary_generate Hn Hgen Hc1 Hk1 Hnf1) as Hrun.
  cbv zeta in Hrun.
  eexists. eexists. split; [exact Hrun |].
  match type of Hrun with
  | _ = (Ok ?certificate, _) =>
      apply established with (s := "$pending")
        (c := setValue "$state" (symbol "$pending") (setValue "$certificate" certificate c))
  end.
  - reflexivity.
  - exact Hsf1.
  - reflexivity.
  - reflexivity.
  - reflexivity.
  - apply getValue_setValue_same. destruct Hcat as [a [p ->]]. simpl. eauto.
  - right. left. split; [reflexivity |]. split.
    + exists sc. split; [| split; [exact Hkeyed1 | exact Hcontent1]].
      split; [exact Hstate1 | left; split; [exact Hsc1 | exact Hsk1]].
    + eexists.
      rewrite getValue_setValue_other by discriminate.
      apply getValue_setValue_same. exact Hcat.
Qed.

Lemma notary_mismatch (w : World) (c stashed certificate : Component) :
  notaryIn "$pending" c w ->
  argumentCheck (ActivateKey certificate) w = (Ok tt, w) ->
  getValue c "$certificate" = Some stashed ->
  match getValue certificate "$component" with
  | Some component => isEqualTo stashed component
  | None => false
  end = false ->
  DigitalNotary.activateKey certificate w = (Throw mismatch, notaryLoaded "$pending" c w).
Proof.
  intros Hin Hcheck Hst Hne.
  unfold DigitalNotary.activateKey, mismatch. apply rethrowing_own; [reflexivity |].
  erewrite bind_ok by exact Hcheck.
  erewrite bind_ok by exact (notary_initialize Hin).
  erewrite bind_ok
    by (apply notary_allows with (s := "$pending") (next := "$enabled"); reflexivity).
  erewrite bind_ok by (apply configured with (c := c); reflexivity).
  rewrite Hst. erewrite bind_ok by reflexivity.
  erewrite bind_throw; [reflexivity |].
  rewrite Hne. reflexivity.
Qed.

Lemma version_continues (v : option Component) :
  isA DigitalNotary.versionType v = true ->
  exists present next, v = Some present /\ nextVersion present = Some next.
Proof.
  destruct v as [[[] p | a p] |]; simpl; intros E; try discriminate E.
  eexists. eexists. split; reflexivity.
Qed.

Lemma activate_inStep (w : World) (c certificate : Component) :
  faulty (notaryFile w) = false ->
  faulty (ssmFile w) = false ->
  notaryAt "$pending" c w ->
  staged "$pending" c w ->
  versioned (Request (ActivateKey certificate)) ->
  argumentCheck (ActivateKey certificate) w = (Ok tt, w) ->
  inStep (snd (DigitalNotary.activateKey certificate w)).
Proof.
  intros Hnf Hsf [Hn Hfile] Hst Hversioned Hcheck.
  pose proof Hst as [(E & _) | [(_ & Hm & stashed & Hstashed) | (E & _)]];
    try discriminate E.
  destruct (match getValue certificate "$component" with
            | Some component => isEqualTo stashed component
            | None => false
            end) eqn:Heq.
  - destruct (getValue certificate "$component") as [component |] eqn:Hcomponent;
      [| discriminate Heq].
    destruct (version_continues _ (Hversioned component Hcomponent))
      as (v & v' & Hv & Hnext).
    rewrite (@notary_activate _ w c stashed component certificate
               Hn Hcheck Hnf Hstashed Hcomponent Heq).
    rewrite Hv. cbn [snd stored].
    set (t := stored (getParameter component "$tag")).
    apply established with (s := "$enabled")
      (c := setValue "$state" (symbol "$enabled")
              (setValue "$certificate" certificate
                 (setValue "$citation"
                    (citationOf (clock w) t v (toString certificate)) c)));
      [reflexivity | exact Hsf | reflexivity | reflexivity | reflexivity | |].
    + apply getValue_setValue_same.
      destruct (holds_catalog _ _ Hstashed) as [a [p ->]]. simpl. eauto.
    + right. right. split; [reflexivity |]. split.
      { apply moduleAt_frame with (w := w); [reflexivity | reflexivity | reflexivity |].
        exact Hm. }
      exists (citationOf (clock w) t v (toString certificate)), t, v, v'.
      split; [| split; [reflexivity | split; [reflexivity | exact Hnext]]].
      rewrite getValue_setValue_other by discriminate.
      rewrite getValue_setValue_other by discriminate.
      apply getValue_setValue_same. exact (holds_catalog _ _ Hstashed).
  - rewrite (@notary_mismatch w c stashed certificate Hn Hcheck Hstashed Heq).
    apply loaded_inStep; [exact Hnf | exact Hsf | split; assumption | exact Hst].
Qed.

Lemma notarize_inStep (w : World) (c component : Component) (s : string) :
  faulty (notaryFile w) = false ->
  faulty (ssmFile w) = false ->
  notaryAt s c w ->
  s = "$pending" \/ s = "$enabled" ->
  staged s c w ->
  argumentCheck (NotarizeComponent component) w = (Ok tt, w) ->
  exists (document : Component) (w' : World),
    DigitalNotary.notarizeComponent component w = (Ok document, w') /\ inStep w'.
Proof.
  intros Hnf Hsf [Hn Hfile] Hs Hst Hcheck.
  assert (Hm : moduleAt "$loneKey" w).
  { destruct Hst as [(E & _) | [(_ & Hm & _) | (_ & Hm & _)]]; [| exact Hm | exact Hm].
    destruct Hs as [-> | ->]; discriminate E. }
  destruct Hm as (sc & Hin & Hk & Hc).
  destruct Hk as [(E & _) | [(_ & [pk Hpk] & [sk Hsk] & Hpp & Hps) | (E & _)]];
    try discriminate E.
  pose proof (@notary_notarize_checked _ w c sc s component pk sk
                Hn Hs Hin Hcheck Hnf Hsf Hpk Hsk Hpp) as Hrun.
  cbv zeta in Hrun.
  eexists. eexists. split; [exact Hrun |].
  apply established with (s := s) (c := c);
    [reflexivity | reflexivity | reflexivity | reflexivity | reflexivity | exact (proj1 Hn) |].
  assert (Hm' : moduleAt "$loneKey"
                  (set_clock (clock w + 1) (notaryStored s c (ssmStored "$loneKey" sc w)))).
  { exists sc. split; [| split; [| reflexivity]].
    - split; [exact (proj1 Hin) | left; split; reflexivity].
    - right. left. split; [reflexivity |].
      split; [eexists; exact Hpk |]. split; [eexists; exact Hsk |].
      split; [exact Hpp | exact Hps]. }
  destruct Hst as [(E & _) | [(E & _ & Hrest) | (E & _ & Hrest)]].
  - destruct Hs as [-> | ->]; discriminate E.
  - right. left. split; [exact E |]. split; [exact Hm' | exact Hrest].
  - right. right. split; [exact E |]. split; [exact Hm' | exact Hrest].
Qed.

Lemma refresh_inStep (w : World) (c : Component) :
  faulty (notaryFile w) = false ->
  faulty (ssmFile w) = false ->
  notaryAt "$enabled" c w ->
  staged "$enabled" c w ->
  exists (certificate : Component) (w' : World),
    DigitalNotary.refreshKey w = (Ok certificate, w') /\ inStep w'.
Proof.
  intros Hnf Hsf [Hn Hfile] Hst.
  destruct Hst as [(E & _) | [(E & _) | (_ & Hm & citation & t & v & v' & Hcit & Ht & Hv & Hnext)]];
    try discriminate E.
  destruct Hm as (sc & Hin & Hk & Hc).
  destruct Hk as [(E & _) | [(_ & [pk Hpk] & [sk Hsk] & Hpp & Hps) | (E & _)]];
    try discriminate E.
  pose proof (@notary_refresh _ w c sc citation t v v' pk sk
                Hn Hin Hnf Hsf Hcit Ht Hv Hnext Hpk Hsk) as Hrun.
  cbv zeta in Hrun.
  pose proof (holds_catalog _ _ Hpk) as Hscat.
  pose proof (holds_catalog _ _ Hcit) as Hcat.
  set (seed := random (drawn w)) in *.
  set (sc1 := rotated seed (binary pk) (binary sk) sc) in *.
  destruct (rotated_current seed (binary pk) (binary sk) Hscat) as (Rp & Rk & _).
  assert (Hcat1 : exists a p, sc1 = Catalog a p).
  { destruct Hscat as [a [p ->]]. unfold sc1, rotated. simpl. eauto. }
  destruct (settled_state Hcat1 Rp Rk) as (Ss & Sp & Sk & Spp & Sps).
  destruct (nextVersion_again _ Hnext) as [v'' Hagain].
  eexists. eexists. split; [exact Hrun |].
  match type of Hrun with
  | _ = (Ok ?certificate, notaryStored _ ?c' _) =>
      apply established with (s := "$enabled") (c := c')
  end; [reflexivity | reflexivity | reflexivity | reflexivity | reflexivity | |].
  - apply getValue_setValue_same. destruct Hcat as [a [p ->]]. simpl. eauto.
  - right. right. split; [reflexivity |]. split.
    + exists (settled sc1). split; [| split; [| reflexivity]].
      * split; [exact Ss | left; split; reflexivity].
      * right. left. split; [reflexivity |].
        split; [eexists; exact Sp |]. split; [eexists; exact Sk |].
        split; [exact Spp | exact Sps].
    + eexists. exists t, v', v''.
      split.
      { rewrite getValue_setValue_other by discriminate.
        apply getValue_setValue_same. destruct Hcat as [a [p ->]]. simpl. eauto. }
      split; [reflexivity | split; [reflexivity | exact Hagain]].
Qed.

Lemma getCitation_inStep (w : World) (c : Component) :
  faulty (notaryFile w) = false ->
  faulty (ssmFile w) = false ->
  notaryAt "$enabled" c w ->
  staged "$enabled" c w ->
  exists (citation : option Component) (w' : World),
    DigitalNotary.getCitation w = (Ok citation, w') /\ inStep w'.
Proof.
  intros Hnf Hsf [Hn Hfile] Hst.
  eexists. eexists. split; [exact (getCitation_stores Hn Hnf) |].
  apply established with (s := "$enabled") (c := c);
    [reflexivity | exact Hsf | reflexivity | reflexivity | reflexivity | exact (proj1 Hn) |].
  apply staged_frame with (w := w); [reflexivity | reflexivity | reflexivity | exact Hst].
Qed.

Lemma snd_some {A} (m : M A) (w : World) : snd (some m w) = snd (m w).
Proof. unfold some, bind. destruct (m w) as [[a | e] w']; reflexivity. Qed.

Lemma forget_inStep (w : World) :
  faulty (notaryFile w) = false ->
  faulty (ssmFile w) = false ->
  inStep (snd (DigitalNotary.forgetKey w)).
Proof.
  intros Hnf Hsf.
  destruct w as [ac d [fc fw ff] nc nk [sc sw sf] c0 k0 t n].
  simpl in Hnf, Hsf. subst ff sf.
  split; [reflexivity |]. split; [reflexivity |].
  left. split; [repeat split | left; repeat split].
Qed.

Lemma request_inStep (r : NotaryRequest) (w : World) :
  inStep w ->
  versioned (Request r) ->
  inStep (snd (invokeNotary r w)) /\
  (wellFormed r ->
   (exists answer, fst (invokeNotary r w) = Ok answer) \/
   fst (invokeNotary r w) = Throw (refused DigitalNotary.moduleName (notaryEvent r))).
Proof.
  intros Hw Hversioned.
  destruct (argument_checked r w) as [Hcheck | (e & Hcheck & Hrun)].
  2:{ rewrite Hrun. simpl. split; [exact Hw |].
      intros Hwf. rewrite (wellFormed_checked r w Hwf) in Hcheck. discriminate Hcheck. }
  destruct Hw as (Hnf & Hsf & Hstage).
  assert (Hrefusal : forall (s : string) (w1 : World),
             DigitalNotary.initialize w = (Ok tt, w1) ->
             controller w1 = s ->
             inStep w1 ->
             nextState DigitalNotary.REQUESTS DigitalNotary.STATES s (notaryEvent r) = None ->
             inStep (snd (invokeNotary r w)) /\
             (wellFormed r ->
              (exists answer, fst (invokeNotary r w) = Ok answer) \/
              fst (invokeNotary r w)
              = Throw (refused DigitalNotary.moduleName (notaryEvent r)))).
  { intros s w1 Hinit Hk Hw1 Hn.
    rewrite (request_refused r Hcheck Hinit Hk Hn). simpl.
    split; [exact Hw1 | intros _; right; reflexivity]. }
  assert (Hanswer : forall (a : Component) (w' : World) (m : M Component),
             invokeNotary r w = some m w ->
             m w = (Ok a, w') ->
             inStep w' ->
             inStep (snd (invokeNotary r w)) /\
             (wellFormed r ->
              (exists answer, fst (invokeNotary r w) = Ok answer) \/
              fst (invokeNotary r w)
              = Throw (refused DigitalNotary.moduleName (notaryEvent r)))).
  { intros a w' m Hshape Hrun Hw'.
    rewrite Hshape, (@some_ok _ m w w' a Hrun). simpl.
    split; [exact Hw' | intros _; left; eexists; reflexivity]. }
  destruct Hstage as [[Hblank Hmod] | (s & c & Hat & Hst)].
  - pose proof (notary_initialize_blank Hblank) as Hinit.
    set (wA := notaryStored "$limited" blankNotary w) in *.
    assert (HatA : notaryAt "$limited" blankNotary wA)
      by (split; [split; [reflexivity | left; split; reflexivity] | reflexivity]).
    assert (HmodA : keylessModule wA)
      by (apply keylessModule_frame with (w := w);
          [reflexivity | reflexivity | reflexivity | exact Hmod]).
    assert (HwA : inStep wA).
    { apply established with (s := "$limited") (c := blankNotary);
        [reflexivity | exact Hsf | reflexivity | reflexivity | reflexivity | reflexivity |].
      left. split; [reflexivity | exact HmodA]. }
    destruct r as [| certificate | | component |];
      try solve [apply Hrefusal with (s := "$limited") (w1 := wA);
                 [exact Hinit | reflexivity | exact HwA | reflexivity]].
    destruct (@generate_inStep wA blankNotary eq_refl Hsf HatA HmodA)
      as (certificate & w' & Hrun & Hw').
    apply Hanswer with (a := certificate) (w' := w') (m := DigitalNotary.generateKey);
      [reflexivity | | exact Hw'].
    rewrite <- Hrun. unfold DigitalNotary.generateKey.
    apply loaded_first; [exact Hinit |].
    rewrite (notary_initialize (proj1 HatA)). destruct w; reflexivity.
  - pose proof (notary_initialize (proj1 Hat)) as Hinit.
    pose proof (loaded_inStep Hnf Hsf Hat Hst) as Hloaded.
    pose proof Hst as [(-> & Hmod) | [(-> & Hrest) | (-> & Hrest)]].
    + destruct r as [| certificate | | component |];
        try solve [apply Hrefusal with (s := "$limited") (w1 := notaryLoaded "$limited" c w);
                   [exact Hinit | reflexivity | exact Hloaded | reflexivity]].
      destruct (@generate_inStep w c Hnf Hsf Hat Hmod) as (certificate & w' & Hrun & Hw').
      apply Hanswer with (a := certificate) (w' := w') (m := DigitalNotary.generateKey);
        [reflexivity | exact Hrun | exact Hw'].
    + destruct r as [| certificate | | component |];
        try solve [apply Hrefusal with (s := "$pending") (w1 := notaryLoaded "$pending" c w);
                   [exact Hinit | reflexivity | exact Hloaded | reflexivity]].
      * cbn [invokeNotary wellFormed]. rewrite snd_some.
        split; [| intros []].
        apply activate_inStep with (c := c); assumption.
      * destruct (@notarize_inStep w c component "$pending" Hnf Hsf Hat
                    (or_introl eq_refl) Hst Hcheck) as (document & w' & Hrun & Hw').
        apply Hanswer with (a := document) (w' := w')
                           (m := DigitalNotary.notarizeComponent component);
          [reflexivity | exact Hrun | exact Hw'].
    + destruct r as [| certificate | | component |];
        try solve [apply Hrefusal with (s := "$enabled") (w1 := notaryLoaded "$enabled" c w);
                   [exact Hinit | reflexivity | exact Hloaded | reflexivity]].
      * destruct (@getCitation_inStep w c Hnf Hsf Hat Hst) as (citation & w' & Hrun & Hw').
        cbn [invokeNotary]. rewrite Hrun. simpl.
        split; [exact Hw' | intros _; left; eexists; reflexivity].
      * destruct (@notarize_inStep w c component "$enabled" Hnf Hsf Hat
                    (or_intror eq_refl) Hst Hcheck) as (document & w' & Hrun & Hw').
        apply Hanswer with (a := document) (w' := w')
                           (m := DigitalNotary.notarizeComponent component);
          [reflexivity | exact Hrun | exact Hw'].
      * destruct (@refresh_inStep w c Hnf Hsf Hat Hst) as (certificate & w' & Hrun & Hw').
        apply Hanswer with (a := certificate) (w' := w') (m := DigitalNotary.refreshKey);
          [reflexivity | exact Hrun | exact Hw'].
Qed.

Lemma wellFormed_versioned (r : NotaryRequest) : wellFormed r -> versioned (Request r).
Proof. destruct r; simpl; intros Hwf; [exact I | contradiction | exact I | exact I | exact I]. Qed.

(** X18. The notary and its security module stay in step.  Started without
    files on a file system that works, and driven at any debug level through
    any sequence of [generateKey], [activateKey], [getCitation],
    [notarizeComponent], [refreshKey] and [forgetKey] calls, whatever each
    call answers and with any arguments but one restriction, the two end in
    one of three situations: a new or limited notary over a module without
    keys; a pending notary that has stashed a certificate, over a module with
    exactly one pair; an enabled notary that holds a citation with a tag and a
    version that has a successor, over a module with exactly one pair.  The
    restriction is on the certificates passed to [activateKey]: their
    component, when they have one, carries a [$version] parameter that is a
    version, which [activateKey] itself only checks at debug levels above 1.
    Both files hold the configurations in memory, and between two calls the
    module is never left in [$twoKeys].  In such a world [generateKey],
    [getCitation], [refreshKey] and the [notarizeComponent] of a catalog
    either answer or are refused by the state machine of the notary: they
    never fail in the security module, for a missing attribute or for a
    storage error. *)
Theorem notary_stays_in_step :
  forall (calls : list NotaryCall) (w : World),
    notaryBlank w ->
    ssmBlank w ->
    Forall versioned calls ->
    inStep (notarySession calls w) /\
    forall r : NotaryRequest,
      wellFormed r ->
      (exists answer, fst (invokeNotary r (notarySession calls w)) = Ok answer) \/
      fst (invokeNotary r (notarySession calls w))
      = Throw (refused DigitalNotary.moduleName (notaryEvent r)).
Proof.
  intros calls w Hn Hs Hcalls.
  assert (Hstart : inStep w).
  { split; [exact (proj2 (proj2 Hn)) |]. split; [exact (proj2 (proj2 Hs)) |].
    left. split; [exact Hn | left; exact Hs]. }
  clear Hn Hs.
  assert (Hall : inStep (notarySession calls w)).
  { revert w Hstart. induction Hcalls as [| call calls Hcall Hcalls IH]; intros w Hw;
      [exact Hw |].
    simpl. apply IH.
    destruct call as [r |]; simpl.
    - exact (proj1 (request_inStep r Hw Hcall)).
    - destruct Hw as (Hnf & Hsf & _). apply forget_inStep; assumption. }
  split; [exact Hall |].
  intros r Hwf. exact (proj2 (request_inStep r Hall (wellFormed_versioned r Hwf)) Hwf).
Qed.

End InStep.


(** ** The utilities of protocol v1 *)

Section Citations.
Context `{Codec}.
Local Open Scope string_scope.

Lemma append_assoc (a b c : string) : (a ++ b) ++ c = a ++ (b ++ c).
Proof. induction a as [| x a IH]; simpl; [reflexivity | rewrite IH; reflexivity]. Qed.

Lemma append_empty (a : string) : a ++ "" = a.
Proof. induction a as [| x a IH]; simpl; [reflexivity | rewrite IH; reflexivity]. Qed.

Lemma lacks_append (c : ascii) (a b : string) :
  lacks c (a ++ b) = lacks c a && lacks c b.
Proof.
  induction a as [| x a IH]; simpl; [reflexivity |].
  rewrite IH. apply andb_assoc.
Qed.

Lemma expand_plain (replacement matched before after : string) :
  lacks "$" replacement = true ->
  V1.expand replacement matched before after = replacement.
Proof.
  induction replacement as [| a rest IH]; simpl; [reflexivity |].
  intros Hl. apply andb_true_iff in Hl. destruct Hl as [Ha Hrest].
  apply negb_true_iff in Ha. rewrite Ha. rewrite (IH Hrest). reflexivity.
Qed.

Lemma prefix_append (p s : string) : String.prefix p (p ++ s) = true.
Proof.
  induction p as [| a p IH]; simpl; [destruct s; reflexivity |].
  destruct (ascii_dec a a) as [_ | N]; [exact IH | contradiction].
Qed.

Lemma skip_append (p s : string) : V1.skip (String.length p) (p ++ s) = s.
Proof.
  induction p as [| a p IH]; simpl; [destruct s; reflexivity | exact IH].
Qed.

(** The leftmost occurrence of a pattern that starts with [%] lies after
    any text without [%]. *)
Lemma replaceFrom_passes (p replacement before passed rest : string) :
  lacks "%" passed = true ->
  V1.replaceFrom (String "%" p) replacement before (passed ++ rest)
  = V1.replaceFrom (String "%" p) replacement (before ++ passed) rest.
Proof.
  revert before. induction passed as [| a passed IH]; intros before Hl.
  - rewrite append_empty. reflexivity.
  - simpl in Hl. apply andb_true_iff in Hl. destruct Hl as [Ha Hrest].
    apply negb_true_iff in Ha. apply Ascii.eqb_neq in Ha.
    change ((String a passed) ++ rest) with (String a (passed ++ rest)).
    cbn [V1.replaceFrom String.prefix].
    destruct (ascii_dec "%" a) as [E | _]; [symmetry in E; contradiction |].
    rewrite (IH (before ++ String a "") Hrest).
    rewrite append_assoc. reflexivity.
Qed.

Lemma replace_slot (p replacement passed rest : string) :
  lacks "%" passed = true ->
  lacks "$" replacement = true ->
  V1.replace (String "%" p) replacement (passed ++ String "%" p ++ rest)
  = passed ++ replacement ++ rest.
Proof.
  intros Hl Hr. unfold V1.replace.
  rewrite replaceFrom_passes by exact Hl.
  change (String "%" p ++ rest) with (String "%" (p ++ rest)).
  cbn [V1.replaceFrom].
  change (String "%" (p ++ rest)) with (String "%" p ++ rest).
  rewrite prefix_append, skip_append.
  rewrite expand_plain by exact Hr. reflexivity.
Qed.

Lemma cite_filled (tag version encodedDigest : string) :
  lacks "%" tag = true -> lacks "$" tag = true ->
  lacks "%" version = true -> lacks "$" version = true ->
  lacks "$" encodedDigest = true ->
  V1.replace "%digest" encodedDigest
    (V1.replace "%version" version
       (V1.replace "%tag" tag
          (V1.replace "%protocol" V1.PROTOCOL
             "<bali:[$protocol:%protocol,$tag:%tag,$version:%version,$digest:%digest]>")))
  = filled tag version encodedDigest.
Proof.
  intros Htp Htd Hvp Hvd Hdd.
  change "<bali:[$protocol:%protocol,$tag:%tag,$version:%version,$digest:%digest]>"
    with ("<bali:[$protocol:" ++ "%protocol"
            ++ ",$tag:%tag,$version:%version,$digest:%digest]>").
  rewrite replace_slot by reflexivity.
  change ("<bali:[$protocol:" ++ V1.PROTOCOL
            ++ ",$tag:%tag,$version:%version,$digest:%digest]>")
    with ("<bali:[$protocol:v1,$tag:" ++ "%tag" ++ ",$version:%version,$digest:%digest]>").
  rewrite replace_slot by (first [reflexivity | exact Htd]).
  replace ("<bali:[$protocol:v1,$tag:" ++ tag ++ ",$version:%version,$digest:%digest]>")
    with (("<bali:[$protocol:v1,$tag:" ++ tag ++ ",$version:") ++ "%version" ++ ",$digest:%digest]>")
    by (rewrite !append_assoc; reflexivity).
  rewrite replace_slot;
    [| rewrite !lacks_append, Htp; reflexivity | exact Hvd].
  replace (("<bali:[$protocol:v1,$tag:" ++ tag ++ ",$version:") ++ version ++ ",$digest:%digest]>")
    with (("<bali:[$protocol:v1,$tag:" ++ tag ++ ",$version:" ++ version ++ ",$digest:")
            ++ "%digest" ++ "]>")
    by (rewrite !append_assoc; reflexivity).
  rewrite replace_slot;
    [| rewrite !lacks_append, Htp, Hvp; reflexivity | exact Hdd].
  unfold filled. rewrite !append_assoc. reflexivity.
Qed.

(** X19. [cite] fills the four slots of its template.  For a tag and a
    version that contain neither [%] nor [$], and an encoder whose text
    contains no [$], the citation is the template with [v1], the tag, the
    version and the digest at their places; the digest is the quoted base 32
    text of the hash of the document with the white space removed, and it is
    [none] for a document that is left out or empty. *)
Theorem cite_fills_template :
  forall (tag version : string) (document : option string),
    lacks "%" tag = true -> lacks "$" tag = true ->
    lacks "%" version = true -> lacks "$" version = true ->
    (forall buffer, lacks "$" (base32Encode buffer None) = true) ->
    V1.cite tag version document
    = filled tag version
        (if V1.truthy document
         then "'" ++ V1.removeSpaces (base32Encode (createHash (V1.text document)) None) ++ "'"
         else "none") /\
    V1.cite tag version None = filled tag version "none" /\
    V1.cite tag version (Some "") = filled tag version "none".
Proof.
  intros tag version document Htp Htd Hvp Hvd Hplain.
  assert (Hspaces : forall s, lacks "$" s = true -> lacks "$" (V1.removeSpaces s) = true).
  { induction s as [| a s IH]; simpl; [reflexivity |].
    intros Hl. apply andb_true_iff in Hl. destruct Hl as [Ha Hs].
    destruct (V1.isSpace a); simpl; [exact (IH Hs) | rewrite Ha, (IH Hs); reflexivity]. }
  assert (Hall : forall d, V1.cite tag version d
                           = filled tag version
                               (if V1.truthy d then V1.digest (V1.text d) else "none")).
  { intros d. unfold V1.cite. apply cite_filled; try assumption.
    destruct (V1.truthy d); [| reflexivity].
    unfold V1.digest. cbn [lacks append]. rewrite lacks_append.
    rewrite (Hspaces _ (Hplain _)). reflexivity. }
  split; [exact (Hall document) |].
  split; [exact (Hall None) | exact (Hall (Some ""))].
Qed.

Lemma length_quoted (s : string) : String.length (s ++ "'") = S (String.length s).
Proof. induction s as [| a s IH]; simpl; [reflexivity | rewrite IH; reflexivity]. Qed.

Lemma substring_all (s t : string) : substring 0 (String.length s) (s ++ t) = s.
Proof.
  induction s as [| a s IH]; simpl; [destruct t; reflexivity | rewrite IH; reflexivity].
Qed.

Lemma slice_quoted (s : string) : V1.slice ("'" ++ s ++ "'") = s.
Proof.
  unfold V1.slice. cbn [append String.length].
  rewrite length_quoted. cbn [Nat.sub]. rewrite Nat.sub_0_r.
  cbn [substring]. apply substring_all.
Qed.

(** X20. [encodedToBuffer] takes off exactly the quotes that
    [bufferToEncoded] and [digest] put on.  It decodes the base 32 text of
    the buffer followed by the indentation, so that without indentation it
    undoes [bufferToEncoded] when the decoder undoes the encoder; and it
    decodes the digest without its quotes. *)
Theorem encodedToBuffer_strips_quotes :
  forall (buffer message : string) (indentation : option string),
    base32Decode (base32Encode buffer (Some "")) = buffer ->
    V1.encodedToBuffer (V1.bufferToEncoded buffer None) = buffer /\
    V1.encodedToBuffer (V1.bufferToEncoded buffer (Some "")) = buffer /\
    V1.encodedToBuffer (V1.bufferToEncoded buffer indentation)
    = base32Decode
        (base32Encode buffer (Some (if V1.truthy indentation then V1.text indentation else ""))
           ++ (if V1.truthy indentation then V1.text indentation else "")) /\
    V1.encodedToBuffer (V1.digest message)
    = base32Decode (V1.removeSpaces (base32Encode (createHash message) None)).
Proof.
  intros buffer message indentation Hcodec.
  assert (Hall : forall i,
             V1.encodedToBuffer (V1.bufferToEncoded buffer i)
             = base32Decode
                 (base32Encode buffer (Some (if V1.truthy i then V1.text i else ""))
                    ++ (if V1.truthy i then V1.text i else ""))).
  { intros i. unfold V1.encodedToBuffer, V1.bufferToEncoded.
    replace ("'" ++ base32Encode buffer (Some (if V1.truthy i then V1.text i else ""))
               ++ (if V1.truthy i then V1.text i else "") ++ "'")
      with ("'" ++ (base32Encode buffer (Some (if V1.truthy i then V1.text i else ""))
                      ++ (if V1.truthy i then V1.text i else "")) ++ "'")
      by (rewrite !append_assoc; reflexivity).
    rewrite slice_quoted. reflexivity. }
  split; [| split; [| split; [exact (Hall indentation) |]]].
  - rewrite Hall. cbn [V1.truthy]. rewrite append_empty. exact Hcodec.
  - rewrite Hall. cbn [V1.truthy]. rewrite append_empty. exact Hcodec.
  - unfold V1.encodedToBuffer, V1.digest. rewrite slice_quoted. reflexivity.
Qed.

End Citations.


(** ** The registered module *)

Section Registry.

Lemma bind_ext {A B} (m : M A) (k k' : A -> M B) (w : World) :
  (forall a w', k a w' = k' a w') -> bind m k w = bind m k' w.
Proof.
  intros E. unfold bind. destruct (m w) as [[a | e] w']; [apply E | reflexivity].
Qed.

Lemma requiredModule_decides (P : Platform) (procedure protocol : string) (w : World) :
  DigitalNotary.requiredModule procedure protocol w
  = if String.eqb protocol "v1"
    then (Ok DigitalNotary.current, w)
    else (Throw (exception DigitalNotary.moduleName procedure unsupportedProtocol None), w).
Proof.
  unfold DigitalNotary.requiredModule.
  change (versionString DigitalNotary.PROTOCOL) with "v1".
  destruct (String.eqb protocol "v1") eqn:E; [reflexivity |].
  cbn [DigitalNotary.registered DigitalNotary.PROTOCOLS].
  change (versionString [1%positive]) with "v1".
  rewrite String.eqb_sym, E. reflexivity.
Qed.

Lemma validDocument_dispatch (P : Platform) (document certificate : Component) (w : World) :
  DigitalNotary.validDocument document certificate w
  = rethrowing DigitalNotary.moduleName "$validDocument"
      (DigitalNotary.whenValidating
         (DigitalNotary.validateType "$validDocument" document;;
          DigitalNotary.validateStructure "$validDocument" (Some document)
            DigitalNotary.documentType;;
          DigitalNotary.validateType "$validDocument" certificate;;
          DigitalNotary.validateStructure "$validDocument" (Some certificate)
            DigitalNotary.certificateType);;
       protocol <- defined (getValue certificate "$protocol");;
       if String.eqb (toString protocol) "v1"
       then SSM.validSignature (getValue certificate "$publicKey")
              (getValue document "$signature")
              (toString (extraction document DigitalNotary.signedAttributes))
       else throw (exception DigitalNotary.moduleName "$validDocument"
                     unsupportedProtocol None)) w.
Proof.
  unfold DigitalNotary.validDocument. apply rethrowing_ext.
  apply bind_ext. intros _ w1. apply bind_ext. intros protocol w2.
  unfold bind at 1. rewrite requiredModule_decides.
  destruct (String.eqb (toString protocol) "v1"); reflexivity.
Qed.

Lemma citationMatches_dispatch (P : Platform) (citation document : Component) (w : World) :
  DigitalNotary.citationMatches citation document w
  = rethrowing DigitalNotary.moduleName "$citationMatches"
      (DigitalNotary.whenValidating
         (DigitalNotary.validateType "$citationMatches" citation;;
          DigitalNotary.validateStructure "$citationMatches" (Some citation)
            DigitalNotary.citationType;;
          DigitalNotary.validateType "$citationMatches" document;;
          DigitalNotary.validateStructure "$citationMatches" (Some document)
            DigitalNotary.documentType);;
       protocol <- defined (getValue citation "$protocol");;
       if String.eqb (toString protocol) "v1"
       then digest <- SSM.digestBytes (toString document);;
            ret match getValue citation "$digest" with
                | Some cited => isEqualTo digest cited
                | None => false
                end
       else throw (exception DigitalNotary.moduleName "$citationMatches"
                     unsupportedProtocol None)) w.
Proof.
  unfold DigitalNotary.citationMatches. apply rethrowing_ext.
  apply bind_ext. intros _ w1. apply bind_ext. intros protocol w2.
  unfold bind at 1. rewrite requiredModule_decides.
  destruct (String.eqb (toString protocol) "v1"); reflexivity.
Qed.

(** X21. The module registered for protocol [v1] is never used.  The
    notary verifies a document or a citation of protocol [v1] with the
    security module it was given, and refuses every other protocol; so no
    operation of the notary depends on what [PROTOCOLS] holds under [v1]:
    with any other module registered there, [validDocument],
    [citationMatches], [citeDocument], [getProtocols] and the five events
    return the same result and leave the same world ([forgetKey] and
    [getAccount] call no library at all). *)
Theorem registered_module_unused :
  forall (P : Platform) (v : Verifier) (w : World),
    (forall document certificate : Component,
        @DigitalNotary.validDocument (withVerifier P v) document certificate w
        = @DigitalNotary.validDocument P document certificate w) /\
    (forall citation document : Component,
        @DigitalNotary.citationMatches (withVerifier P v) citation document w
        = @DigitalNotary.citationMatches P citation document w) /\
    (forall r : NotaryRequest,
        @invokeNotary (withVerifier P v) r w = @invokeNotary P r w) /\
    (forall document : Component,
        @DigitalNotary.citeDocument (withVerifier P v) document w
        = @DigitalNotary.citeDocument P document w) /\
    @DigitalNotary.getProtocols (withVerifier P v) w = @DigitalNotary.getProtocols P w.
Proof.
  intros P v w.
  split; [| split; [| split; [| split]]].
  - intros document certificate.
    rewrite (validDocument_dispatch (withVerifier P v)), (validDocument_dispatch P).
    reflexivity.
  - intros citation document.
    rewrite (citationMatches_dispatch (withVerifier P v)), (citationMatches_dispatch P).
    reflexivity.
  - intros r. destruct r; reflexivity.
  - intros document. reflexivity.
  - reflexivity.
Qed.

End Registry.


(** * Concrete runs on the reference platform *)

Import Reference.

Ltac observed :=
  let e := fresh "e" in
  let He := fresh "He" in
  let Hk := fresh "Hk" in
  intros (e & He & Hk); vm_compute in He; injection He as <-; discriminate Hk.

Lemma signBytes_selects_key_witness :
  SSM.signBytes "message" twoKeys
  = (Ok (binary (sign "message" "P1" "S1")),
     ssmStored "$loneKey"
       (setValue "$state" (symbol "$loneKey")
          (removeAttributes previousKeys (held (ssmConfiguration twoKeys)))) twoKeys).
Proof.
  assert (Hin : ssmIn "$twoKeys" (held (ssmConfiguration twoKeys)) twoKeys)
    by (split; [vm_compute; reflexivity | left; split; vm_compute; reflexivity]).
  destruct (@signBytes_selects_key platform twoKeys (held (ssmConfiguration twoKeys))
              "$twoKeys" "message" "P3" "S3" Hin (or_intror eq_refl) eq_refl eq_refl eq_refl)
    as (W & _).
  exact (proj1 (W "P1" "S1" eq_refl eq_refl)).
Defined.

Lemma refreshKey_chain_link_witness :
  exists (refreshed : Component) (w' : World),
    DigitalNotary.refreshKey enabled = (Ok refreshed, w') /\
    DigitalNotary.validDocument refreshed certificate w' = (Ok true, w').
Proof.
  assert (Hn : notaryIn "$enabled" (held (configuration enabled)) enabled)
    by (split; [vm_compute; reflexivity | left; split; vm_compute; reflexivity]).
  assert (Hs : ssmIn "$loneKey" (held (ssmConfiguration enabled)) enabled)
    by (split; [vm_compute; reflexivity | left; split; vm_compute; reflexivity]).
  assert (Hd : debug enabled <= 1) by (vm_compute; lia).
  assert (Hed : forall bytes : string, verify (sign bytes "P1" "S1") bytes "P1" = true)
    by (intros bytes; apply String.eqb_refl).
  set (c := held (configuration enabled)) in *.
  set (citation := held (getValue c "$citation")).
  assert (Hcit : getValue c "$citation" = Some citation) by (vm_compute; reflexivity).
  assert (Ht : getValue citation "$tag" = Some (Element (Tag "2") []))
    by (vm_compute; reflexivity).
  assert (Hv : getValue citation "$version" = Some (version [1%positive]))
    by (vm_compute; reflexivity).
  assert (Hprev : getValue c "$certificate" = Some selfSigned) by (vm_compute; reflexivity).
  assert (Hheld : getValue selfSigned "$component" = Some certificate)
    by (vm_compute; reflexivity).
  assert (Hprot : getValue certificate "$protocol" = Some (version [1%positive]))
    by (vm_compute; reflexivity).
  assert (Hhpk : getValue certificate "$publicKey" = Some (binary "P1"))
    by (vm_compute; reflexivity).
  destruct (@refreshKey_chain_link platform enabled
              c (held (ssmConfiguration enabled)) citation
              selfSigned certificate (Element (Tag "2") [])
              (version [1%positive]) (version [2%positive]) "P1" "S1"
              Hn Hs Hd eq_refl eq_refl Hcit Ht Hv eq_refl
              Hprev Hheld Hprot Hhpk eq_refl eq_refl Hed)
    as (w' & Hrun & _ & _ & _ & _ & _ & _ & _ & _ & _ & Hvalid & _).
  eexists. exists w'. split; [exact Hrun | exact Hvalid].
Defined.

Lemma validDocument_reads_certificate_witness :
  DigitalNotary.validDocument selfSigned certificate enabled = (Ok true, enabled).
Proof.
  assert (Hd : debug enabled <= 1) by (vm_compute; lia).
  assert (Hp : getValue certificate "$protocol" = Some (version [1%positive]))
    by (vm_compute; reflexivity).
  assert (Hk : getValue certificate "$publicKey" = Some (binary "P1"))
    by (vm_compute; reflexivity).
  set (payload := toString (extraction selfSigned DigitalNotary.signedAttributes)).
  assert (Hs : getValue selfSigned "$signature" = Some (binary (sign payload "P1" "S1")))
    by (vm_compute; reflexivity).
  assert (Ha : signerVerify (sign payload "P1" "S1") payload "P1" = Some true)
    by (vm_compute; reflexivity).
  destruct (@validDocument_reads_certificate platform enabled selfSigned certificate
              (version [1%positive]) Hd Hp)
    as (_ & W & _).
  destruct (W eq_refl "P1" (sign payload "P1" "S1") Hk Hs) as (Wa & _).
  exact (proj2 (Wa true Ha)).
Defined.

(** C3 fails as stated: with the self-signed certificate as certifying
    document, the verification the claim describes answers [true], and the
    code, which looks for [$publicKey] in the document itself, fails. *)
Lemma validDocument_component_counterexample :
  outcome (validDocument_spec selfSigned selfSigned) enabled = Ok true /\
  outcome (DigitalNotary.validDocument selfSigned selfSigned) enabled
  = Throw (exception DigitalNotary.moduleName "$validDocument" unexpected
             (Some (exception SSM.moduleName "$validSignature" unexpected
                      (Some (native "TypeError"))))) /\
  outcome (DigitalNotary.validDocument selfSigned selfSigned) enabled
  <> outcome (validDocument_spec selfSigned selfSigned) enabled.
Proof.
  split; [vm_compute; reflexivity |]. split; [vm_compute; reflexivity |].
  vm_compute. discriminate.
Qed.

Lemma illegal_event_refused_witness :
  invokeNotary GetCitation pending
  = (Throw (refused DigitalNotary.moduleName "$getCitation"),
     notaryLoaded "$pending" (held (configuration pending)) pending).
Proof.
  assert (Hn : notaryIn "$pending" (held (configuration pending)) pending)
    by (split; [vm_compute; reflexivity | left; split; vm_compute; reflexivity]).
  assert (Hd : debug pending <= 1) by (vm_compute; lia).
  exact (proj1 (proj1 (@illegal_event_refused platform) GetCitation "$pending"
                  (held (configuration pending)) pending Hn Hd eq_refl)).
Defined.

(** C4 fails as stated: [getCitation] is not allowed in the pending state,
    and the exception the caller receives is not of kind [invalidEvent]. *)
Lemma illegal_event_counterexample :
  notaryIn "$pending" (held (configuration pending)) pending /\
  nextState DigitalNotary.REQUESTS DigitalNotary.STATES "$pending" "$getCitation" = None /\
  outcome DigitalNotary.getCitation pending
  = Throw (refused DigitalNotary.moduleName "$getCitation") /\
  ~ failsWith invalidEvent (outcome DigitalNotary.getCitation pending).
Proof.
  split; [split; [vm_compute; reflexivity | left; split; vm_compute; reflexivity] |].
  split; [reflexivity |]. split; [vm_compute; reflexivity | observed].
Qed.

Lemma every_error_rethrown_witness :
  exists (procedure : string) (body : M bool),
    DigitalNotary.citationMatches foreign selfSigned
    = rethrowing DigitalNotary.moduleName procedure body /\
    (forall (w w' : World) (e : Exception),
        DigitalNotary.citationMatches foreign selfSigned w = (Throw e, w') ->
        exists cause,
          body w = (Throw cause, w') /\
          e = rethrown DigitalNotary.moduleName procedure cause).
Proof.
  destruct (proj1 (@every_error_rethrown platform) bool
              (DigitalNotary.citationMatches foreign selfSigned)
              (public_citationMatches foreign selfSigned))
    as (procedure & body & Hshape & _ & _ & _ & Hinversion).
  exists procedure, body. split; [exact Hshape | exact Hinversion].
Defined.

(** C5 fails as stated.  The [invalidEvent] exception of the controller does
    not reach the caller of the notary directly: [generateKey] on an enabled
    notary throws [unexpected], with it as the cause.  An exception of a kind
    that is not in the list, the [argumentType] of the type check, is thrown
    directly and not as [unexpected].  And the security module rethrows the
    [storageException] of its own [loadConfiguration] as [unexpected]. *)
Lemma thrown_directly_counterexample :
  outcome DigitalNotary.generateKey enabled
  = Throw (exception DigitalNotary.moduleName "$generateKey" unexpected
             (Some (exception controllerModule "$validateEvent" invalidEvent None))) /\
  ~ failsWith invalidEvent (outcome DigitalNotary.generateKey enabled) /\
  outcome (DigitalNotary.citeDocument NONE) validating
  = Throw (exception DigitalNotary.moduleName "$citeDocument" argumentType None) /\
  ~ failsWith unexpected (outcome (DigitalNotary.citeDocument NONE) validating) /\
  outcome SSM.getTag brokenModule
  = Throw (exception SSM.moduleName "$getTag" unexpected
             (Some (exception SSM.moduleName "$loadConfiguration" storageException
                      (Some (native "EIO"))))) /\
  ~ failsWith storageException (outcome SSM.getTag brokenModule).
Proof.
  split; [vm_compute; reflexivity |]. split; [observed |].
  split; [vm_compute; reflexivity |]. split; [observed |].
  split; [vm_compute; reflexivity | observed].
Qed.


Lemma citation_round_trip_witness :
  exists (citation : Component) (w1 : World),
    DigitalNotary.citeDocument selfSigned enabled = (Ok citation, w1) /\
    DigitalNotary.citationMatches citation selfSigned w1 = (Ok true, w1) /\
    DigitalNotary.citationMatches citation forged w1 = (Ok false, w1).
Proof.
  assert (Hd : debug enabled <= 1) by (vm_compute; lia).
  assert (Hc : getValue selfSigned "$component" = Some certificate)
    by (vm_compute; reflexivity).
  assert (Ht : getParameter certificate "$tag" = Some (Element (Tag "2") []))
    by (vm_compute; reflexivity).
  assert (Hv : getParameter certificate "$version" = Some (version [1%positive]))
    by (vm_compute; reflexivity).
  destruct (@citation_round_trip platform enabled selfSigned certificate
              (Element (Tag "2") []) (version [1%positive]) Hd Hc Ht Hv)
    as (citation & w1 & Hrun & _ & Hsame & _ & Hother).
  exists citation, w1. split; [exact Hrun |]. split; [exact Hsame |].
  apply Hother.
  - vm_compute. discriminate.
  - vm_compute. discriminate.
Defined.

Lemma forgetKey_erases_witness :
  DigitalNotary.forgetKey enabled = (Ok tt, forgotten enabled) /\
  SSM.eraseKeys (forgotten enabled) = (Ok true, forgotten enabled).
Proof.
  assert (Hnf : faulty (notaryFile enabled) = false) by (vm_compute; reflexivity).
  assert (Hsf : faulty (ssmFile enabled) = false) by (vm_compute; reflexivity).
  destruct (@forgetKey_erases platform enabled Hnf Hsf)
    as (Hrun & _ & _ & _ & _ & _ & Hagain & _).
  split; [exact Hrun | exact Hagain].
Defined.

(** C8 fails as stated: after [forgetKey] the next [getCitation] fails, but
    the exception the caller receives is not of kind [invalidEvent]. *)
Lemma forgetKey_getCitation_counterexample :
  outcome DigitalNotary.getCitation (after DigitalNotary.forgetKey enabled)
  = Throw (refused DigitalNotary.moduleName "$getCitation") /\
  ~ failsWith invalidEvent
      (outcome DigitalNotary.getCitation (after DigitalNotary.forgetKey enabled)).
Proof.
  split; [vm_compute; reflexivity | observed].
Qed.

Lemma getCitation_rewrites_file_witness :
  DigitalNotary.getCitation enabled
  = (Ok (getValue (held (configuration enabled)) "$citation"),
     notaryStored "$enabled" (held (configuration enabled)) enabled) /\
  writes (notaryFile (snd (DigitalNotary.getCitation enabled)))
  = S (writes (notaryFile enabled)).
Proof.
  assert (Hn : notaryIn "$enabled" (held (configuration enabled)) enabled)
    by (split; [vm_compute; reflexivity | left; split; vm_compute; reflexivity]).
  destruct (@getCitation_rewrites_file platform enabled (held (configuration enabled)) Hn)
    as (_ & Hrun & Hall).
  assert (Hf : faulty (notaryFile enabled) = false) by (vm_compute; reflexivity).
  split; [exact (Hrun Hf) |].
  destruct (Hall _ _ (Hrun Hf)) as (_ & _ & Hw & _).
  rewrite (Hrun Hf). exact Hw.
Defined.

Lemma only_protocol_v1_witness :
  DigitalNotary.citationMatches foreign selfSigned enabled
  = (Throw (unsupported "$citationMatches"), enabled) /\
  failsWith unsupportedProtocol
    (fst (DigitalNotary.citationMatches foreign selfSigned enabled)).
Proof.
  assert (Hd : debug enabled <= 1) by (vm_compute; lia).
  assert (Hp : getValue foreign "$protocol" = Some (version [2%positive]))
    by (vm_compute; reflexivity).
  assert (Hv : toString (version [2%positive]) <> "v1") by (vm_compute; discriminate).
  destruct (@only_protocol_v1 platform) as (_ & _ & _ & _ & _ & _ & _ & _ & _ & W & _).
  exact (W enabled foreign selfSigned (version [2%positive]) Hd Hp Hv).
Defined.

Lemma generateKeys_stores_pair_witness :
  SSM.generateKeys keyless
  = (Ok (Some (binary (fst (createKeyPair (random (drawn keyless)))))),
     set_drawn (S (drawn keyless))
       (ssmStored "$loneKey"
          (generated (random (drawn keyless)) (held (ssmConfiguration keyless))) keyless)).
Proof.
  assert (Hin : ssmIn "$keyless" (held (ssmConfiguration keyless)) keyless)
    by (split; [vm_compute; reflexivity | left; split; vm_compute; reflexivity]).
  assert (Hf : faulty (ssmFile keyless) = false) by (vm_compute; reflexivity).
  exact (proj1 (@generateKeys_stores_pair platform keyless
                  (held (ssmConfiguration keyless)) Hin Hf)).
Defined.

Lemma getTag_drawn_once_witness :
  SSM.getTag fresh
  = (Ok (Some (Element (Tag (random (drawn fresh))) [])),
     set_drawn (S (drawn fresh))
       (ssmStored "$keyless" (blankSsm (random (drawn fresh))) fresh)).
Proof.
  assert (Hb : ssmBlank fresh) by (repeat split).
  exact (proj1 (@getTag_drawn_once platform fresh Hb)).
Defined.

Lemma rotated_key_signs_once_witness :
  SSM.signBytes "first"
    (set_drawn (S (drawn loneKey))
       (ssmStored "$twoKeys"
          (rotated (random (drawn loneKey)) (binary "P1") (binary "S1")
             (held (ssmConfiguration loneKey))) loneKey))
  = (Ok (binary (sign "first" "P1" "S1")),
     ssmStored "$loneKey"
       (settled (rotated (random (drawn loneKey)) (binary "P1") (binary "S1")
                   (held (ssmConfiguration loneKey))))
       (set_drawn (S (drawn loneKey))
          (ssmStored "$twoKeys"
             (rotated (random (drawn loneKey)) (binary "P1") (binary "S1")
                (held (ssmConfiguration loneKey))) loneKey))).
Proof.
  assert (Hin : ssmIn "$loneKey" (held (ssmConfiguration loneKey)) loneKey)
    by (split; [vm_compute; reflexivity | left; split; vm_compute; reflexivity]).
  assert (Hf : faulty (ssmFile loneKey) = false) by (vm_compute; reflexivity).
  assert (Hp : getValue (held (ssmConfiguration loneKey)) "$publicKey" = Some (binary "P1"))
    by (vm_compute; reflexivity).
  assert (Hk : getValue (held (ssmConfiguration loneKey)) "$privateKey" = Some (binary "S1"))
    by (vm_compute; reflexivity).
  destruct (@rotated_key_signs_once platform loneKey (held (ssmConfiguration loneKey))
              "P1" "S1" "first" "second" Hin Hf Hp Hk)
    as (_ & _ & Hfirst & _).
  exact Hfirst.
Defined.

Lemma signing_repeats_witness :
  exists w' : World,
    signAll ["a"; "b"] loneKey
    = (Ok (map (fun bytes => binary (sign bytes "P1" "S1")) ["a"; "b"]), w') /\
    ssmIn "$loneKey" (held (ssmConfiguration loneKey)) w' /\
    faulty (ssmFile w') = false /\
    writes (ssmFile w') = length ["a"; "b"] + writes (ssmFile loneKey).
Proof.
  assert (Hin : ssmIn "$loneKey" (held (ssmConfiguration loneKey)) loneKey)
    by (split; [vm_compute; reflexivity | left; split; vm_compute; reflexivity]).
  assert (Hf : faulty (ssmFile loneKey) = false) by (vm_compute; reflexivity).
  assert (Hp : getValue (held (ssmConfiguration loneKey)) "$publicKey" = Some (binary "P1"))
    by (vm_compute; reflexivity).
  assert (Hk : getValue (held (ssmConfiguration loneKey)) "$privateKey" = Some (binary "S1"))
    by (vm_compute; reflexivity).
  assert (Hno : getValue (held (ssmConfiguration loneKey)) "$previousPublicKey" = None)
    by (vm_compute; reflexivity).
  exact (@signing_repeats platform ["a"; "b"] loneKey (held (ssmConfiguration loneKey))
           "P1" "S1" Hin Hf Hp Hk Hno).
Defined.

Lemma signature_round_trip_witness :
  exists (publicKey signature : Component) (w1 w2 : World),
    SSM.generateKeys keyless = (Ok (Some publicKey), w1) /\
    SSM.signBytes "message" w1 = (Ok signature, w2) /\
    SSM.validSignature (Some publicKey) (Some signature) "message" w2 = (Ok true, w2) /\
    ssmController w2 = "$loneKey".
Proof.
  assert (Hin : ssmIn "$keyless" (held (ssmConfiguration keyless)) keyless)
    by (split; [vm_compute; reflexivity | left; split; vm_compute; reflexivity]).
  assert (Hf : faulty (ssmFile keyless) = false) by (vm_compute; reflexivity).
  assert (Hno : getValue (held (ssmConfiguration keyless)) "$previousPublicKey" = None)
    by (vm_compute; reflexivity).
  assert (Hed : verify (sign "message" (fst (createKeyPair (random (drawn keyless))))
                          (snd (createKeyPair (random (drawn keyless)))))
                  "message" (fst (createKeyPair (random (drawn keyless)))) = true)
    by (vm_compute; reflexivity).
  exact (@signature_round_trip platform keyless (held (ssmConfiguration keyless)) "message"
           Hin Hf Hno Hed).
Defined.

Lemma generateKey_issues_certificate_witness :
  exists w' : World,
    DigitalNotary.generateKey limited
    = (Ok (certificateOf (clock limited) (account limited)
             (binary (fst (createKeyPair (random (drawn limited)))))
             (Element (Tag (random (S (drawn limited)))) []) (version [1%positive]) NONE),
       w').
Proof.
  assert (Hn : notaryIn "$limited" (held (configuration limited)) limited)
    by (split; [vm_compute; reflexivity | left; split; vm_compute; reflexivity]).
  assert (Hs : ssmIn "$keyless" (held (ssmConfiguration limited)) limited)
    by (split; [vm_compute; reflexivity | left; split; vm_compute; reflexivity]).
  assert (Hnf : faulty (notaryFile limited) = false) by (vm_compute; reflexivity).
  assert (Hsf : faulty (ssmFile limited) = false) by (vm_compute; reflexivity).
  destruct (@generateKey_issues_certificate platform limited (held (configuration limited))
              (held (ssmConfiguration limited)) Hn Hs Hnf Hsf)
    as (w' & Hrun & _).
  exists w'. exact Hrun.
Defined.

Lemma notarizeComponent_seals_witness :
  DigitalNotary.notarizeComponent certificate pending
  = (Ok (setValue "$signature"
           (binary (sign (toString (documentOf (clock pending) certificate NONE)) "P1" "S1"))
           (documentOf (clock pending) certificate NONE)),
     set_clock (clock pending + 1)
       (notaryStored "$pending" (held (configuration pending))
          (ssmStored "$loneKey" (held (ssmConfiguration pending)) pending))).
Proof.
  assert (Hn : notaryIn "$pending" (held (configuration pending)) pending)
    by (split; [vm_compute; reflexivity | left; split; vm_compute; reflexivity]).
  assert (Hs : ssmIn "$loneKey" (held (ssmConfiguration pending)) pending)
    by (split; [vm_compute; reflexivity | left; split; vm_compute; reflexivity]).
  assert (Hd : DigitalNotary.isCatalog certificate = true \/ debug pending <= 1)
    by (left; vm_compute; reflexivity).
  assert (Hnf : faulty (notaryFile pending) = false) by (vm_compute; reflexivity).
  assert (Hsf : faulty (ssmFile pending) = false) by (vm_compute; reflexivity).
  assert (Hp : getValue (held (ssmConfiguration pending)) "$publicKey" = Some (binary "P1"))
    by (vm_compute; reflexivity).
  assert (Hk : getValue (held (ssmConfiguration pending)) "$privateKey" = Some (binary "S1"))
    by (vm_compute; reflexivity).
  assert (Hno : getValue (held (ssmConfiguration pending)) "$previousPublicKey" = None)
    by (vm_compute; reflexivity).
  assert (Hc : getValue (held (configuration pending)) "$citation" = None)
    by (vm_compute; reflexivity).
  pose proof (proj1 (@notarizeComponent_seals platform pending (held (configuration pending))
                       (held (ssmConfiguration pending)) "$pending" certificate "P1" "S1"
                       Hn (or_introl eq_refl) Hs Hd Hnf Hsf Hp Hk Hno)) as Hrun.
  rewrite Hc in Hrun. exact Hrun.
Defined.

Lemma first_use_witness :
  exists w1 w2 w3 w4 : World,
    DigitalNotary.generateKey fresh = (Ok certificate, w1) /\
    DigitalNotary.notarizeComponent certificate w1 = (Ok selfSigned, w2) /\
    (exists citation : Component,
        DigitalNotary.activateKey selfSigned w2 = (Ok citation, w3) /\
        DigitalNotary.getCitation w3 = (Ok (Some citation), w4) /\
        DigitalNotary.citationMatches citation selfSigned w4 = (Ok true, w4)) /\
    DigitalNotary.validDocument selfSigned certificate w4 = (Ok true, w4).
Proof.
  assert (Hn : notaryBlank fresh) by (repeat split).
  assert (Hs : ssmBlank fresh) by (repeat split).
  assert (Ha : isA DigitalNotary.tagType (Some (account fresh)) = true) by reflexivity.
  assert (Hc : certificateOf (clock fresh) (account fresh)
                 (binary (fst (createKeyPair (random (S (drawn fresh))))))
                 (Element (Tag (random (S (S (drawn fresh))))) []) (version [1%positive]) NONE
               = certificate) by (vm_compute; reflexivity).
  assert (Hed : verify
                  (sign (toString (documentOf (clock fresh + 1) certificate NONE))
                     (fst (createKeyPair (random (S (drawn fresh)))))
                     (snd (createKeyPair (random (S (drawn fresh))))))
                  (toString (documentOf (clock fresh + 1) certificate NONE))
                  (fst (createKeyPair (random (S (drawn fresh))))) = true)
    by (vm_compute; reflexivity).
  assert (Hd : setValue "$signature"
                 (binary (sign (toString (documentOf (clock fresh + 1) certificate NONE))
                            (fst (createKeyPair (random (S (drawn fresh)))))
                            (snd (createKeyPair (random (S (drawn fresh)))))))
                 (documentOf (clock fresh + 1) certificate NONE)
               = selfSigned) by (vm_compute; reflexivity).
  pose proof (@first_use platform fresh Hn Hs Ha) as Hrun.
  cbv zeta in Hrun. rewrite Hc in Hrun. specialize (Hrun Hed). rewrite Hd in Hrun.
  destruct Hrun as (w1 & w2 & w3 & w4 & E1 & E2 & E3 & E4 & E5 & E6 & _).
  exists w1, w2, w3, w4.
  split; [exact E1 |]. split; [exact E2 |]. split; [| exact E5].
  eexists. split; [exact E3 |]. split; [exact E4 | exact E6].
Defined.

Lemma products_pass_validation_witness :
  accepts (DigitalNotary.validateStructure "$validDocument"
             (Some (certificateOf 0 (Element (Tag "ACCOUNT") []) (binary "P1")
                      (Element (Tag "2") []) (version [1%positive]) NONE))
             DigitalNotary.certificateType).
Proof.
  exact (proj1 (@products_pass_validation platform "$validDocument" 0 1
                  (Element (Tag "ACCOUNT") []) (binary "P1") (Element (Tag "2") [])
                  (version [1%positive]) NONE NONE "S1:0" "bytes"
                  eq_refl eq_refl eq_refl eq_refl (fun w => eq_refl) (fun w => eq_refl))).
Defined.

Lemma untagged_document_rejected_witness :
  exists (document : Component) (w' : World),
    DigitalNotary.notarizeComponent plain validating = (Ok document, w') /\
    DigitalNotary.validDocument document certificate w'
    = (Throw (rejected "$validDocument"), w').
Proof.
  assert (Hn : notaryIn "$enabled" (held (configuration validating)) validating)
    by (split; [vm_compute; reflexivity | left; split; vm_compute; reflexivity]).
  assert (Hs : ssmIn "$loneKey" (held (ssmConfiguration validating)) validating)
    by (split; [vm_compute; reflexivity | left; split; vm_compute; reflexivity]).
  assert (Hd : 1 < debug validating) by (vm_compute; lia).
  assert (Hnf : faulty (notaryFile validating) = false) by (vm_compute; reflexivity).
  assert (Hsf : faulty (ssmFile validating) = false) by (vm_compute; reflexivity).
  assert (Hp : getValue (held (ssmConfiguration validating)) "$publicKey" = Some (binary "P1"))
    by (vm_compute; reflexivity).
  assert (Hk : getValue (held (ssmConfiguration validating)) "$privateKey" = Some (binary "S1"))
    by (vm_compute; reflexivity).
  assert (Hno : getValue (held (ssmConfiguration validating)) "$previousPublicKey" = None)
    by (vm_compute; reflexivity).
  destruct (@untagged_document_rejected platform validating
              (held (configuration validating)) (held (ssmConfiguration validating))
              "$enabled" plain "P1" "S1"
              Hn (or_intror eq_refl) Hs Hd eq_refl eq_refl Hnf Hsf Hp Hk Hno)
    as (document & w' & Hrun & _ & Hvalid & _).
  exists document, w'. split; [exact Hrun | exact (Hvalid certificate)].
Defined.

Lemma validDocument_checks_shape_witness :
  getSize certificate = 4 /\ getSize selfSigned = 5 /\
  getSize certificate <> getSize selfSigned.
Proof.
  assert (Hd : 1 < debug validating) by (vm_compute; lia).
  assert (Hrun : DigitalNotary.validDocument selfSigned certificate validating
                 = (Ok true, validating)) by (vm_compute; reflexivity).
  destruct (@validDocument_checks_shape platform validating validating selfSigned certificate
              true Hd Hrun)
    as ((_ & Hdocument & _) & (_ & Hcertificate & _) & Hdiffer).
  split; [exact Hcertificate |]. split; [exact Hdocument | exact Hdiffer].
Defined.

Lemma unreadable_notary_file_witness :
  DigitalNotary.generateKey broken
  = (Throw (storageFailure DigitalNotary.moduleName "$loadConfiguration"), broken).
Proof.
  exact (proj1 (proj2 (@unreadable_notary_file platform broken eq_refl eq_refl))).
Defined.

Lemma unreadable_module_file_witness :
  SSM.signBytes "message" brokenModule
  = (Throw (unreadable SSM.moduleName "$signBytes"), brokenModule).
Proof.
  exact (proj1 (proj2 (proj2 (proj2
           (@unreadable_module_file platform brokenModule "message" "P1" "S1:0"
              eq_refl eq_refl))))).
Defined.

Lemma generateKey_half_done_witness :
  exists w' : World,
    DigitalNotary.generateKey failing
    = (Throw (storageFailure DigitalNotary.moduleName "$storeConfiguration"), w') /\
    notaryFile w' = notaryFile failing /\
    controller w' = "$pending" /\
    ssmController w' = "$loneKey".
Proof.
  assert (Hstate : getValue (held (configuration failing)) "$state" = Some (symbol "$limited"))
    by (vm_compute; reflexivity).
  assert (Hc : configuration failing = Some (held (configuration failing)))
    by (vm_compute; reflexivity).
  assert (Hk : controller failing = "$limited") by (vm_compute; reflexivity).
  assert (Hnf : faulty (notaryFile failing) = true) by (vm_compute; reflexivity).
  assert (Hs : ssmIn "$keyless" (held (ssmConfiguration failing)) failing)
    by (split; [vm_compute; reflexivity | left; split; vm_compute; reflexivity]).
  assert (Hsf : faulty (ssmFile failing) = false) by (vm_compute; reflexivity).
  destruct (@generateKey_half_done platform failing (held (configuration failing))
              (held (ssmConfiguration failing)) Hstate Hc Hk Hnf Hs Hsf)
    as (w' & Hrun & Hfile & _ & Hcontroller & Hmodule & _).
  exists w'. split; [exact Hrun |]. split; [exact Hfile |].
  split; [exact Hcontroller | exact Hmodule].
Defined.


Lemma refreshed_key_in_use_witness :
  exists (refreshed document : Component) (w1 w2 : World),
    DigitalNotary.refreshKey enabled = (Ok refreshed, w1) /\
    DigitalNotary.notarizeComponent plain w1 = (Ok document, w2) /\
    getValue document "$signature"
    = Some (binary (sign (toString (extraction document DigitalNotary.signedAttributes))
                      "P3" "S3")).
Proof.
  assert (Hn : notaryIn "$enabled" (held (configuration enabled)) enabled)
    by (split; [vm_compute; reflexivity | left; split; vm_compute; reflexivity]).
  assert (Hs : ssmIn "$loneKey" (held (ssmConfiguration enabled)) enabled)
    by (split; [vm_compute; reflexivity | left; split; vm_compute; reflexivity]).
  assert (Hd : DigitalNotary.isCatalog plain = true \/ debug enabled <= 1)
    by (left; reflexivity).
  assert (Hnf : faulty (notaryFile enabled) = false) by (vm_compute; reflexivity).
  assert (Hsf : faulty (ssmFile enabled) = false) by (vm_compute; reflexivity).
  assert (Hc : getValue (held (configuration enabled)) "$citation"
               = Some (held (getValue (held (configuration enabled)) "$citation")))
    by (vm_compute; reflexivity).
  assert (Ht : getValue (held (getValue (held (configuration enabled)) "$citation")) "$tag"
               = Some (Element (Tag "2") [])) by (vm_compute; reflexivity).
  assert (Hv : getValue (held (getValue (held (configuration enabled)) "$citation")) "$version"
               = Some (version [1%positive])) by (vm_compute; reflexivity).
  assert (Hp : getValue (held (ssmConfiguration enabled)) "$publicKey" = Some (binary "P1"))
    by (vm_compute; reflexivity).
  assert (Hk : getValue (held (ssmConfiguration enabled)) "$privateKey" = Some (binary "S1"))
    by (vm_compute; reflexivity).
  assert (Hseed : createKeyPair (random (drawn enabled)) = ("P3", "S3"))
    by (vm_compute; reflexivity).
  destruct (@refreshed_key_in_use platform enabled (held (configuration enabled))
              (held (ssmConfiguration enabled))
              (held (getValue (held (configuration enabled)) "$citation"))
              (Element (Tag "2") []) (version [1%positive]) (version [2%positive])
              "P1" "S1" plain Hn Hs Hd Hnf Hsf Hc Ht Hv eq_refl Hp Hk)
    as (w1 & w2 & sc' & Hrun & _ & _ & _ & _ & _ & _ & _ & Hsign & _).
  rewrite Hseed in Hsign.
  eexists. eexists. exists w1, w2.
  split; [exact Hrun |]. split; [exact Hsign | reflexivity].
Defined.

Lemma module_stays_coherent_witness :
  coherent (session [Event GenerateKeys; Event RotateKeys; Event (SignBytes "message");
                     GetTag; Event RotateKeys; EraseKeys; Event (SignBytes "message")] fresh) /\
  forall r : SsmRequest,
    (exists answer,
        fst (invokeSsm r
               (session [Event GenerateKeys; Event RotateKeys; Event (SignBytes "message");
                         GetTag; Event RotateKeys; EraseKeys; Event (SignBytes "message")]
                  fresh)) = Ok answer) \/
    fst (invokeSsm r
           (session [Event GenerateKeys; Event RotateKeys; Event (SignBytes "message");
                     GetTag; Event RotateKeys; EraseKeys; Event (SignBytes "message")] fresh))
    = Throw (refused SSM.moduleName (ssmEvent r)).
Proof.
  assert (Hb : ssmBlank fresh) by (repeat split).
  exact (@module_stays_coherent platform
           [Event GenerateKeys; Event RotateKeys; Event (SignBytes "message");
            GetTag; Event RotateKeys; EraseKeys; Event (SignBytes "message")] fresh Hb).
Defined.


Lemma notary_stays_in_step_witness :
  inStep (notarySession
            [Request GenerateKey; Request (NotarizeComponent certificate);
             Request (ActivateKey selfSigned); Request RefreshKey; Request GetCitation;
             Request (ActivateKey forged); ForgetKey; Request GetCitation] fresh) /\
  forall r : NotaryRequest,
    wellFormed r ->
    (exists answer,
        fst (invokeNotary r
               (notarySession
                  [Request GenerateKey; Request (NotarizeComponent certificate);
                   Request (ActivateKey selfSigned); Request RefreshKey; Request GetCitation;
                   Request (ActivateKey forged); ForgetKey; Request GetCitation] fresh))
        = Ok answer) \/
    fst (invokeNotary r
           (notarySession
              [Request GenerateKey; Request (NotarizeComponent certificate);
               Request (ActivateKey selfSigned); Request RefreshKey; Request GetCitation;
               Request (ActivateKey forged); ForgetKey; Request GetCitation] fresh))
    = Throw (refused DigitalNotary.moduleName (notaryEvent r)).
Proof.
  assert (Hn : notaryBlank fresh) by (repeat split).
  assert (Hs : ssmBlank fresh) by (repeat split).
  assert (Hcalls : Forall versioned
            [Request GenerateKey; Request (NotarizeComponent certificate);
             Request (ActivateKey selfSigned); Request RefreshKey; Request GetCitation;
             Request (ActivateKey forged); ForgetKey; Request GetCitation])
    by (repeat constructor;
        intros component E; vm_compute in E; injection E as <-; reflexivity).
  exact (@notary_stays_in_step platform
           [Request GenerateKey; Request (NotarizeComponent certificate);
            Request (ActivateKey selfSigned); Request RefreshKey; Request GetCitation;
            Request (ActivateKey forged); ForgetKey; Request GetCitation] fresh Hn Hs
           Hcalls).
Defined.


Lemma dropDollars_plain (buffer : string) : lacks "$" (dropDollars buffer) = true.
Proof.
  induction buffer as [| a r IH]; simpl; [reflexivity |].
  destruct (Ascii.eqb a "$") eqn:E; [exact IH |].
  simpl. rewrite E, IH. reflexivity.
Qed.

Lemma cite_fills_template_witness :
  @V1.cite sampleCodec "#TAG" "v2" (Some "document")
  = "<bali:[$protocol:v1,$tag:#TAG,$version:v2,$digest:'document']>".
Proof.
  exact (proj1 (@cite_fills_template sampleCodec "#TAG" "v2" (Some "document")
                  eq_refl eq_refl eq_refl eq_refl dropDollars_plain)).
Defined.

Lemma encodedToBuffer_strips_quotes_witness :
  @V1.encodedToBuffer sampleCodec (@V1.bufferToEncoded sampleCodec "buffer" None) = "buffer".
Proof.
  exact (proj1 (@encodedToBuffer_strips_quotes sampleCodec "buffer" "message" None eq_refl)).
Defined.
